(** * dc.js [BaseMixin]: filter set, filter application, render lifecycle
      and group redraw, verified against [src/base/base-mixin.ts].

    The development is a shallow embedding.  JavaScript values are kept
    abstract behind the interface [JsValue] (what the mixin needs from a
    value: the relational comparison, the two nullish tests, the
    [isFiltered] / [filterType] properties and the [instanceof Array]
    view); two concrete value domains instantiate it.  Methods of the
    class become functions in a small monad that threads the chart,
    accumulates the calls made to collaborators (dimension, listeners,
    chart group, console) and may throw.  Arrays are given by their
    contents; the one array that the code changes under two names, the
    chart's own filter array, is followed as such through [filter]. *)

From Stdlib Require Import List String Ascii ZArith Bool Permutation Lia.
Import ListNotations.
Local Open Scope string_scope.
Local Open Scope list_scope.

Set Implicit Arguments.
Set Warnings "-register-all".

(* ================================================================== *)
(** ** JavaScript values, as far as the mixin looks at them *)
(* ================================================================== *)

(** [js_lt a b] is the abstract relational comparison [a < b] of
    ECMAScript: [Some true], [Some false] or [None] for "undefined" (an
    operand converted to NaN).  [js_truthy v] is ToBoolean.  [isFiltered v] is the property
    [v.isFiltered] when it is present (a function whose result is read
    for truthiness), [filterType v] the property [v.filterType] when it
    is a string, [as_array v] the elements of [v] when
    [v instanceof Array]. *)
Class JsValue (V : Type) : Type := {
  is_null : V -> bool;
  is_undefined : V -> bool;
  js_lt : V -> V -> option bool;
  js_truthy : V -> bool;
  isFiltered : V -> option (V -> bool);
  filterType : V -> option string;
  as_array : V -> option (list V)
}.

Section Comparison.
Context {V : Type} `{JsValue V}.

(** [a <= b]: false when [b < a] is true or undefined. *)
Definition js_le (a b : V) : bool :=
  match js_lt b a with
  | Some false => true
  | _ => false
  end.

(** [a >= b]: false when [a < b] is true or undefined. *)
Definition js_ge (a b : V) : bool :=
  match js_lt a b with
  | Some false => true
  | _ => false
  end.

(** Reading a property of [null] or [undefined] throws. *)
Definition is_nullish (v : V) : bool := is_null v || is_undefined v.

End Comparison.

(* ================================================================== *)
(** ** Exceptions and results *)
(* ================================================================== *)

(** What the modelled methods throw: the engine's [TypeError] (a
    property read on [null] / [undefined], a call of something that is
    not a function), the [InvalidStateException] of [core], and whatever
    a collaborator throws.  [NotModelled a] is no exception of the code:
    a run that ends in it has called the member [a] of the mixin, which
    this development does not describe, and says nothing about the code
    from there on. *)
Inductive exn : Type :=
| TypeError
| InvalidStateException (msg : string)
| CollaboratorError (msg : string)
| NotModelled (member_name : string).

Inductive outcome (A : Type) : Type :=
| Return (a : A)
| Throw (e : exn).

Arguments Return {A} a.
Arguments Throw {A} e.

(* ================================================================== *)
(** ** Calls observed on the collaborators *)
(* ================================================================== *)

(** Modelled from the spec: the data source adapter ([MinimalCFDimension]
    of [core/types], not part of this file) offers [filter(null)],
    [filterExact(value)], [filterRange(range)] and
    [filterFunction(fn)]; the calls made on it are what is observed. *)
Inductive dim_call (V : Type) : Type :=
| DimFilterNull                                   (* dimension.filter(null) *)
| DimFilterExact (v : V)                          (* dimension.filterExact(v) *)
| DimFilterRange (r : V)                          (* dimension.filterRange(r) *)
| DimFilterFunction (p : V -> outcome bool).      (* dimension.filterFunction(p) *)

Arguments DimFilterNull {V}.

Inductive event (V : Type) : Type :=
| EvFilterHandler (filters : list V)   (* conf.filterHandler(dimension, filters) entered *)
| EvDimension (call : dim_call V)
| EvListener (channel : string) (payload : option V)  (* _listeners.call(channel, this, this[, f]) *)
| EvTurnOnControls
| EvTurnOffControls
| EvDoRender
| EvLegendRender
| EvTransition (duration delay : Z) (on_end : list (event V))
    (* _svg.transition().duration(..).delay(..).on('end', callback): the
       callback is registered, not run; [on_end] is what it calls if and
       when the transition ends *)
| EvConsoleLog (v : V)
| EvRedrawAll
| EvRenderAll.

Arguments EvTurnOnControls {V}.
Arguments EvTurnOffControls {V}.
Arguments EvDoRender {V}.
Arguments EvLegendRender {V}.
Arguments EvTransition {V} duration delay on_end.
Arguments EvRedrawAll {V}.
Arguments EvRenderAll {V}.
Arguments EvListener {V} channel payload.

(* ================================================================== *)
(** ** The default handler bundle (lines 28-77) *)
(* ================================================================== *)

Section DefaultHandlers.
Context {V : Type} `{JsValue V}.

(** The closed-range test [f <= d && f >= d]. *)
Definition closed_range (f d : V) : bool := js_le f d && js_ge f d.

(** Body of the arrow function handed to [dimension.filterFunction]:
    the [for] loop over [filters], with its early [return true]. *)
Fixpoint filterFunction_body (filters : list V) (d : V) : outcome bool :=
  match filters with
  | [] => Return false
  | filter :: rest =>
      if is_nullish filter then Throw TypeError
      else match isFiltered filter with
           | Some test =>
               if test d then Return true else filterFunction_body rest d
           | None =>
               if closed_range filter d then Return true
               else filterFunction_body rest d
           end
  end.

(** [_defaultFilterHandler(dimension, filters)]: the calls it makes on
    the dimension and the list it returns. *)
Definition _defaultFilterHandler (filters : list V)
  : outcome (list (dim_call V) * option (list V)) :=
  match filters with
  | [] => Return ([DimFilterNull], Some filters)
  | [f0] =>
      if is_nullish f0 then Throw TypeError
      else match isFiltered f0 with
           | None => Return ([DimFilterExact f0], Some filters)
           | Some _ =>
               match filterType f0 with
               | Some t =>
                   if (t =? "RangedFilter")%string
                   then Return ([DimFilterRange f0], Some filters)
                   else Return ([DimFilterFunction (filterFunction_body filters)],
                                Some filters)
               | None =>
                   Return ([DimFilterFunction (filterFunction_body filters)],
                           Some filters)
               end
           end
  | _ => Return ([DimFilterFunction (filterFunction_body filters)], Some filters)
  end.

(** [_defaultHasFilterHandler(filters, filter)]; the probe is [None]
    when the argument is omitted. *)
Definition _defaultHasFilterHandler (filters : list V) (filter : option V) : bool :=
  match filter with
  | None => (0 <? List.length filters)%nat
  | Some x =>
      if is_null x || is_undefined x then (0 <? List.length filters)%nat
      else existsb (fun f => js_le x f && js_ge x f) filters
  end.

(** [_defaultRemoveFilterHandler]: splice out the first entry that
    passes [filters[i] <= filter && filters[i] >= filter]. *)
Fixpoint _defaultRemoveFilterHandler (filters : list V) (filter : V) : list V :=
  match filters with
  | [] => []
  | f :: rest =>
      if js_le f filter && js_ge f filter then rest
      else f :: _defaultRemoveFilterHandler rest filter
  end.

(** [_defaultAddFilterHandler]: [filters.push(filter)]. *)
Definition _defaultAddFilterHandler (filters : list V) (filter : V) : list V :=
  filters ++ [filter].

(** [_defaultResetFilterHandler]. *)
Definition _defaultResetFilterHandler (filters : list V) : list V := [].

End DefaultHandlers.

(* ================================================================== *)
(** ** The chart object *)
(* ================================================================== *)

(** [this._conf.dimension]: the only thing the mixin itself reads from
    it is whether its [filter] property is truthy. *)
Record cf_dimension : Type := { dim_filter : bool }.

(** [this._anchor]: never set, a selector string, or a DOM element (of
    which [anchorName] reads the [id]). *)
Inductive anchor_t : Type :=
| AnchorUndefined
| AnchorSelector (selector : string)
| AnchorElement (id : string).

(** [this._root] is compared with [null] and read for truthiness. *)
Inductive root_t : Type :=
| RootUndefined
| RootNull
| RootSelection.

(** What [this[a]] can be for an attribute name [a]: [undefined] or
    another falsy value; a function, with what calling it without
    arguments gives (the truthiness of the value it returns, or the
    exception it throws); a truthy value that is not a function; or a
    member of the mixin that this development does not describe. *)
Inductive member : Type :=
| MemberAbsent
| MemberAccessor (result : outcome bool)
| MemberNotCallable
| MemberOutside.

(** Modelled from the spec: the chart group ([IChartGroup] of
    [core/chart-group-types], not part of this file) exposes
    [redrawAll()] and [renderAll()].  The mixin holds whatever object
    [anchor] or [chartGroup] was given or the registry handed out, and
    only calls these two methods on it: the calls are what is observed,
    together with the exception that comes back, if one does.  What the
    group does inside the call (a group of the registry calls
    [redraw()] / [render()] on every member, the calling chart
    included) is not followed: after a group call the chart of a run is
    the chart as it was before the call. *)
Record chart_group : Type := {
  redrawAll_throws : option exn;
  renderAll_throws : option exn
}.

Section Chart.
Context {V : Type} `{JsValue V}.

(** Effects of code that runs outside the chart's own state: the calls
    it makes and whether it throws. *)
Definition act : Type := list (event V) * option exn.

(** A commit handler takes the flag and the completion callback
    [(error, result) => ...]; what it does with the callback (call it
    at once, later, never) shows in the calls it makes. *)
Definition commit_handler : Type := bool -> (V -> V -> act) -> act.

(** [this._conf], as far as the modelled methods read it.  The remove,
    add and reset handlers are given by the contents of the array they
    return, as a function of the contents of the array they are handed,
    and by whether that is one array or two: a handler works in place
    when it changes the array it is handed and returns it (the default
    remove and add handlers [splice] and [push]), and does not when it
    leaves that array as it is and returns another one (the default
    reset handler returns a new [[]]). *)
Record Conf : Type := {
  dimension : option cf_dimension;
  transitionDuration : Z;
  transitionDelay : Z;
  commitHandler : option commit_handler;
  filterHandler : list V -> outcome (list (dim_call V) * option (list V));
  hasFilterHandler : list V -> option V -> bool;
  removeFilterHandler : list V -> V -> list V;
  addFilterHandler : list V -> V -> list V;
  resetFilterHandler : list V -> list V;
  removeInPlace : bool;
  addInPlace : bool;
  resetInPlace : bool
}.

Record Chart : Type := {
  _conf : Conf;
  __dcFlag__ : string;
  _group : bool;                         (* a group object is bound *)
  _anchor : anchor_t;
  _root : root_t;
  _svg : bool;
  _legend : bool;
  _width : option Z;
  _height : option Z;
  _mandatoryAttributesList : option (list string);
  _chartGroup : option chart_group;
  _filters : list V;
  chart_type_members : string -> member  (* members a concrete chart type adds *)
}.

Definition set_filters (fs : list V) (c : Chart) : Chart :=
  {| _conf := _conf c; __dcFlag__ := __dcFlag__ c; _group := _group c;
     _anchor := _anchor c; _root := _root c; _svg := _svg c;
     _legend := _legend c; _width := _width c; _height := _height c;
     _mandatoryAttributesList := _mandatoryAttributesList c;
     _chartGroup := _chartGroup c; _filters := fs;
     chart_type_members := chart_type_members c |}.

Definition set_conf (conf : Conf) (c : Chart) : Chart :=
  {| _conf := conf; __dcFlag__ := __dcFlag__ c; _group := _group c;
     _anchor := _anchor c; _root := _root c; _svg := _svg c;
     _legend := _legend c; _width := _width c; _height := _height c;
     _mandatoryAttributesList := _mandatoryAttributesList c;
     _chartGroup := _chartGroup c; _filters := _filters c;
     chart_type_members := chart_type_members c |}.

Definition reset_size (c : Chart) : Chart :=
  {| _conf := _conf c; __dcFlag__ := __dcFlag__ c; _group := _group c;
     _anchor := _anchor c; _root := _root c; _svg := _svg c;
     _legend := _legend c; _width := None; _height := None;
     _mandatoryAttributesList := _mandatoryAttributesList c;
     _chartGroup := _chartGroup c; _filters := _filters c;
     chart_type_members := chart_type_members c |}.

(** *** The method monad: chart state, observed calls, exceptions.
    A throw keeps the state and the calls made so far. *)

Definition M (A : Type) : Type := Chart -> outcome A * Chart * list (event V).

Definition ret {A : Type} (a : A) : M A := fun c => (Return a, c, []).

Definition bind {A B : Type} (m : M A) (k : A -> M B) : M B :=
  fun c =>
    match m c with
    | (Return a, c1, t1) =>
        match k a c1 with
        | (r, c2, t2) => (r, c2, t1 ++ t2)
        end
    | (Throw e, c1, t1) => (Throw e, c1, t1)
    end.

Definition throw {A : Type} (e : exn) : M A := fun c => (Throw e, c, []).
Definition emit (e : event V) : M unit := fun c => (Return tt, c, [e]).
Definition get : M Chart := fun c => (Return c, c, []).
Definition modify (f : Chart -> Chart) : M unit := fun c => (Return tt, f c, []).

(** Run effects of the outside world inside a method. *)
Definition perform (a : act) : M unit :=
  fun c =>
    match a with
    | (t, None) => (Return tt, c, t)
    | (t, Some e) => (Throw e, c, t)
    end.

End Chart.

Arguments Conf V : clear implicits.
Arguments Chart V : clear implicits.
Arguments M V A : clear implicits.
Arguments act V : clear implicits.
Arguments commit_handler V : clear implicits.

Declare Scope method_scope.
Delimit Scope method_scope with method.
Notation "x <- m ;; k" := (bind m (fun x => k))
  (at level 61, m at next level, right associativity) : method_scope.
Notation "m ;; k" := (bind m (fun _ => k))
  (at level 61, right associativity) : method_scope.
Local Open Scope method_scope.

(* ================================================================== *)
(** ** Methods of [BaseMixin] *)
(* ================================================================== *)

Section Methods.
Context {V : Type} `{JsValue V}.

(** The configuration the constructor installs (lines 117-135), with
    [this._conf.dimension = undefined]. *)
Definition default_conf : Conf V :=
  {| dimension := None;
     transitionDuration := 750;
     transitionDelay := 0;
     commitHandler := None;
     filterHandler := _defaultFilterHandler;
     hasFilterHandler := _defaultHasFilterHandler;
     removeFilterHandler := _defaultRemoveFilterHandler;
     addFilterHandler := _defaultAddFilterHandler;
     resetFilterHandler := _defaultResetFilterHandler;
     removeInPlace := true;
     addInPlace := true;
     resetInPlace := false |}.

(** The chart the constructor leaves (lines 114-182); [id] is the
    string of [uniqueId()]. *)
Definition new_chart (id : string) : Chart V :=
  {| _conf := default_conf;
     __dcFlag__ := id;
     _group := false;
     _anchor := AnchorUndefined;
     _root := RootUndefined;
     _svg := false;
     _legend := false;
     _width := None;
     _height := None;
     _mandatoryAttributesList := Some ["dimension"; "group"];
     _chartGroup := None;
     _filters := [];
     chart_type_members := fun _ => MemberAbsent |}.

(** *** Anchor name (lines 407-417, 993-995) *)

Definition chartID (c : Chart V) : string := __dcFlag__ c.

(** [a.replace('#', '')]: drops the first ['#'] only. *)
Fixpoint remove_first_hash (s : string) : string :=
  match s with
  | EmptyString => EmptyString
  | String ch rest =>
      if Ascii.eqb ch "#"%char then rest
      else String ch (remove_first_hash rest)
  end.

Definition is_empty (s : string) : bool :=
  match s with
  | EmptyString => true
  | String _ _ => false
  end.

Definition anchorName (c : Chart V) : string :=
  let fallback := ("dc-chart" ++ chartID c)%string in
  match _anchor c with
  | AnchorUndefined => fallback
  | AnchorSelector a => if is_empty a then fallback else remove_first_hash a
  | AnchorElement id => if is_empty id then fallback else id
  end.

(** *** Controls (lines 496-518): touch the DOM only under a root. *)

Definition root_truthy (r : root_t) : bool :=
  match r with
  | RootSelection => true
  | _ => false
  end.

Definition root_not_null (r : root_t) : bool :=
  match r with
  | RootNull => false
  | _ => true
  end.

Definition turnOnControls : M V unit :=
  c <- get ;;
  if root_truthy (_root c) then emit EvTurnOnControls else ret tt.

Definition turnOffControls : M V unit :=
  c <- get ;;
  if root_truthy (_root c) then emit EvTurnOffControls else ret tt.

(** *** Filters (lines 647-787) *)

(** [_invokeFilteredListener(f)]. *)
Definition _invokeFilteredListener (f : V) : M V unit :=
  if is_undefined f then ret tt
  else emit (EvListener "filtered" (Some f)).

(** [hasFilter(filter?)]. *)
Definition hasFilter (c : Chart V) (filter : option V) : bool :=
  hasFilterHandler (_conf c) (_filters c) filter.

(** [applyFilters(filters)]. *)
Definition applyFilters (filters : list V) : M V (list V) :=
  c <- get ;;
  match dimension (_conf c) with
  | Some d =>
      if dim_filter d then
        emit (EvFilterHandler filters) ;;
        match filterHandler (_conf c) filters with
        | Throw e => throw e
        | Return (calls, fs) =>
            perform (map (@EvDimension V) calls, None) ;;
            match fs with
            | Some fs' => ret fs'
            | None => ret filters
            end
        end
      else ret filters
  | None => ret filters
  end.

(** [filter()] without arguments (line 745); [None] is [null]. *)
Definition filter_get (c : Chart V) : option V :=
  match _filters c with
  | [] => None
  | f0 :: _ => Some f0
  end.

(** The test of line 749,
    [filter instanceof Array && filter[0] instanceof Array && !filter.isFiltered],
    giving the elements of [filter[0]] when it holds. *)
Definition batch_elements (filter : V) : option (list V) :=
  match as_array filter with
  | Some (first :: _) =>
      match as_array first with
      | Some inner =>
          match isFiltered filter with
          | None => Some inner
          | Some _ => None
          end
      | None => None
      end
  | _ => None
  end.

(** One toggle (lines 752-756 and 761-765), as the contents of the
    array it leaves in [filters]. *)
Definition toggle (conf : Conf V) (filters : list V) (f : V) : list V :=
  if hasFilterHandler conf filters (Some f)
  then removeFilterHandler conf filters f
  else addFilterHandler conf filters f.

(** [filter(filter)] begins with [let filters = this._filters]: the
    variable names the chart's own array, and goes on naming it as long
    as the handlers work in place.  [own_array] is what the array
    [this._filters] holds; [other_array] is [None] while [filters] is
    that array, and [Some l] once it is another array, holding [l]. *)
Record working : Type := {
  own_array : list V;
  other_array : option (list V)
}.

(** What the variable [filters] holds. *)
Definition current (w : working) : list V :=
  match other_array w with
  | Some l => l
  | None => own_array w
  end.

(** One assignment [filters = handler(filters, ...)]. *)
Definition handle (in_place : bool) (handler : list V -> list V) (w : working)
  : working :=
  match other_array w with
  | None =>
      if in_place
      then {| own_array := handler (own_array w); other_array := None |}
      else {| own_array := own_array w;
              other_array := Some (handler (own_array w)) |}
  | Some l => {| own_array := own_array w; other_array := Some (handler l) |}
  end.

(** The toggle of lines 752-756 and 761-765 on the arrays. *)
Definition toggle_array (conf : Conf V) (w : working) (f : V) : working :=
  if hasFilterHandler conf (current w) (Some f)
  then handle (removeInPlace conf) (fun l => removeFilterHandler conf l f) w
  else handle (addInPlace conf) (fun l => addFilterHandler conf l f) w.

(** [filter[0].forEach(f => ...)] when [filter[0]] is the chart's own
    array, which the callback may change: [forEach] reads the length
    once ([remaining] counts down from it) and visits the index [k] only
    if the array still has an entry there, reading the entry as it is
    then. *)
Fixpoint forEach_own (conf : Conf V) (remaining k : nat) (w : working) : working :=
  match remaining with
  | O => w
  | S n =>
      forEach_own conf n (S k)
        match nth_error (own_array w) k with
        | Some f => toggle_array conf w f
        | None => w
        end
  end.

(** Lines 747-766: the arrays when the list is about to be applied.
    [shared] says that the inner array of a batch is the chart's own
    array, as in [chart.filter([chart.filters()])]; every other array
    of the argument is taken to be an array of its own, whose elements
    the handlers do not change. *)
Definition mutation (conf : Conf V) (shared : bool) (filters : list V) (filter : V)
  : working :=
  let w := {| own_array := filters; other_array := None |} in
  match batch_elements filter with
  | Some inner =>
      if shared then forEach_own conf (List.length filters) 0 w
      else fold_left (toggle_array conf) inner w
  | None =>
      if is_null filter
      then handle (resetInPlace conf) (resetFilterHandler conf) w
      else toggle_array conf w filter
  end.

(** The list computed by lines 747-766 (what [filters] holds at line
    767) for an argument that shares no array with the chart. *)
Definition mutate (conf : Conf V) (filters : list V) (filter : V) : list V :=
  current (mutation conf false filters filter).

(** [filter(filter)] with an argument (lines 747-776).  What the
    handlers have done in place to the chart's own array is there
    before the list is applied, and stays if the filter handler throws.
    The [filtered] payload is the argument. *)
Definition filter_call (shared : bool) (filter : V) : M V unit :=
  c <- get ;;
  modify (set_filters (own_array (mutation (_conf c) shared (_filters c) filter))) ;;
  fs <- applyFilters (current (mutation (_conf c) shared (_filters c) filter)) ;;
  modify (set_filters fs) ;;
  _invokeFilteredListener filter ;;
  c' <- get ;;
  if root_not_null (_root c') && hasFilter c' None
  then turnOnControls
  else turnOffControls.

(** [filter(filter)] with an argument that shares no array with the
    chart. *)
Definition filter (filter : V) : M V unit := filter_call false filter.

(** [replaceFilter(filter)] (lines 685-689), with an argument that shares
    no array with the chart. *)
Definition replaceFilter (f : V) : M V unit :=
  c <- get ;;
  modify (set_filters (resetFilterHandler (_conf c) (_filters c))) ;;
  filter f.

(** [filters()]. *)
Definition filters (c : Chart V) : list V := _filters c.

(** *** Render (lines 530-579) *)

(** Truthiness of a string, of [this._anchor] and of an optional
    field. *)
Definition truthy_string (s : string) : bool := negb (is_empty s).

Definition anchor_truthy (a : anchor_t) : bool :=
  match a with
  | AnchorUndefined => false
  | AnchorSelector selector => truthy_string selector
  | AnchorElement _ => true
  end.

Definition is_some {A : Type} (x : option A) : bool :=
  match x with
  | Some _ => true
  | None => false
  end.

(** A method of the mixin that only reads the chart, by the truthiness
    of what it returns without arguments; and a field, which is no
    function. *)
Definition getter (truthy_result : bool) : member :=
  MemberAccessor (Return truthy_result).

Definition field (truthy_value : bool) : member :=
  if truthy_value then MemberNotCallable else MemberAbsent.

(** The members of the mixin itself that the chart of this development
    determines: the getters that read it, and its fields. *)
Definition own_members (c : Chart V) : list (string * member) :=
  [ ("group", getter (_group c));
    ("filters", getter true);
    ("filter", getter match filter_get c with
                      | Some f => js_truthy f
                      | None => false
                      end);
    ("hasFilter", getter (hasFilter c None));
    ("chartID", getter (truthy_string (chartID c)));
    ("anchorName", getter (truthy_string (anchorName c)));
    ("anchor", getter (anchor_truthy (_anchor c)));
    ("root", getter (root_truthy (_root c)));
    ("svg", getter (_svg c));
    ("legend", getter (_legend c));
    ("chartGroup", getter (is_some (_chartGroup c)));
    ("_mandatoryAttributes", getter (is_some (_mandatoryAttributesList c)));
    ("_conf", field true);
    ("__dcFlag__", field (truthy_string (__dcFlag__ c)));
    ("_group", field (_group c));
    ("_anchor", field (anchor_truthy (_anchor c)));
    ("_root", field (root_truthy (_root c)));
    ("_svg", field (_svg c));
    ("_legend", field (_legend c));
    ("_width", field match _width c with
                     | Some w => negb (w =? 0)%Z
                     | None => false
                     end);
    ("_height", field match _height c with
                      | Some h => negb (h =? 0)%Z
                      | None => false
                      end);
    ("_mandatoryAttributesList", field (is_some (_mandatoryAttributesList c)));
    ("_chartGroup", field (is_some (_chartGroup c)));
    ("_filters", field true) ].

(** The other members of the mixin (methods that do more than read the
    chart, or read what is not part of it; the remaining fields) and
    the members every object inherits: calling one of them as a
    mandatory attribute is not described here. *)
Definition outside_model : list string :=
  [ "configure"; "height"; "width"; "data"; "_computeOrderedGroups";
    "filterAll"; "select"; "selectAll"; "_getChartGroup"; "resetSvg";
    "sizeSvg"; "generateSvg"; "turnOnControls"; "turnOffControls";
    "checkForMandatoryAttributes"; "render"; "_activateRenderlets";
    "redraw"; "redrawGroup"; "renderGroup"; "_invokeFilteredListener";
    "_invokeZoomedListener"; "applyFilters"; "replaceFilter";
    "highlightSelected"; "fadeDeselected"; "resetHighlight"; "onClick";
    "_doRender"; "_doRedraw"; "legendables"; "legendHighlight";
    "legendReset"; "legendToggle"; "isLegendableHidden"; "keyAccessor";
    "valueAccessor"; "title"; "expireCache"; "options"; "on"; "renderlet";
    "_isChild"; "_defaultWidthCalc"; "_widthCalc"; "_defaultHeightCalc";
    "_heightCalc"; "_keyAccessor"; "_valueAccessor"; "_title";
    "_renderTitle"; "_listeners"; "_defaultData"; "_data"; "_groupName";
    "constructor"; "toString"; "toLocaleString"; "valueOf";
    "hasOwnProperty"; "isPrototypeOf"; "propertyIsEnumerable"; "__proto__";
    "__defineGetter__"; "__defineSetter__"; "__lookupGetter__";
    "__lookupSetter__" ].

Fixpoint assoc (a : string) (l : list (string * member)) : option member :=
  match l with
  | [] => None
  | (name, m) :: rest => if (a =? name)%string then Some m else assoc a rest
  end.

(** [this[a]] for an attribute name [a]: a member of the mixin itself
    ([group] is its accessor of lines 300-310; it has no [dimension]
    method, the dimension lives in [_conf]), or else a member the
    concrete chart type adds.  (A chart type that redefines a member of
    the mixin is not described.) *)
Definition lookup_member (c : Chart V) (a : string) : member :=
  match assoc a (own_members c) with
  | Some m => m
  | None =>
      if existsb (String.eqb a) outside_model then MemberOutside
      else chart_type_members c a
  end.

Definition mandatory_message (a : string) (c : Chart V) : string :=
  ("Mandatory attribute chart." ++ a ++ " is missing on chart[#"
     ++ anchorName c ++ "]")%string.

(** [checkForMandatoryAttributes(a)]:
    [if (!this[a] || !this[a]()) throw new InvalidStateException(...)]. *)
Definition checkForMandatoryAttributes (a : string) : M V unit :=
  c <- get ;;
  match lookup_member c a with
  | MemberAbsent => throw (InvalidStateException (mandatory_message a c))
  | MemberAccessor (Return false) =>
      throw (InvalidStateException (mandatory_message a c))
  | MemberAccessor (Return true) => ret tt
  | MemberAccessor (Throw e) => throw e
  | MemberNotCallable => throw TypeError
  | MemberOutside => throw (NotModelled a)
  end.

(** [_mandatoryAttributes(list)] (lines 520-528), the setter. *)
Definition _mandatoryAttributes (l : list string) (c : Chart V) : Chart V :=
  {| _conf := _conf c; __dcFlag__ := __dcFlag__ c; _group := _group c;
     _anchor := _anchor c; _root := _root c; _svg := _svg c;
     _legend := _legend c; _width := _width c; _height := _height c;
     _mandatoryAttributesList := Some l;
     _chartGroup := _chartGroup c; _filters := _filters c;
     chart_type_members := chart_type_members c |}.

(** [list.forEach(e => ...)] in the monad. *)
Fixpoint forEach {A : Type} (f : A -> M V unit) (l : list A) : M V unit :=
  match l with
  | [] => ret tt
  | a :: rest => f a ;; forEach f rest
  end.

(** The listener calls that end [_activateRenderlets(event)]:
    [renderlet], and the channel [event] if it is given (and not the
    empty string). *)
Definition renderlet_calls (channel : option string) : list (event V) :=
  EvListener "renderlet" None ::
  match channel with
  | Some ev => if is_empty ev then [] else [EvListener ev None]
  | None => []
  end.

(** [_activateRenderlets(event)] (lines 563-579): with a transition the
    closing listener calls are only handed to the transition, as its
    ['end'] callback; without one they are made in the call. *)
Definition _activateRenderlets (event : option string) : M V unit :=
  c <- get ;;
  emit (EvListener "pretransition" None) ;;
  if (0 <? transitionDuration (_conf c))%Z && _svg c
  then emit (EvTransition (transitionDuration (_conf c)) (transitionDelay (_conf c))
               (renderlet_calls event))
  else perform (renderlet_calls event, None).

(** [render()]; [_doRender] is the draw step of the chart type. *)
Definition render : M V unit :=
  modify reset_size ;;
  emit (EvListener "preRender" None) ;;
  c <- get ;;
  match _mandatoryAttributesList c with
  | Some l => forEach checkForMandatoryAttributes l
  | None => ret tt
  end ;;
  emit EvDoRender ;;
  (if _legend c then emit EvLegendRender else ret tt) ;;
  _activateRenderlets (Some "postRender").

(** *** Group redraw and render (lines 612-645) *)

Definition group_redrawAll (c : Chart V) : act V :=
  match _chartGroup c with
  | None => ([], Some TypeError)
  | Some g => ([EvRedrawAll], redrawAll_throws g)
  end.

Definition group_renderAll (c : Chart V) : act V :=
  match _chartGroup c with
  | None => ([], Some TypeError)
  | Some g => ([EvRenderAll], renderAll_throws g)
  end.

(** The callback of line 614. *)
Definition redrawGroup_callback (c : Chart V) (error result : V) : act V :=
  if js_truthy error then ([EvConsoleLog error], None)
  else group_redrawAll c.

(** The callback of line 634. *)
Definition renderGroup_callback (c : Chart V) (error result : V) : act V :=
  if js_truthy error then ([EvConsoleLog error], None)
  else group_renderAll c.

Definition redrawGroup : M V unit :=
  c <- get ;;
  match commitHandler (_conf c) with
  | Some handler => perform (handler false (redrawGroup_callback c))
  | None => perform (group_redrawAll c)
  end.

Definition renderGroup : M V unit :=
  c <- get ;;
  match commitHandler (_conf c) with
  | Some handler => perform (handler false (renderGroup_callback c))
  | None => perform (group_renderAll c)
  end.

(** *** [configure(conf)] (lines 184-186), one key at a time *)

Definition configure_dimension (d : option cf_dimension) (c : Chart V) : Chart V :=
  set_conf {| dimension := d;
              transitionDuration := transitionDuration (_conf c);
              transitionDelay := transitionDelay (_conf c);
              commitHandler := commitHandler (_conf c);
              filterHandler := filterHandler (_conf c);
              hasFilterHandler := hasFilterHandler (_conf c);
              removeFilterHandler := removeFilterHandler (_conf c);
              addFilterHandler := addFilterHandler (_conf c);
              resetFilterHandler := resetFilterHandler (_conf c);
              removeInPlace := removeInPlace (_conf c);
              addInPlace := addInPlace (_conf c);
              resetInPlace := resetInPlace (_conf c) |} c.

Definition configure_commitHandler (h : option (commit_handler V)) (c : Chart V)
  : Chart V :=
  set_conf {| dimension := dimension (_conf c);
              transitionDuration := transitionDuration (_conf c);
              transitionDelay := transitionDelay (_conf c);
              commitHandler := h;
              filterHandler := filterHandler (_conf c);
              hasFilterHandler := hasFilterHandler (_conf c);
              removeFilterHandler := removeFilterHandler (_conf c);
              addFilterHandler := addFilterHandler (_conf c);
              resetFilterHandler := resetFilterHandler (_conf c);
              removeInPlace := removeInPlace (_conf c);
              addInPlace := addInPlace (_conf c);
              resetInPlace := resetInPlace (_conf c) |} c.

Definition configure_filterHandler
    (h : list V -> outcome (list (dim_call V) * option (list V)))
    (c : Chart V) : Chart V :=
  set_conf {| dimension := dimension (_conf c);
              transitionDuration := transitionDuration (_conf c);
              transitionDelay := transitionDelay (_conf c);
              commitHandler := commitHandler (_conf c);
              filterHandler := h;
              hasFilterHandler := hasFilterHandler (_conf c);
              removeFilterHandler := removeFilterHandler (_conf c);
              addFilterHandler := addFilterHandler (_conf c);
              resetFilterHandler := resetFilterHandler (_conf c);
              removeInPlace := removeInPlace (_conf c);
              addInPlace := addInPlace (_conf c);
              resetInPlace := resetInPlace (_conf c) |} c.

(** *** Vocabulary of the specification *)

(** The chart "has a dimension with a filter capability bound":
    the guard of [applyFilters]. *)
Definition dimension_bound (c : Chart V) : bool :=
  match dimension (_conf c) with
  | Some d => dim_filter d
  | None => false
  end.

(** "A filter accepts a record": through its [isFiltered] when it has
    one, through the closed-range test otherwise. *)
Definition accepts (f d : V) : bool :=
  match isFiltered f with
  | Some test => test d
  | None => closed_range f d
  end.

(** "The discriminant is 'RangedFilter'". *)
Definition ranged (f : V) : bool :=
  match filterType f with
  | Some t => (t =? "RangedFilter")%string
  | None => false
  end.

(** "A predicate that accepts a record iff some filter in the list
    accepts it". *)
Definition any_filter_predicate (filters : list V) (call : dim_call V) : Prop :=
  exists p, call = DimFilterFunction p /\
            forall d, p d = Return (existsb (fun f => accepts f d) filters).

(** No entry of the list is [null] or [undefined]. *)
Definition filter_values (filters : list V) : bool :=
  forallb (fun f => negb (is_nullish f)) filters.

(** The chart runs the default has / add / remove / reset handlers
    and the default filter handler. *)
Definition default_handlers (c : Chart V) : Prop :=
  hasFilterHandler (_conf c) = _defaultHasFilterHandler /\
  removeFilterHandler (_conf c) = _defaultRemoveFilterHandler /\
  addFilterHandler (_conf c) = _defaultAddFilterHandler /\
  resetFilterHandler (_conf c) = _defaultResetFilterHandler /\
  filterHandler (_conf c) = _defaultFilterHandler.

(** How often a trace enters the filter handler, and the payloads of
    the [filtered] events in it. *)
Definition handler_calls (t : list (event V)) : list (list V) :=
  flat_map (fun e => match e with
                     | EvFilterHandler fs => [fs]
                     | _ => []
                     end) t.

Definition filtered_payloads (t : list (event V)) : list (option V) :=
  flat_map (fun e => match e with
                     | EvListener ch payload =>
                         if (ch =? "filtered")%string then [payload] else []
                     | _ => []
                     end) t.

End Methods.

(* ================================================================== *)
(** ** Two value domains *)
(* ================================================================== *)

(** Numbers and predicate objects.  [Num n] is the integer [n];
    [Obj t lo hi] is a plain object
    [{filterType: t, isFiltered: d => d >= lo && d < hi}].
    ToNumber sends [undefined] and [NaN] to NaN, [null] to 0, and an
    object, through its string ["[object Object]"], to NaN; two objects
    are compared as the two equal strings. *)
Module NumDomain.

Inductive value : Type :=
| Undefined
| Null
| NaN
| Num (n : Z)
| Obj (ftype : string) (lo hi : Z).

Definition to_number (v : value) : option Z :=
  match v with
  | Null => Some 0%Z
  | Num n => Some n
  | Undefined | NaN | Obj _ _ _ => None
  end.

Definition lt (a b : value) : option bool :=
  match a, b with
  | Obj _ _ _, Obj _ _ _ => Some false
  | _, _ =>
      match to_number a, to_number b with
      | Some x, Some y => Some (x <? y)%Z
      | _, _ => None
      end
  end.

Definition truthy (v : value) : bool :=
  match v with
  | Num n => negb (n =? 0)%Z
  | Obj _ _ _ => true
  | Undefined | Null | NaN => false
  end.

(** [d => d >= lo && d < hi]. *)
Definition in_range (lo hi : Z) (d : value) : bool :=
  match lt d (Num lo), lt d (Num hi) with
  | Some false, Some true => true
  | _, _ => false
  end.

#[global] Instance num_JsValue : JsValue value :=
  {| is_null := fun v => match v with Null => true | _ => false end;
     is_undefined := fun v => match v with Undefined => true | _ => false end;
     js_lt := lt;
     js_truthy := truthy;
     isFiltered := fun v => match v with
                            | Obj _ lo hi => Some (in_range lo hi)
                            | _ => None
                            end;
     filterType := fun v => match v with
                            | Obj t _ _ => Some t
                            | _ => None
                            end;
     as_array := fun _ => None |}.

End NumDomain.

(** Strings and arrays of them.  An array is compared through its
    string, the elements joined by commas; strings are compared code
    unit by code unit (ASCII strings are meant). *)
Module StrDomain.

Inductive value : Type :=
| Str (s : string)
| Arr (elems : list value).

Fixpoint to_string (v : value) : string :=
  match v with
  | Str s => s
  | Arr elems => String.concat "," (map to_string elems)
  end.

Definition lt (a b : value) : option bool :=
  Some (String.ltb (to_string a) (to_string b)).

Definition truthy (v : value) : bool :=
  match v with
  | Str EmptyString => false
  | _ => true
  end.

#[global] Instance str_JsValue : JsValue value :=
  {| is_null := fun _ => false;
     is_undefined := fun _ => false;
     js_lt := lt;
     js_truthy := truthy;
     isFiltered := fun _ => None;
     filterType := fun _ => None;
     as_array := fun v => match v with
                          | Arr elems => Some elems
                          | Str _ => None
                          end |}.

End StrDomain.


(** *** Reading the result of a method run *)

Section Runs.
Context {V : Type} {A : Type}.

Definition outcome_of (r : outcome A * Chart V * list (event V)) : outcome A :=
  fst (fst r).
Definition chart_of (r : outcome A * Chart V * list (event V)) : Chart V :=
  snd (fst r).
Definition trace_of (r : outcome A * Chart V * list (event V)) : list (event V) :=
  snd r.

End Runs.

Section Observations.
Context {V : Type} `{JsValue V}.

(** What [_invokeFilteredListener(f)] shows to the listeners. *)
Definition filtered_events (f : V) : list (event V) :=
  if is_undefined f then [] else [EvListener "filtered" (Some f)].

(** What the tail of [filter] (lines 770-774) writes to the controls. *)
Definition controls_events (c : Chart V) : list (event V) :=
  if root_truthy (_root c)
  then if root_not_null (_root c) && hasFilter c None
       then [EvTurnOnControls] else [EvTurnOffControls]
  else [].

(** The values a call [filter(v)] toggles: the inner elements of a
    batch, [v] itself otherwise. *)
Definition toggled_values (v : V) : list V :=
  match batch_elements v with
  | Some inner => inner
  | None => [v]
  end.

(** A mandatory attribute is missing: [this[a]] is absent (or falsy),
    or is an accessor that returns a falsy value.  It is present when
    it is an accessor that returns a truthy value. *)
Definition attribute_missing (c : Chart V) (a : string) : Prop :=
  lookup_member c a = MemberAbsent \/
  lookup_member c a = MemberAccessor (Return false).

Definition attribute_present (c : Chart V) (a : string) : Prop :=
  lookup_member c a = MemberAccessor (Return true).

(** On the values of [R] the closed-range test is identity: it
    accepts a pair iff the two values are the same.  (So it is for
    numbers other than NaN and for strings; not across values that
    convert to the same primitive.) *)
Definition exact_on (R : list V) : Prop :=
  forall x y, In x R -> In y R -> (closed_range x y = true <-> x = y).

(** Membership as the has handler decides it. *)
Definition memb (x : V) (fs : list V) : bool := existsb (closed_range x) fs.

(** Whether [x] is toggled an odd number of times by the values [vs]. *)
Definition parity (x : V) (vs : list V) : bool :=
  fold_right (fun a acc => xorb (closed_range x a) acc) false vs.

End Observations.

(* ================================================================== *)
(** ** Example charts *)
(* ================================================================== *)

Module Examples.

Import NumDomain.

(** [{filterType: 'RangedFilter', isFiltered: d => d >= 1 && d < 5}]. *)
Definition range_1_5 : NumDomain.value := Obj "RangedFilter" 1 5.

(** A chart as constructed, over numbers. *)
Definition fresh_chart : Chart NumDomain.value := new_chart "1".

(** The same with a crossfilter dimension bound. *)
Definition bound_chart : Chart NumDomain.value :=
  configure_dimension (Some {| dim_filter := true |}) fresh_chart.

(** A custom filter handler that keeps the filter [0] pinned in
    front of whatever it is given. *)
Definition pinning_handler (filters : list NumDomain.value)
  : outcome (list (dim_call NumDomain.value) * option (list NumDomain.value)) :=
  Return ([], Some (Num 0 :: filters)).

Definition pinned_chart : Chart NumDomain.value :=
  configure_filterHandler pinning_handler bound_chart.

(** A commit handler that logs the flag it is given (1 for [true],
    0 for [false]) and never calls back. *)
Definition flag_logger : commit_handler NumDomain.value :=
  fun flag _ => ([EvConsoleLog (Num (if flag then 1 else 0))], None).

(** A commit handler that reports [error] to its callback at once. *)
Definition failing_commit (error : NumDomain.value) : commit_handler NumDomain.value :=
  fun _ callback => callback error Undefined.

(** The chart once anchored at [#chart] with a chart group of its own
    making (an object handed to [anchor], not a group of the registry):
    a root selection, and a group whose [redrawAll()] and [renderAll()]
    return. *)
Definition anchored (c : Chart NumDomain.value) : Chart NumDomain.value :=
  {| _conf := _conf c; __dcFlag__ := __dcFlag__ c; _group := _group c;
     _anchor := AnchorSelector "#chart"; _root := RootSelection; _svg := _svg c;
     _legend := _legend c; _width := _width c; _height := _height c;
     _mandatoryAttributesList := _mandatoryAttributesList c;
     _chartGroup := Some {| redrawAll_throws := None; renderAll_throws := None |};
     _filters := _filters c;
     chart_type_members := chart_type_members c |}.

(** [[['MA', 'TX']]] and a chart as constructed, over strings. *)
Definition states : StrDomain.value :=
  StrDomain.Arr [StrDomain.Arr [StrDomain.Str "MA"; StrDomain.Str "TX"]].

Definition fresh_str_chart : Chart StrDomain.value := new_chart "1".

(** A chart whose list holds the single string ['a,b'], and the array
    [['a', 'b']] (not a batch: its first element is a string). *)
Definition joined_chart : Chart StrDomain.value :=
  set_filters [StrDomain.Str "a,b"] fresh_str_chart.

Definition pair_array : StrDomain.value :=
  StrDomain.Arr [StrDomain.Str "a"; StrDomain.Str "b"].

(** A chart with a dimension bound and the filters [1, 2]. *)
Definition two_filters_chart : Chart NumDomain.value :=
  set_filters [Num 1; Num 2] bound_chart.

(** A chart whose list holds [5] twice (the array that [filters()]
    hands out can be written to, and a filter handler may return any
    list). *)
Definition repeated_chart : Chart NumDomain.value :=
  set_filters [Num 5; Num 5] fresh_chart.

(** A chart whose only filter is the range object. *)
Definition ranged_chart : Chart NumDomain.value :=
  set_filters [range_1_5] bound_chart.

(** A chart of a type that has a [dimension] accessor, anchored at
    [#chart], with a dimension but no group. *)
Definition no_group_chart : Chart NumDomain.value :=
  {| _conf := _conf bound_chart; __dcFlag__ := "1"; _group := false;
     _anchor := AnchorSelector "#chart"; _root := RootSelection; _svg := true;
     _legend := false; _width := Some 300%Z; _height := Some 200%Z;
     _mandatoryAttributesList := Some ["dimension"; "group"];
     _chartGroup := Some {| redrawAll_throws := None; renderAll_throws := None |};
     _filters := [];
     chart_type_members :=
       fun a => if (a =? "dimension")%string then MemberAccessor (Return true)
                else MemberAbsent |}.

(** The same chart of a type that also lists [palette] as mandatory,
    and holds its palette as a plain array, not behind an accessor. *)
Definition palette_chart : Chart NumDomain.value :=
  {| _conf := _conf bound_chart; __dcFlag__ := "1"; _group := false;
     _anchor := AnchorSelector "#chart"; _root := RootSelection; _svg := true;
     _legend := false; _width := Some 300%Z; _height := Some 200%Z;
     _mandatoryAttributesList := Some ["dimension"; "palette"; "group"];
     _chartGroup := Some {| redrawAll_throws := None; renderAll_throws := None |};
     _filters := [];
     chart_type_members :=
       fun a => if (a =? "dimension")%string then MemberAccessor (Return true)
                else if (a =? "palette")%string then MemberNotCallable
                else MemberAbsent |}.

(** A chart over strings holding ['MA', 'TX']. *)
Definition states_chart : Chart StrDomain.value :=
  set_filters [StrDomain.Str "MA"; StrDomain.Str "TX"] fresh_str_chart.

(** A chart whose commit handler reports the error [7]. *)
Definition failing_chart : Chart NumDomain.value :=
  configure_commitHandler (Some (failing_commit (Num 7))) (anchored fresh_chart).

(** A chart whose commit handler logs the flag. *)
Definition logging_chart : Chart NumDomain.value :=
  configure_commitHandler (Some flag_logger) (anchored fresh_chart).

End Examples.

(* ================================================================== *)
(** ** Further vocabulary, for the properties beyond the claims *)
(* ================================================================== *)

(** The string contains a ['#']. *)
Fixpoint has_hash (s : string) : bool :=
  match s with
  | EmptyString => false
  | String ch rest => Ascii.eqb ch "#"%char || has_hash rest
  end.

Section MoreObservations.
Context {V : Type} `{JsValue V}.

(** What a trace writes to the controls: [true] for a
    [turnOnControls] that reaches the DOM, [false] for a
    [turnOffControls] that does. *)
Definition control_writes (t : list (event V)) : list bool :=
  flat_map (fun e => match e with
                     | EvTurnOnControls => [true]
                     | EvTurnOffControls => [false]
                     | _ => []
                     end) t.

(** The chart's filter handler never throws and never rewrites the
    list: it returns nothing, or the list it was given (as the default
    handler does on filter values). *)
Definition passes_through (c : Chart V) : Prop :=
  forall fs, exists calls returned,
    filterHandler (_conf c) fs = Return (calls, returned) /\
    (returned = None \/ returned = Some fs).

(** [fs.length === 0]. *)
Definition is_nil (fs : list V) : bool :=
  match fs with
  | [] => true
  | _ :: _ => false
  end.

(** The remove and add handlers of the chart work in place and its
    reset handler does not, as the default ones do. *)
Definition in_place_as_default (c : Chart V) : Prop :=
  removeInPlace (_conf c) = true /\
  addInPlace (_conf c) = true /\
  resetInPlace (_conf c) = false.

(** The second, fourth, sixth, ... entry of a list. *)
Fixpoint every_other (l : list V) : list V :=
  match l with
  | _ :: kept :: rest => kept :: every_other rest
  | _ => []
  end.

End MoreObservations.

(* ================================================================== *)
(** ** Size, drawing surface, redraw and options
       (lines 145-157, 213-254, 461-483, 591-604, 1005-1030) *)
(* ================================================================== *)

(** What [this._root.node()] gives: [null] (an empty selection), a node
    without [getBoundingClientRect], or an element with its on-screen
    box.  Sizes are whole pixels. *)
Inductive node_t : Type :=
| NodeNull
| NodeNoRect
| NodeRect (box_width box_height : Z).

(** [this._widthCalc] / [this._heightCalc]: the default calculation or
    a function of the root node ([() => n] for a fixed size). *)
Inductive size_calc : Type :=
| DefaultCalc
| FunctionCalc (f : node_t -> Z).

(** The argument of the setters [width(x)] / [height(x)]: a falsy value
    ([null], [undefined], ...), a number, or a function. *)
Inductive size_arg : Type :=
| SizeFalsy
| SizeNumber (n : Z)
| SizeFunction (f : node_t -> Z).

(** What the size and svg methods read beside the chart: the sizing
    keys of [_conf], the two calculators, and whether the svg element
    carries a [viewBox] attribute. *)
Record Surface : Type := {
  minWidth : Z;
  minHeight : Z;
  useViewBoxResizing : bool;
  _widthCalc : size_calc;
  _heightCalc : size_calc;
  svg_viewBox : bool
}.

(** Calls observed beside those of [event]: writes to the svg element,
    the incremental draw step, and [logger.debug]. *)
Inductive draw_event (V : Type) : Type :=
| Base (e : event V)
| SvgAppend
| SvgRemove
| SvgAttr (name : string) (value : Z)
| SvgViewBox (w h : Z)
| DoRedraw
| LoggerDebug (msg : string).

Arguments SvgAppend {V}.
Arguments SvgRemove {V}.
Arguments SvgAttr {V} name value.
Arguments SvgViewBox {V} w h.
Arguments DoRedraw {V}.
Arguments LoggerDebug {V} msg.

Section Surfaces.
Context {V : Type} `{JsValue V}.

(** The chart together with its surface. *)
Record Drawn : Type := {
  chart_part : Chart V;
  surface : Surface
}.

Definition with_chart (c : Chart V) (s : Drawn) : Drawn :=
  {| chart_part := c; surface := surface s |}.

Definition with_surface (u : Surface) (s : Drawn) : Drawn :=
  {| chart_part := chart_part s; surface := u |}.

Definition set_width (w : option Z) (c : Chart V) : Chart V :=
  {| _conf := _conf c; __dcFlag__ := __dcFlag__ c; _group := _group c;
     _anchor := _anchor c; _root := _root c; _svg := _svg c;
     _legend := _legend c; _width := w; _height := _height c;
     _mandatoryAttributesList := _mandatoryAttributesList c;
     _chartGroup := _chartGroup c; _filters := _filters c;
     chart_type_members := chart_type_members c |}.

Definition set_height (h : option Z) (c : Chart V) : Chart V :=
  {| _conf := _conf c; __dcFlag__ := __dcFlag__ c; _group := _group c;
     _anchor := _anchor c; _root := _root c; _svg := _svg c;
     _legend := _legend c; _width := _width c; _height := h;
     _mandatoryAttributesList := _mandatoryAttributesList c;
     _chartGroup := _chartGroup c; _filters := _filters c;
     chart_type_members := chart_type_members c |}.

Definition set_svg (b : bool) (c : Chart V) : Chart V :=
  {| _conf := _conf c; __dcFlag__ := __dcFlag__ c; _group := _group c;
     _anchor := _anchor c; _root := _root c; _svg := b;
     _legend := _legend c; _width := _width c; _height := _height c;
     _mandatoryAttributesList := _mandatoryAttributesList c;
     _chartGroup := _chartGroup c; _filters := _filters c;
     chart_type_members := chart_type_members c |}.

Definition set_widthCalc (k : size_calc) (u : Surface) : Surface :=
  {| minWidth := minWidth u; minHeight := minHeight u;
     useViewBoxResizing := useViewBoxResizing u;
     _widthCalc := k; _heightCalc := _heightCalc u;
     svg_viewBox := svg_viewBox u |}.

Definition set_heightCalc (k : size_calc) (u : Surface) : Surface :=
  {| minWidth := minWidth u; minHeight := minHeight u;
     useViewBoxResizing := useViewBoxResizing u;
     _widthCalc := _widthCalc u; _heightCalc := k;
     svg_viewBox := svg_viewBox u |}.

Definition set_viewBox (b : bool) (u : Surface) : Surface :=
  {| minWidth := minWidth u; minHeight := minHeight u;
     useViewBoxResizing := useViewBoxResizing u;
     _widthCalc := _widthCalc u; _heightCalc := _heightCalc u;
     svg_viewBox := b |}.

(** The surface the constructor leaves (lines 118-120, 145-157). *)
Definition default_surface : Surface :=
  {| minWidth := 200; minHeight := 200; useViewBoxResizing := false;
     _widthCalc := DefaultCalc; _heightCalc := DefaultCalc;
     svg_viewBox := false |}.

(** *** The method monad over chart and surface *)

Definition MS (A : Type) : Type := Drawn -> outcome A * Drawn * list (draw_event V).

Definition retS {A : Type} (a : A) : MS A := fun s => (Return a, s, []).

Definition bindS {A B : Type} (m : MS A) (k : A -> MS B) : MS B :=
  fun s =>
    match m s with
    | (Return a, s1, t1) =>
        match k a s1 with
        | (r, s2, t2) => (r, s2, t1 ++ t2)
        end
    | (Throw e, s1, t1) => (Throw e, s1, t1)
    end.

Definition throwS {A : Type} (e : exn) : MS A := fun s => (Throw e, s, []).
Definition emitS (e : draw_event V) : MS unit := fun s => (Return tt, s, [e]).
Definition getS : MS Drawn := fun s => (Return s, s, []).
Definition modifyS (f : Drawn -> Drawn) : MS unit := fun s => (Return tt, f s, []).

(** A method of the chart alone, run on chart and surface. *)
Definition lift {A : Type} (m : M V A) : MS A :=
  fun s =>
    match m (chart_part s) with
    | (r, c, t) => (r, with_chart c s, map (@Base V) t)
    end.

End Surfaces.

Arguments Drawn V : clear implicits.
Arguments MS V A : clear implicits.

Declare Scope surface_scope.
Delimit Scope surface_scope with surface.
Notation "x <- m ;; k" := (bindS m (fun x => k))
  (at level 61, m at next level, right associativity) : surface_scope.
Notation "m ;; k" := (bindS m (fun _ => k))
  (at level 61, right associativity) : surface_scope.

Section SurfaceMethods.
Context {V : Type} `{JsValue V}.
Local Open Scope surface_scope.

(** [_defaultWidthCalc] (lines 145-148): the box width if it is truthy
    and above [minWidth], else [minWidth]. *)
Definition _defaultWidthCalc (u : Surface) (element : node_t) : Z :=
  match element with
  | NodeRect w _ =>
      if negb (w =? 0)%Z && (minWidth u <? w)%Z then w else minWidth u
  | _ => minWidth u
  end.

(** [_defaultHeightCalc] (lines 151-154). *)
Definition _defaultHeightCalc (u : Surface) (element : node_t) : Z :=
  match element with
  | NodeRect _ h =>
      if negb (h =? 0)%Z && (minHeight u <? h)%Z then h else minHeight u
  | _ => minHeight u
  end.

Definition run_widthCalc (u : Surface) (element : node_t) : Z :=
  match _widthCalc u with
  | DefaultCalc => _defaultWidthCalc u element
  | FunctionCalc f => f element
  end.

Definition run_heightCalc (u : Surface) (element : node_t) : Z :=
  match _heightCalc u with
  | DefaultCalc => _defaultHeightCalc u element
  | FunctionCalc f => f element
  end.

(** [x ? (typeof x === 'function' ? x : () => x) : default]; the number
    [0] is falsy. *)
Definition calc_of (a : size_arg) : size_calc :=
  match a with
  | SizeFalsy => DefaultCalc
  | SizeNumber n => if (n =? 0)%Z then DefaultCalc else FunctionCalc (fun _ => n)
  | SizeFunction f => FunctionCalc f
  end.

(** [width()] without arguments (lines 244-249); [element] is what
    [this._root.node()] gives at the time of the call.  The guard
    [isNumber(this._width)] holds of a cached size and fails of
    [undefined]. *)
Definition width_get (element : node_t) : MS V Z :=
  s <- getS ;;
  match _width (chart_part s) with
  | Some w => retS w
  | None =>
      match _root (chart_part s) with
      | RootSelection =>
          let w := run_widthCalc (surface s) element in
          modifyS (fun s' => with_chart (set_width (Some w) (chart_part s')) s') ;;
          retS w
      | _ => throwS TypeError
      end
  end.

(** [height()] without arguments (lines 216-221). *)
Definition height_get (element : node_t) : MS V Z :=
  s <- getS ;;
  match _height (chart_part s) with
  | Some h => retS h
  | None =>
      match _root (chart_part s) with
      | RootSelection =>
          let h := run_heightCalc (surface s) element in
          modifyS (fun s' => with_chart (set_height (Some h) (chart_part s')) s') ;;
          retS h
      | _ => throwS TypeError
      end
  end.

(** [width(x)] (lines 251-253). *)
Definition width (a : size_arg) : MS V unit :=
  modifyS (fun s => with_chart (set_width None (chart_part s))
                      (with_surface (set_widthCalc (calc_of a) (surface s)) s)).

(** [height(x)] (lines 223-225). *)
Definition height (a : size_arg) : MS V unit :=
  modifyS (fun s => with_chart (set_height None (chart_part s))
                      (with_surface (set_heightCalc (calc_of a) (surface s)) s)).

(** [sizeSvg()] (lines 466-477). *)
Definition sizeSvg (element : node_t) : MS V unit :=
  s <- getS ;;
  if _svg (chart_part s) then
    if negb (useViewBoxResizing (surface s)) then
      w <- width_get element ;;
      emitS (SvgAttr "width" w) ;;
      h <- height_get element ;;
      emitS (SvgAttr "height" h)
    else if negb (svg_viewBox (surface s)) then
      w <- width_get element ;;
      h <- height_get element ;;
      emitS (SvgViewBox w h) ;;
      modifyS (fun s' => with_surface (set_viewBox true (surface s')) s')
    else retS tt
  else retS tt.

(** [generateSvg()] (lines 479-483): the appended svg is a new element,
    without a [viewBox]. *)
Definition generateSvg (element : node_t) : MS V unit :=
  s <- getS ;;
  match _root (chart_part s) with
  | RootSelection =>
      emitS SvgAppend ;;
      modifyS (fun s' => with_chart (set_svg true (chart_part s'))
                           (with_surface (set_viewBox false (surface s')) s')) ;;
      sizeSvg element
  | _ => throwS TypeError
  end.

(** [resetSvg()] (lines 461-464). *)
Definition resetSvg (element : node_t) : MS V unit :=
  s <- getS ;;
  match _root (chart_part s) with
  | RootSelection => emitS SvgRemove ;; generateSvg element
  | _ => throwS TypeError
  end.

(** [redraw()] (lines 591-604); [_doRedraw] is the incremental draw
    step of the chart type. *)
Definition redraw (element : node_t) : MS V unit :=
  sizeSvg element ;;
  lift (emit (EvListener "preRedraw" None)) ;;
  emitS DoRedraw ;;
  s <- getS ;;
  (if _legend (chart_part s) then lift (emit EvLegendRender) else retS tt) ;;
  lift (_activateRenderlets (Some "postRedraw")).

(** The size [width()] / [height()] give on an anchored chart: the
    cached one, or the calculation on the root node. *)
Definition width_of (s : Drawn V) (element : node_t) : Z :=
  match _width (chart_part s) with
  | Some w => w
  | None => run_widthCalc (surface s) element
  end.

Definition height_of (s : Drawn V) (element : node_t) : Z :=
  match _height (chart_part s) with
  | Some h => h
  | None => run_heightCalc (surface s) element
  end.

(** The calls of [redraw()] after the sizing: with a transition (a
    positive duration and an svg element) the call ends by handing
    [renderlet] and [postRedraw] to the transition, to be called when
    it ends; without one it makes the two calls itself. *)
Definition redraw_calls (s : Drawn V) : list (draw_event V) :=
  [Base (EvListener "preRedraw" None); DoRedraw]
    ++ map (@Base V)
         ((if _legend (chart_part s) then [EvLegendRender] else [])
            ++ [EvListener "pretransition" None]
            ++ (if (0 <? transitionDuration (_conf (chart_part s)))%Z && _svg (chart_part s)
                then [EvTransition (transitionDuration (_conf (chart_part s)))
                        (transitionDelay (_conf (chart_part s)))
                        [EvListener "renderlet" None; EvListener "postRedraw" None]]
                else [EvListener "renderlet" None; EvListener "postRedraw" None])).

(** *** [options(opts)] (lines 1005-1030) *)

Definition applyOptions : list string :=
  ["anchor"; "group"; "xAxisLabel"; "yAxisLabel"; "stack"; "title"; "point";
   "getColor"; "overlayGeoJson"].

(** [this[o]] when it is a function, taking the list of its arguments. *)
Definition method_table : Type := string -> option (list V -> MS V unit).

Definition debug_message (o : string) : string :=
  ("Not a valid option setter name: " ++ o)%string.

(** The body of the [for ... in] loop for the key [o]. *)
Definition apply_option (methods : method_table) (o : string) (value : V)
  : MS V unit :=
  match methods o with
  | Some method =>
      match as_array value with
      | Some elements =>
          if existsb (String.eqb o) applyOptions then method elements
          else method [value]
      | None => method [value]
      end
  | None => emitS (LoggerDebug (debug_message o))
  end.

(** [options(opts)]; [opts] lists the keys in enumeration order. *)
Fixpoint options (methods : method_table) (opts : list (string * V))
  : MS V unit :=
  match opts with
  | [] => retS tt
  | (o, value) :: rest => apply_option methods o value ;; options methods rest
  end.

(** *** Reading a run *)

Definition base_events (t : list (draw_event V)) : list (event V) :=
  flat_map (fun e => match e with
                     | Base b => [b]
                     | _ => []
                     end) t.


End SurfaceMethods.

(* ================================================================== *)
(** ** Further example charts *)
(* ================================================================== *)

Module MoreExamples.

Import NumDomain.
Import Examples.

(** A chart of a type with a [dimension] accessor, anchored at
    [#chart], with a dimension, a group and an svg element. *)
Definition complete_chart : Chart NumDomain.value :=
  {| _conf := _conf bound_chart; __dcFlag__ := "1"; _group := true;
     _anchor := AnchorSelector "#chart"; _root := RootSelection; _svg := true;
     _legend := false; _width := None; _height := None;
     _mandatoryAttributesList := Some ["dimension"; "group"];
     _chartGroup := Some {| redrawAll_throws := None; renderAll_throws := None |};
     _filters := [];
     chart_type_members :=
       fun a => if (a =? "dimension")%string then MemberAccessor (Return true)
                else MemberAbsent |}.

(** A filter handler of a chart that filters nothing itself: it makes
    no call and returns nothing. *)
Definition quiet_handler (filters : list StrDomain.value)
  : outcome (list (dim_call StrDomain.value) * option (list StrDomain.value)) :=
  Return ([], None).

(** A chart over strings with a dimension bound and that handler. *)
Definition quiet_chart : Chart StrDomain.value :=
  configure_filterHandler quiet_handler
    (configure_dimension (Some {| dim_filter := true |}) fresh_str_chart).

(** The complete chart on the surface the constructor leaves. *)
Definition drawn_chart : Drawn NumDomain.value :=
  {| chart_part := complete_chart; surface := default_surface |}.

(** The same with [useViewBoxResizing] set. *)
Definition viewBox_chart : Drawn NumDomain.value :=
  {| chart_part := complete_chart;
     surface := {| minWidth := 200; minHeight := 200; useViewBoxResizing := true;
                   _widthCalc := DefaultCalc; _heightCalc := DefaultCalc;
                   svg_viewBox := false |} |}.

(** A chart that was handed an svg element with [svg(el)] but was never
    anchored. *)
Definition detached_chart : Drawn NumDomain.value :=
  {| chart_part := set_svg true fresh_chart; surface := default_surface |}.

(** A root node 640 pixels wide and 100 high, and one 320 by 480. *)
Definition wide_node : node_t := NodeRect 640 100.
Definition tall_node : node_t := NodeRect 320 480.

(** The entry [filter] of the chart's method table; without an
    argument it is the getter, which changes nothing. *)
Definition filter_method : method_table (V := NumDomain.value) :=
  fun o =>
    if (o =? "filter")%string
    then Some (fun args => match args with
                           | v :: _ => lift (filter v)
                           | [] => retS tt
                           end)
    else None.

(** A chart over strings holding ['MA', 'TX', 'CA'], and the batch
    [[chart.filters()]] around its array. *)
Definition three_states_chart : Chart StrDomain.value :=
  set_filters [StrDomain.Str "MA"; StrDomain.Str "TX"; StrDomain.Str "CA"]
    fresh_str_chart.

Definition own_batch (c : Chart StrDomain.value) : StrDomain.value :=
  StrDomain.Arr [StrDomain.Arr (filters c)].

(** A table without any method. *)
Definition no_method : method_table (V := NumDomain.value) := fun _ => None.

End MoreExamples.

Unset Implicit Arguments.

(* ================================================================== *)
(** ** Properties of the default handlers *)
(* ================================================================== *)

Section HandlerFacts.
Context {V : Type} `{JsValue V}.

Lemma js_ge_le (a b : V) : js_ge a b = js_le b a.
Proof. reflexivity. Qed.

Lemma closed_range_sym (a b : V) : closed_range a b = closed_range b a.
Proof. unfold closed_range. rewrite !js_ge_le. apply andb_comm. Qed.

(** The probe test of the has handler and the entry test of the
    remove handler are the closed-range test read both ways. *)
Lemma has_test_closed (x f : V) : js_le x f && js_ge x f = closed_range x f.
Proof. reflexivity. Qed.

Lemma filter_values_cons (f : V) (rest : list V) :
  filter_values (f :: rest) = true ->
  is_nullish f = false /\ filter_values rest = true.
Proof.
  unfold filter_values. simpl. intros Hwf.
  apply andb_true_iff in Hwf. destruct Hwf as [Hf Hrest].
  apply negb_true_iff in Hf. split; assumption.
Qed.

Lemma filter_values_app (l1 l2 : list V) :
  filter_values (l1 ++ l2) = filter_values l1 && filter_values l2.
Proof. unfold filter_values. apply forallb_app. Qed.

(** On a list of filter values the predicate's loop returns, and what
    it returns is "some filter accepts the record". *)
Lemma filterFunction_body_accepts (filters : list V) (d : V) :
  filter_values filters = true ->
  filterFunction_body filters d = Return (existsb (fun f => accepts f d) filters).
Proof.
  induction filters as [| f rest IH]; intros Hwf.
  - reflexivity.
  - apply filter_values_cons in Hwf. destruct Hwf as [Hf Hrest].
    simpl. rewrite Hf. unfold accepts at 1.
    destruct (isFiltered f) as [test |].
    + destruct (test d); [reflexivity | now apply IH].
    + destruct (closed_range f d); [reflexivity | now apply IH].
Qed.

Lemma any_filter_predicate_body (filters : list V) :
  filter_values filters = true ->
  any_filter_predicate filters (DimFilterFunction (filterFunction_body filters)).
Proof.
  intros Hwf. exists (filterFunction_body filters). split; [reflexivity |].
  intros d. now apply filterFunction_body_accepts.
Qed.

(** C1 (as the code has it).  Default filter handler: on a list of
    filter values (no entry null or undefined) the handler makes
    exactly one call on the dimension and returns the list it was
    given.  The call is [filter(null)] for the empty list;
    [filterExact(f)] for a single filter [f] without [isFiltered];
    [filterRange(f)] for a single filter with [isFiltered] whose
    [filterType] is ['RangedFilter']; otherwise [filterFunction(p)]
    where [p d] holds iff some filter of the list accepts [d] (through
    [isFiltered], or through [f <= d && f >= d] for a plain value).  On
    a list whose single entry is null or undefined the handler throws a
    [TypeError]. *)
Theorem default_filter_handler_policy (filters : list V) :
  (filter_values filters = true ->
   exists call,
     _defaultFilterHandler filters = Return ([call], Some filters) /\
     match filters with
     | [] => call = DimFilterNull
     | [f] =>
         match isFiltered f with
         | None => call = DimFilterExact f
         | Some _ =>
             if ranged f then call = DimFilterRange f
             else any_filter_predicate filters call
         end
     | _ => any_filter_predicate filters call
     end) /\
  (forall f, filters = [f] -> is_nullish f = true ->
             _defaultFilterHandler filters = Throw TypeError).
Proof.
  split; [| intros f -> Hf; simpl; rewrite Hf; reflexivity].
  intros Hwf.
  destruct filters as [| f [| g rest]].
  - exists DimFilterNull. split; reflexivity.
  - destruct (filter_values_cons _ _ Hwf) as [Hf _].
    unfold _defaultFilterHandler, ranged. rewrite Hf.
    destruct (isFiltered f) as [test |] eqn:Hcap.
    + destruct (filterType f) as [t |].
      * destruct (t =? "RangedFilter")%string.
        -- eexists. split; reflexivity.
        -- eexists. split; [reflexivity |].
           now apply any_filter_predicate_body.
      * eexists. split; [reflexivity |].
        now apply any_filter_predicate_body.
    + eexists. split; reflexivity.
  - eexists. split; [reflexivity |].
    now apply any_filter_predicate_body.
Qed.

(** Whenever the default filter handler returns, it returns its
    argument. *)
Lemma default_filter_handler_returns_input (filters : list V) calls r :
  _defaultFilterHandler filters = Return (calls, r) -> r = Some filters.
Proof.
  destruct filters as [| f [| g rest]]; simpl.
  - intros E. now inversion E.
  - destruct (is_nullish f); [discriminate |].
    destruct (isFiltered f); [destruct (filterType f) as [t |];
      [destruct (t =? "RangedFilter")%string |] |];
      intros E; now inversion E.
  - intros E. now inversion E.
Qed.

Lemma default_filter_handler_total (filters : list V) :
  filter_values filters = true ->
  exists calls, _defaultFilterHandler filters = Return (calls, Some filters).
Proof.
  intros Hwf. destruct filters as [| f [| g rest]]; simpl.
  - eexists; reflexivity.
  - destruct (filter_values_cons _ _ Hwf) as [Hf _]. rewrite Hf.
    destruct (isFiltered f); [destruct (filterType f) as [t |];
      [destruct (t =? "RangedFilter")%string |] |]; eexists; reflexivity.
  - eexists; reflexivity.
Qed.

Lemma existsb_closed_In (x : V) (filters : list V) :
  existsb (fun f => js_le x f && js_ge x f) filters = true <->
  exists f, In f filters /\ js_le x f = true /\ js_ge x f = true.
Proof.
  rewrite existsb_exists. split; intros [f [Hin Ht]]; exists f; split; trivial.
  - now apply andb_true_iff in Ht.
  - now apply andb_true_iff.
Qed.

Lemma nonempty_length (filters : list V) :
  (0 <? List.length filters)%nat = true <-> filters <> [].
Proof.
  destruct filters; simpl; split; intros Hn; try easy.
Qed.

End HandlerFacts.

(* ================================================================== *)
(** ** Running the filter methods *)
(* ================================================================== *)

Section FilterRuns.
Context {V : Type} `{JsValue V}.

(** [applyFilters] never changes the chart; it enters the handler
    exactly when a dimension with a [filter] is bound. *)
Lemma applyFilters_run (fs : list V) (c : Chart V) :
  applyFilters fs c =
  if dimension_bound c then
    match filterHandler (_conf c) fs with
    | Return (calls, returned) =>
        (Return (match returned with Some fs' => fs' | None => fs end), c,
         EvFilterHandler fs :: map (@EvDimension V) calls)
    | Throw e => (Throw e, c, [EvFilterHandler fs])
    end
  else (Return fs, c, []).
Proof.
  unfold applyFilters, dimension_bound, bind, get, emit, perform, throw, ret.
  destruct (dimension (_conf c)) as [d |]; [| reflexivity].
  destruct (dim_filter d); [| reflexivity].
  destruct (filterHandler (_conf c) fs) as [[calls [fs' |]] | e]; simpl;
    rewrite ?app_nil_r; reflexivity.
Qed.

Lemma turnOnControls_run (c : Chart V) :
  turnOnControls c =
  (Return tt, c, if root_truthy (_root c) then [EvTurnOnControls] else []).
Proof.
  unfold turnOnControls, bind, get, emit, ret.
  destruct (root_truthy (_root c)); reflexivity.
Qed.

Lemma turnOffControls_run (c : Chart V) :
  turnOffControls c =
  (Return tt, c, if root_truthy (_root c) then [EvTurnOffControls] else []).
Proof.
  unfold turnOffControls, bind, get, emit, ret.
  destruct (root_truthy (_root c)); reflexivity.
Qed.

(** The contents of [filters] follow the by-value toggle, whatever
    the handlers do in place. *)
Lemma current_handle (in_place : bool) (handler : list V -> list V) (w : working) :
  current (handle in_place handler w) = handler (current w).
Proof.
  unfold handle, current.
  destruct (other_array w); [reflexivity |].
  destruct in_place; reflexivity.
Qed.

Lemma current_toggle_array (conf : Conf V) (w : working) (f : V) :
  current (toggle_array conf w f) = toggle conf (current w) f.
Proof.
  unfold toggle_array, toggle.
  destruct (hasFilterHandler conf (current w) (Some f)); apply current_handle.
Qed.

Lemma current_toggles (conf : Conf V) (inner : list V) (w : working) :
  current (fold_left (toggle_array conf) inner w)
  = fold_left (toggle conf) inner (current w).
Proof.
  revert w. induction inner as [| f inner IH]; intros w; simpl; [reflexivity |].
  rewrite IH, current_toggle_array. reflexivity.
Qed.

(** The list computed for an argument that shares no array with the
    chart: a fold of toggles for a batch, the reset list for [null],
    one toggle otherwise. *)
Lemma mutate_cases (conf : Conf V) (fs : list V) (v : V) :
  mutate conf fs v =
  match batch_elements v with
  | Some inner => fold_left (toggle conf) inner fs
  | None =>
      if is_null v then resetFilterHandler conf fs
      else toggle conf fs v
  end.
Proof.
  unfold mutate, mutation.
  destruct (batch_elements v) as [inner |].
  - apply current_toggles.
  - destruct (is_null v).
    + apply current_handle.
    + apply current_toggle_array.
Qed.

(** [filter(v)] in one step: apply the mutated list, store what comes
    back, tell the listeners, update the controls.  When the filter
    handler throws, the chart's array is left as the handlers made
    it. *)
Lemma filter_call_run (shared : bool) (v : V) (c : Chart V) :
  filter_call shared v c =
  match applyFilters (current (mutation (_conf c) shared (_filters c) v)) c with
  | (Return fs, _, t) =>
      (Return tt, set_filters fs c,
       t ++ filtered_events v ++ controls_events (set_filters fs c))
  | (Throw e, _, t) =>
      (Throw e,
       set_filters (own_array (mutation (_conf c) shared (_filters c) v)) c, t)
  end.
Proof.
  unfold filter_call. unfold bind at 1. unfold get at 1. simpl.
  unfold bind at 1. unfold modify at 1. simpl.
  unfold bind at 1. rewrite !applyFilters_run.
  change (dimension_bound (set_filters _ c)) with (dimension_bound c).
  change (_conf (set_filters _ c)) with (_conf c).
  destruct (dimension_bound c).
  - destruct (filterHandler (_conf c) _) as [[calls returned] | e]; [| reflexivity].
    unfold bind, modify, get, _invokeFilteredListener, filtered_events,
      controls_events, emit, ret.
    simpl.
    destruct (is_undefined v); simpl;
      destruct (root_not_null (_root c) && _); simpl;
      rewrite ?turnOnControls_run, ?turnOffControls_run; simpl;
      destruct (root_truthy (_root c)); simpl; reflexivity.
  - unfold bind, modify, get, _invokeFilteredListener, filtered_events,
      controls_events, emit, ret.
    simpl.
    destruct (is_undefined v); simpl;
      destruct (root_not_null (_root c) && _); simpl;
      rewrite ?turnOnControls_run, ?turnOffControls_run; simpl;
      destruct (root_truthy (_root c)); simpl; reflexivity.
Qed.

Lemma filter_run (v : V) (c : Chart V) :
  filter v c =
  match applyFilters (mutate (_conf c) (_filters c) v) c with
  | (Return fs, _, t) =>
      (Return tt, set_filters fs c,
       t ++ filtered_events v ++ controls_events (set_filters fs c))
  | (Throw e, _, t) =>
      (Throw e, set_filters (own_array (mutation (_conf c) false (_filters c) v)) c, t)
  end.
Proof. apply filter_call_run. Qed.

(** [replaceFilter(v)] is [filter(v)] run on the chart whose list was
    reset, with nothing applied or announced in between. *)
Lemma replaceFilter_run (v : V) (c : Chart V) :
  replaceFilter v c =
  filter v (set_filters (resetFilterHandler (_conf c) (_filters c)) c).
Proof.
  unfold replaceFilter, bind, get, modify. simpl.
  destruct (filter v _) as [[r c'] t]. reflexivity.
Qed.

Lemma handler_calls_app (t1 t2 : list (event V)) :
  handler_calls (t1 ++ t2) = handler_calls t1 ++ handler_calls t2.
Proof. unfold handler_calls. apply flat_map_app. Qed.

Lemma filtered_payloads_app (t1 t2 : list (event V)) :
  filtered_payloads (t1 ++ t2) = filtered_payloads t1 ++ filtered_payloads t2.
Proof. unfold filtered_payloads. apply flat_map_app. Qed.

Lemma handler_calls_dimension (calls : list (dim_call V)) :
  handler_calls (map (@EvDimension V) calls) = [].
Proof. induction calls; simpl; auto. Qed.

Lemma filtered_payloads_dimension (calls : list (dim_call V)) :
  filtered_payloads (map (@EvDimension V) calls) = [].
Proof. induction calls; simpl; auto. Qed.

Lemma handler_calls_controls (c : Chart V) : handler_calls (controls_events c) = [].
Proof.
  unfold controls_events.
  destruct (root_truthy _); [destruct (_ && _) |]; reflexivity.
Qed.

Lemma filtered_payloads_controls (c : Chart V) :
  filtered_payloads (controls_events c) = [].
Proof.
  unfold controls_events.
  destruct (root_truthy _); [destruct (_ && _) |]; reflexivity.
Qed.

Lemma handler_calls_filtered (v : V) : handler_calls (filtered_events v) = [].
Proof. unfold filtered_events. destruct (is_undefined v); reflexivity. Qed.

Lemma filtered_payloads_filtered (v : V) :
  filtered_payloads (filtered_events v) = if is_undefined v then [] else [Some v].
Proof. unfold filtered_events. destruct (is_undefined v); reflexivity. Qed.

(** The handler calls in the trace of one [filter(v)]. *)
Lemma filter_handler_calls (v : V) (c : Chart V) :
  handler_calls (trace_of (filter v c)) =
  if dimension_bound c then [mutate (_conf c) (_filters c) v] else [].
Proof.
  rewrite filter_run, applyFilters_run.
  destruct (dimension_bound c).
  - destruct (filterHandler (_conf c) _) as [[calls returned] | e];
      unfold trace_of; simpl; [| reflexivity].
    rewrite !handler_calls_app, handler_calls_dimension,
      handler_calls_filtered, handler_calls_controls. reflexivity.
  - unfold trace_of. simpl.
    rewrite !handler_calls_app, handler_calls_filtered, handler_calls_controls.
    reflexivity.
Qed.

(** The [filtered] events in the trace of a [filter(v)] that returns. *)
Lemma filter_filtered_payloads (v : V) (c : Chart V) :
  outcome_of (filter v c) = Return tt ->
  filtered_payloads (trace_of (filter v c))
    = if is_undefined v then [] else [Some v].
Proof.
  rewrite filter_run, applyFilters_run.
  destruct (dimension_bound c).
  - destruct (filterHandler (_conf c) _) as [[calls returned] | e];
      unfold outcome_of, trace_of; simpl; [| discriminate].
    intros _.
    rewrite !filtered_payloads_app, filtered_payloads_dimension,
      filtered_payloads_filtered, filtered_payloads_controls, app_nil_r.
    reflexivity.
  - unfold outcome_of, trace_of. simpl. intros _.
    rewrite !filtered_payloads_app, filtered_payloads_filtered,
      filtered_payloads_controls, app_nil_r.
    reflexivity.
Qed.

End FilterRuns.

(* ================================================================== *)
(** ** Reading the filter set: [hasFilter], [filter()], [applyFilters] *)
(* ================================================================== *)

Section FilterReads.
Context {V : Type} `{JsValue V}.

(** C4 (as the code has it).  With the default has handler,
    [hasFilter] with an absent, null or undefined probe is true iff
    the filter list is non-empty; with any other probe [x] it is true
    iff some current filter [f] passes [x <= f && x >= f], whether or
    not [f] carries an [isFiltered]: the handler never calls
    [isFiltered]. *)
Theorem default_hasFilter_closed_range (c : Chart V) (probe : option V) :
  hasFilterHandler (_conf c) = _defaultHasFilterHandler ->
  match probe with
  | None => hasFilter c probe = true <-> filters c <> []
  | Some x =>
      if is_nullish x
      then hasFilter c probe = true <-> filters c <> []
      else hasFilter c probe = true <->
           exists f, In f (filters c) /\ js_le x f = true /\ js_ge x f = true
  end.
Proof.
  intros Hdef. unfold hasFilter, filters. rewrite Hdef.
  destruct probe as [x |]; simpl.
  - unfold is_nullish. destruct (is_null x || is_undefined x).
    + apply nonempty_length.
    + apply existsb_closed_In.
  - apply nonempty_length.
Qed.

(** C10.  [filter()] without arguments gives the first entry of the
    filter array, [null] (here [None]) when the array is empty; the
    entries after the first do not show in what it returns. *)
Theorem filter_get_first (c : Chart V) :
  (filters c = [] -> filter_get c = None) /\
  (forall f rest, filters c = f :: rest ->
     filter_get c = Some f /\
     forall rest', filter_get (set_filters (f :: rest') c) = filter_get c).
Proof.
  unfold filters, filter_get. split.
  - intros E. now rewrite E.
  - intros f rest E. rewrite E. split; reflexivity.
Qed.

(** C9.  In [filter(v)] the list computed by the mutation (toggle,
    batch toggle or reset) is handed to the filter handler iff a
    dimension with a [filter] is bound (and then once), and so is the
    list computed by [replaceFilter(v)]; when the handler returns a
    list, that list is the chart's filter set afterwards, and when it
    returns nothing or is not called, the computed list is. *)
Theorem filter_result_through_handler (v : V) (c : Chart V) :
  let computed := mutate (_conf c) (_filters c) v in
  let replaced :=
    mutate (_conf c) (resetFilterHandler (_conf c) (_filters c)) v in
  handler_calls (trace_of (filter v c))
    = (if dimension_bound c then [computed] else []) /\
  handler_calls (trace_of (replaceFilter v c))
    = (if dimension_bound c then [replaced] else []) /\
  (dimension_bound c = true ->
   forall calls returned,
     filterHandler (_conf c) computed = Return (calls, returned) ->
     outcome_of (filter v c) = Return tt /\
     filters (chart_of (filter v c))
       = match returned with Some fs => fs | None => computed end) /\
  (dimension_bound c = false ->
     outcome_of (filter v c) = Return tt /\
     filters (chart_of (filter v c)) = computed).
Proof.
  intros computed replaced. split; [apply filter_handler_calls |].
  split; [rewrite replaceFilter_run, filter_handler_calls; reflexivity |].
  split.
  - intros Hb calls returned Hh.
    rewrite filter_run, applyFilters_run, Hb. fold computed. rewrite Hh.
    split; reflexivity.
  - intros Hb. rewrite filter_run, applyFilters_run, Hb. split; reflexivity.
Qed.

End FilterReads.

(* ================================================================== *)
(** ** [replaceFilter] against [filter(null)] then [filter(v)] *)
(* ================================================================== *)

Section Replace.
Context {V : Type} `{JsValue V}.

Lemma mutate_null (conf : Conf V) (fs : list V) (n : V) :
  is_null n = true -> batch_elements n = None ->
  mutate conf fs n = resetFilterHandler conf fs.
Proof. intros Hn Hb. rewrite mutate_cases. now rewrite Hb, Hn. Qed.

(** The default reset and filter handlers hand the cleared list back
    unchanged, whether or not a dimension is bound. *)
Lemma default_apply_keeps_cleared (c : Chart V) :
  default_handlers c ->
  outcome_of (applyFilters (resetFilterHandler (_conf c) (_filters c)) c)
  = Return (resetFilterHandler (_conf c) (_filters c)).
Proof.
  intros [_ [_ [_ [Hreset Happly]]]].
  rewrite applyFilters_run, Hreset, Happly.
  destruct (dimension_bound c); reflexivity.
Qed.

(** C2 (as the code has it).  Let [n] be [null] and let applying the
    cleared list hand it back unchanged (the default filter handler
    does).  Then [replaceFilter(v)] ends with the result and in the
    chart state of [filter(null)] followed by [filter(v)], and what it
    shows to the outside is what the second step alone shows: the two
    steps' trace is the first step's followed by that of
    [replaceFilter(v)].  The filter handler is entered once, with the
    list after the toggle, if a dimension with a [filter] is bound and
    not at all otherwise, whereas [filter(null)] enters it with the
    cleared list.  When [replaceFilter(v)] returns, [filtered] has
    fired once with payload [v], or not at all if [v] is undefined. *)
Theorem replaceFilter_applies_once (c : Chart V) (n v : V) :
  is_null n = true ->
  batch_elements n = None ->
  let cleared := resetFilterHandler (_conf c) (_filters c) in
  outcome_of (applyFilters cleared c) = Return cleared ->
  let two_steps := (filter n ;; filter v) c in
  outcome_of (replaceFilter v c) = outcome_of two_steps /\
  chart_of (replaceFilter v c) = chart_of two_steps /\
  trace_of two_steps = trace_of (filter n c) ++ trace_of (replaceFilter v c) /\
  handler_calls (trace_of (filter n c))
    = (if dimension_bound c then [cleared] else []) /\
  handler_calls (trace_of (replaceFilter v c))
    = (if dimension_bound c then [mutate (_conf c) cleared v] else []) /\
  (outcome_of (replaceFilter v c) = Return tt ->
   filtered_payloads (trace_of (replaceFilter v c))
     = if is_undefined v then [] else [Some v]).
Proof.
  intros Hn Hb cleared Hkeep two_steps.
  assert (Hfirst : filter n c =
                   (Return tt, set_filters cleared c, trace_of (filter n c))).
  { rewrite filter_run, mutate_null by assumption. fold cleared.
    destruct (applyFilters cleared c) as [[r c1] t] eqn:Ha.
    unfold outcome_of in Hkeep. simpl in Hkeep. subst r. reflexivity. }
  assert (Htwo : two_steps =
                 (outcome_of (replaceFilter v c), chart_of (replaceFilter v c),
                  trace_of (filter n c) ++ trace_of (replaceFilter v c))).
  { unfold two_steps, bind. rewrite Hfirst, replaceFilter_run. fold cleared.
    destruct (filter v (set_filters cleared c)) as [[r c2] t2]. reflexivity. }
  rewrite Htwo. unfold outcome_of at 2, chart_of at 2, trace_of at 1. simpl.
  repeat split.
  - rewrite filter_handler_calls, mutate_null by assumption. reflexivity.
  - rewrite replaceFilter_run, filter_handler_calls. reflexivity.
  - rewrite replaceFilter_run. apply filter_filtered_payloads.
Qed.

End Replace.

(* ================================================================== *)
(** ** Toggling with the default handlers *)
(* ================================================================== *)

Section ToggleTwice.
Context {V : Type} `{JsValue V}.
Variable R : list V.
Hypothesis R_exact : exact_on R.
Hypothesis R_values : filter_values R = true.

Lemma R_not_nullish (x : V) : In x R -> is_nullish x = false.
Proof.
  intros Hin. unfold filter_values in R_values.
  rewrite forallb_forall in R_values.
  apply negb_true_iff. now apply R_values.
Qed.

Lemma R_refl (x : V) : In x R -> closed_range x x = true.
Proof. intros Hin. now apply R_exact. Qed.

Lemma memb_In (x : V) (fs : list V) :
  In x R -> incl fs R -> (memb x fs = true <-> In x fs).
Proof.
  intros Hx Hfs. unfold memb. rewrite existsb_exists. split.
  - intros [f [Hf Ht]]. apply R_exact in Ht; auto. now subst.
  - intros Hin. exists x. split; trivial. now apply R_refl.
Qed.

Lemma memb_app (x : V) (l1 l2 : list V) :
  memb x (l1 ++ l2) = memb x l1 || memb x l2.
Proof. unfold memb. apply existsb_app. Qed.

(** The default remove handler takes out the one occurrence. *)
Lemma remove_present (a : V) (fs : list V) :
  In a R -> incl fs R -> NoDup fs ->
  NoDup (_defaultRemoveFilterHandler fs a) /\
  incl (_defaultRemoveFilterHandler fs a) fs /\
  (In a fs -> forall x, In x R ->
     memb x (_defaultRemoveFilterHandler fs a)
       = xorb (memb x fs) (closed_range x a)).
Proof.
  intros Ha. induction fs as [| f rest IH]; intros Hincl Hnd.
  - simpl. repeat split; auto using incl_refl, NoDup_nil; intros [].
  - assert (Hf : In f R) by (apply Hincl; now left).
    assert (Hrest : incl rest R) by (intros z Hz; apply Hincl; now right).
    inversion Hnd as [| f' rest' Hnotin Hnd']; subst.
    destruct (IH Hrest Hnd') as [IHnd [IHincl IHmem]].
    simpl. rewrite has_test_closed.
    destruct (closed_range f a) eqn:Hfa.
    + apply R_exact in Hfa; auto. subst f.
      repeat split; auto.
      * intros z Hz. now right.
      * intros _ x Hx. unfold memb at 2. simpl. fold (memb x rest).
        destruct (closed_range x a) eqn:Hxa; simpl.
        -- apply R_exact in Hxa; auto. subst x.
           destruct (memb a rest) eqn:Hm; trivial.
           apply memb_In in Hm; auto. contradiction.
        -- now destruct (memb x rest).
    + repeat split.
      * constructor; auto.
      * intros z [Hz | Hz]; [now left | right; now apply IHincl].
      * intros [Hin | Hin] x Hx.
        { subst f. rewrite R_refl in Hfa; auto. discriminate. }
        unfold memb at 1 2. simpl. fold (memb x rest).
        fold (memb x (_defaultRemoveFilterHandler rest a)).
        rewrite (IHmem Hin x Hx).
        destruct (closed_range x f) eqn:Hxf; simpl; trivial.
        apply R_exact in Hxf; auto. subst x.
        rewrite Hfa. reflexivity.
Qed.

(** One toggle by the default has / remove / add handlers. *)
Lemma default_toggle (conf : Conf V) (fs : list V) (a : V) :
  hasFilterHandler conf = _defaultHasFilterHandler ->
  removeFilterHandler conf = _defaultRemoveFilterHandler ->
  addFilterHandler conf = _defaultAddFilterHandler ->
  In a R ->
  toggle conf fs a =
  if memb a fs then _defaultRemoveFilterHandler fs a else fs ++ [a].
Proof.
  intros Hh Hr Ha Hin. unfold toggle. rewrite Hh, Hr, Ha.
  unfold _defaultHasFilterHandler, _defaultAddFilterHandler.
  fold (is_nullish a). rewrite R_not_nullish by assumption. reflexivity.
Qed.

Section WithConf.
Variable conf : Conf V.
Hypothesis conf_has : hasFilterHandler conf = _defaultHasFilterHandler.
Hypothesis conf_remove : removeFilterHandler conf = _defaultRemoveFilterHandler.
Hypothesis conf_add : addFilterHandler conf = _defaultAddFilterHandler.

(** A toggle keeps the list duplicate-free and inside [R], and
    flips the membership of the toggled value only. *)
Lemma toggle_flips (fs : list V) (a : V) :
  In a R -> incl fs R -> NoDup fs ->
  NoDup (toggle conf fs a) /\
  incl (toggle conf fs a) R /\
  forall x, In x R ->
    memb x (toggle conf fs a) = xorb (memb x fs) (closed_range x a).
Proof.
  intros Ha Hincl Hnd. rewrite default_toggle; auto.
  destruct (memb a fs) eqn:Hm.
  - destruct (remove_present a fs Ha Hincl Hnd) as [Hnd' [Hincl' Hmem]].
    repeat split; auto.
    + intros z Hz. apply Hincl. now apply Hincl'.
    + apply Hmem. now apply memb_In in Hm.
  - assert (Hnotin : ~ In a fs).
    { intros Hin. apply memb_In in Hin; auto. congruence. }
    repeat split.
    + apply NoDup_app_remove_l with (l := []). simpl.
      apply Permutation_NoDup with (l := a :: fs).
      * apply Permutation_cons_append.
      * now constructor.
    + intros z Hz. apply in_app_or in Hz. destruct Hz as [Hz | [Hz | []]].
      * now apply Hincl.
      * now subst.
    + intros x Hx. rewrite memb_app. unfold memb at 2. simpl.
      rewrite orb_false_r.
      destruct (closed_range x a) eqn:Hxa; simpl.
      * apply R_exact in Hxa; auto. subst x. rewrite Hm. reflexivity.
      * now destruct (memb x fs).
Qed.

(** The same for a run of toggles. *)
Lemma toggles_flip (vs fs : list V) :
  incl vs R -> incl fs R -> NoDup fs ->
  NoDup (fold_left (toggle conf) vs fs) /\
  incl (fold_left (toggle conf) vs fs) R /\
  forall x, In x R ->
    memb x (fold_left (toggle conf) vs fs) = xorb (memb x fs) (parity x vs).
Proof.
  revert fs. induction vs as [| a vs IH]; intros fs Hvs Hincl Hnd.
  - simpl. repeat split; auto. intros x _. now rewrite xorb_false_r.
  - assert (Ha : In a R) by (apply Hvs; now left).
    assert (Hvs' : incl vs R) by (intros z Hz; apply Hvs; now right).
    destruct (toggle_flips fs a Ha Hincl Hnd) as [Hnd1 [Hincl1 Hmem1]].
    destruct (IH _ Hvs' Hincl1 Hnd1) as [Hnd2 [Hincl2 Hmem2]].
    simpl. repeat split; auto.
    intros x Hx. rewrite (Hmem2 x Hx), (Hmem1 x Hx). apply xorb_assoc.
Qed.

(** Two equal runs of toggles give back the list up to order. *)
Lemma toggles_twice (vs fs : list V) :
  incl vs R -> incl fs R -> NoDup fs ->
  Permutation (fold_left (toggle conf) vs (fold_left (toggle conf) vs fs)) fs.
Proof.
  intros Hvs Hincl Hnd.
  destruct (toggles_flip vs fs Hvs Hincl Hnd) as [Hnd1 [Hincl1 Hmem1]].
  destruct (toggles_flip vs _ Hvs Hincl1 Hnd1) as [Hnd2 [Hincl2 Hmem2]].
  apply NoDup_Permutation; auto.
  intros x. split; intros Hin.
  - assert (Hx : In x R) by now apply Hincl2.
    apply memb_In; auto. apply memb_In in Hin; auto.
    rewrite (Hmem2 x Hx), (Hmem1 x Hx) in Hin.
    now destruct (memb x fs), (parity x vs).
  - assert (Hx : In x R) by now apply Hincl.
    apply memb_In; auto. apply memb_In in Hin; auto.
    rewrite (Hmem2 x Hx), (Hmem1 x Hx), Hin.
    now destruct (parity x vs).
Qed.

Lemma toggles_values (vs fs : list V) :
  incl vs R -> incl fs R -> NoDup fs ->
  filter_values (fold_left (toggle conf) vs fs) = true.
Proof.
  intros Hvs Hincl Hnd.
  destruct (toggles_flip vs fs Hvs Hincl Hnd) as [_ [Hincl1 _]].
  unfold filter_values. apply forallb_forall. intros x Hx.
  apply negb_true_iff. apply R_not_nullish. now apply Hincl1.
Qed.

End WithConf.

End ToggleTwice.

Section Involution.
Context {V : Type} `{JsValue V}.

(** Whether [filter(v)] takes the batch branch or the single-value
    branch, it folds [toggle] over [toggled_values v] (for a single
    value that is not [null]). *)
Lemma mutate_toggles (conf : Conf V) (fs : list V) (v : V) :
  (batch_elements v = None -> is_null v = false) ->
  mutate conf fs v = fold_left (toggle conf) (toggled_values v) fs.
Proof.
  intros Hnull. rewrite mutate_cases. unfold toggled_values.
  destruct (batch_elements v) as [inner |]; [reflexivity |].
  rewrite Hnull; reflexivity.
Qed.

(** With the default filter handler a list of filter values comes
    back from [applyFilters] as it went in. *)
Lemma filter_default_run (c : Chart V) (v : V) :
  filterHandler (_conf c) = _defaultFilterHandler ->
  filter_values (mutate (_conf c) (_filters c) v) = true ->
  outcome_of (filter v c) = Return tt /\
  chart_of (filter v c) = set_filters (mutate (_conf c) (_filters c) v) c.
Proof.
  intros Hdef Hwf. rewrite filter_run, applyFilters_run.
  destruct (dimension_bound c); [| split; reflexivity].
  rewrite Hdef.
  destruct (default_filter_handler_total _ Hwf) as [calls E].
  rewrite E. split; reflexivity.
Qed.

Lemma remove_appended (fs : list V) (v : V) :
  (forall f, In f fs -> closed_range f v = false) ->
  closed_range v v = true ->
  _defaultRemoveFilterHandler (fs ++ [v]) v = fs.
Proof.
  intros Hfs Hv. induction fs as [| f rest IH]; simpl.
  - rewrite has_test_closed, Hv. reflexivity.
  - rewrite has_test_closed, (Hfs f) by now left.
    f_equal. apply IH. intros g Hg. apply Hfs. now right.
Qed.

(** C3 (as the code has it).  Let the chart run the default handlers,
    let its filter list have no repeated entry, let [v] share no array
    with the chart (it is not a batch around the array that
    [filters()] hands out), and let the list entries and the values
    toggled by [filter(v)] ([v] itself, or the inner values of a batch)
    be filter values on which the closed-range test is identity.  Then
    [filter(v)] twice returns both times and leaves a permutation of
    the original list; when a single value [v] was not in the list, it
    leaves the very same list. *)
Theorem toggle_twice_restores (c : Chart V) (v : V) (shared : bool) :
  shared = false ->
  default_handlers c ->
  NoDup (filters c) ->
  filter_values (filters c ++ toggled_values v) = true ->
  exact_on (filters c ++ toggled_values v) ->
  let once := filter_call shared v c in
  let twice := filter_call shared v (chart_of once) in
  outcome_of once = Return tt /\
  outcome_of twice = Return tt /\
  Permutation (filters (chart_of twice)) (filters c) /\
  (batch_elements v = None -> ~ In v (filters c) ->
   filters (chart_of twice) = filters c).
Proof.
  intros ->.
  change (filter_call false v) with (filter v).
  intros [Hhas [Hrem [Hadd [Hreset Happly]]]] Hnd Hwf Hexact once twice.
  unfold filters in *.
  set (R := _filters c ++ toggled_values v) in *.
  assert (HF : incl (_filters c) R) by (intros z Hz; apply in_or_app; now left).
  assert (Hvs : incl (toggled_values v) R)
    by (intros z Hz; apply in_or_app; now right).
  assert (Hnull : batch_elements v = None -> is_null v = false).
  { intros Hb.
    assert (Hv : In v R).
    { apply Hvs. unfold toggled_values. rewrite Hb. now left. }
    pose proof (R_not_nullish R Hwf v Hv) as Hn.
    unfold is_nullish in Hn. now apply orb_false_iff in Hn. }
  pose proof (toggles_flip R Hexact Hwf (_conf c) Hhas Hrem Hadd
                (toggled_values v) (_filters c) Hvs HF Hnd)
    as [Hnd1 [Hincl1 _]].
  destruct (filter_default_run c v Happly) as [Ho1 Hc1].
  { rewrite mutate_toggles by assumption.
    now apply (toggles_values R Hexact Hwf (_conf c)). }
  fold once in Ho1, Hc1.
  rewrite (mutate_toggles _ _ _ Hnull) in Hc1.
  destruct (filter_default_run (chart_of once) v) as [Ho2 Hc2].
  { rewrite Hc1. exact Happly. }
  { rewrite Hc1. simpl. rewrite mutate_toggles by assumption.
    now apply (toggles_values R Hexact Hwf (_conf c)). }
  fold twice in Ho2, Hc2.
  rewrite Hc1 in Hc2. simpl in Hc2.
  rewrite (mutate_toggles _ _ _ Hnull) in Hc2.
  repeat split; trivial.
  - rewrite Hc2. simpl.
    now apply (toggles_twice R Hexact Hwf (_conf c)).
  - intros Hb Hnotin. rewrite Hc2. simpl.
    unfold toggled_values in *. rewrite Hb in *. simpl.
    assert (Hv : In v R) by (apply Hvs; now left).
    assert (Habsent : memb v (_filters c) = false).
    { destruct (memb v (_filters c)) eqn:Hm; trivial.
      apply (memb_In R Hexact) in Hm; auto. contradiction. }
    rewrite (default_toggle R Hwf (_conf c) (_filters c) v) by assumption.
    rewrite Habsent.
    rewrite (default_toggle R Hwf (_conf c) (_filters c ++ [v]) v) by assumption.
    rewrite memb_app. unfold memb at 2. simpl.
    rewrite (R_refl R Hexact v Hv), orb_true_r. simpl.
    apply remove_appended.
    + intros f Hf. destruct (closed_range f v) eqn:Hfv; trivial.
      apply Hexact in Hfv; auto. subst f. contradiction.
    + now apply (R_refl R Hexact).
Qed.

End Involution.

(* ================================================================== *)
(** ** What [filter(v)] toggles *)
(* ================================================================== *)

Section Toggling.
Context {V : Type} `{JsValue V}.

Lemma batch_elements_spec (v : V) (inner : list V) :
  batch_elements v = Some inner <->
  exists first others,
    as_array v = Some (first :: others) /\
    as_array first = Some inner /\
    isFiltered v = None.
Proof.
  unfold batch_elements. split.
  - destruct (as_array v) as [[| first others] |]; try discriminate.
    destruct (as_array first) as [inner' |] eqn:Ef; try discriminate.
    destruct (isFiltered v) eqn:Ei; try discriminate.
    intros E. inversion E; subst. now exists first, others.
  - intros [first [others [Ev [Ef Ei]]]]. rewrite Ev, Ef, Ei. reflexivity.
Qed.

Lemma filter_stores (c : Chart V) (v : V) (fs : list V) :
  outcome_of (applyFilters (mutate (_conf c) (_filters c) v) c) = Return fs ->
  outcome_of (filter v c) = Return tt /\ filters (chart_of (filter v c)) = fs.
Proof.
  rewrite filter_run.
  destruct (applyFilters _ c) as [[r c1] t]. unfold outcome_of. simpl.
  intros E. subst r. split; reflexivity.
Qed.

End Toggling.

(** C5 (as the code has it).  Let [v] share no array with the chart.
    [filter(v)] toggles [v] unless [v] is [null]: a value that is
    neither [null] nor a batch is removed by the remove handler if the
    has handler accepts it against the current list, and added by the
    add handler otherwise; [null] replaces the list by what the reset
    handler returns; a batch (an array whose first element is an array,
    without [isFiltered]) has each value of the inner array toggled in
    turn.  The list so computed is the one handed to the filter handler
    (when a dimension with a [filter] is bound), and what comes back
    from applying it is what the chart stores.  So an empty chart with
    the default handlers filtered with [[['MA','TX']]] holds
    ['MA','TX'], and filtered again with the same batch holds []. *)
Theorem filter_toggles_value_or_batch :
  (forall (V : Type) (JV : JsValue V) (c : Chart V) (v : V) (shared : bool),
      shared = false ->
      let has := hasFilterHandler (_conf c) in
      let remove := removeFilterHandler (_conf c) in
      let add := addFilterHandler (_conf c) in
      let toggled fs f := if has fs (Some f) then remove fs f else add fs f in
      let computed :=
        match batch_elements v with
        | Some inner => fold_left toggled inner (filters c)
        | None =>
            if is_null v then resetFilterHandler (_conf c) (filters c)
            else toggled (filters c) v
        end in
      (forall inner,
         batch_elements v = Some inner <->
         exists first others,
           as_array v = Some (first :: others) /\
           as_array first = Some inner /\
           isFiltered v = None) /\
      handler_calls (trace_of (filter_call shared v c))
        = (if dimension_bound c then [computed] else []) /\
      (forall fs, outcome_of (applyFilters computed c) = Return fs ->
         outcome_of (filter_call shared v c) = Return tt /\
         filters (chart_of (filter_call shared v c)) = fs) /\
      (dimension_bound c = false ->
         outcome_of (filter_call shared v c) = Return tt /\
         filters (chart_of (filter_call shared v c)) = computed)) /\
  (forall c : Chart StrDomain.value,
      default_handlers c -> filters c = [] ->
      let once := filter_call false Examples.states c in
      let twice := filter_call false Examples.states (chart_of once) in
      filters (chart_of once) = [StrDomain.Str "MA"; StrDomain.Str "TX"] /\
      filters (chart_of twice) = []).
Proof.
  split.
  - intros V JV c v shared -> has remove add toggled computed.
    change (filter_call false v) with (filter v).
    assert (Hc : computed = mutate (_conf c) (_filters c) v).
    { rewrite mutate_cases. reflexivity. }
    split; [| split; [| split]].
    + intros inner. apply batch_elements_spec.
    + rewrite Hc. apply filter_handler_calls.
    + intros fs. rewrite Hc. apply filter_stores.
    + intros Hb. rewrite Hc. apply filter_stores.
      rewrite applyFilters_run, Hb. reflexivity.
  - intros c [Hhas [Hrem [Hadd [Hreset Happly]]]] Hempty.
    change (filter_call false Examples.states) with (filter Examples.states).
    intros once twice.
    unfold filters in *.
    assert (E1 : mutate (_conf c) [] Examples.states
                 = [StrDomain.Str "MA"; StrDomain.Str "TX"]).
    { rewrite mutate_cases. unfold toggle. cbn. rewrite Hhas, Hrem, Hadd. reflexivity. }
    assert (E2 : mutate (_conf c) [StrDomain.Str "MA"; StrDomain.Str "TX"]
                   Examples.states = []).
    { rewrite mutate_cases. unfold toggle. cbn. rewrite Hhas, Hrem, Hadd. reflexivity. }
    destruct (filter_default_run c Examples.states Happly) as [_ Hc1].
    { rewrite Hempty, E1. reflexivity. }
    fold once in Hc1. rewrite Hempty, E1 in Hc1.
    destruct (filter_default_run (chart_of once) Examples.states) as [_ Hc2].
    { rewrite Hc1. exact Happly. }
    { rewrite Hc1. cbn [_conf _filters set_filters]. rewrite E2. reflexivity. }
    fold twice in Hc2. rewrite Hc1 in Hc2. cbn [_conf _filters set_filters] in Hc2.
    rewrite E2 in Hc2.
    rewrite Hc1, Hc2. split; reflexivity.
Qed.

(* ================================================================== *)
(** ** [render] and the mandatory attributes *)
(* ================================================================== *)

Section Render.
Context {V : Type} `{JsValue V}.

Lemma anchorName_reset_size (c : Chart V) :
  anchorName (reset_size c) = anchorName c.
Proof. reflexivity. Qed.

(** One check reads the chart and shows nothing; its outcome is decided
    by what [this[a]] is. *)
Lemma check_run (a : string) (c : Chart V) :
  checkForMandatoryAttributes a c =
  (match lookup_member c a with
   | MemberAbsent => Throw (InvalidStateException (mandatory_message a c))
   | MemberAccessor (Return true) => Return tt
   | MemberAccessor (Return false) =>
       Throw (InvalidStateException (mandatory_message a c))
   | MemberAccessor (Throw e) => Throw e
   | MemberNotCallable => Throw TypeError
   | MemberOutside => Throw (NotModelled a)
   end, c, []).
Proof.
  unfold checkForMandatoryAttributes, bind, get, throw, ret.
  destruct (lookup_member c a) as [| [[|] | e] | |]; reflexivity.
Qed.

(** The loop over the mandatory list passes the attributes that are
    present and stops at the first one that is not. *)
Lemma forEach_check_first (before after : list string) (a : string)
    (c : Chart V) (e : exn) :
  (forall b, In b before -> attribute_present c b) ->
  checkForMandatoryAttributes a c = (Throw e, c, []) ->
  forEach checkForMandatoryAttributes (before ++ a :: after) c = (Throw e, c, []).
Proof.
  intros Hbefore Ha. induction before as [| b before IH]; simpl.
  - unfold bind. rewrite Ha. reflexivity.
  - unfold bind at 1. rewrite check_run.
    rewrite (Hbefore b) by now left.
    rewrite IH; [reflexivity |].
    intros b' Hb'. apply Hbefore. now right.
Qed.

Lemma render_check_throws (c : Chart V) (l : list string) (e : exn) :
  _mandatoryAttributesList c = Some l ->
  forEach checkForMandatoryAttributes l (reset_size c) = (Throw e, reset_size c, []) ->
  render c = (Throw e, reset_size c, [EvListener "preRender" None]).
Proof.
  intros Hl E.
  unfold render, bind, modify, emit, get. cbn [_mandatoryAttributesList reset_size].
  rewrite Hl. cbn [reset_size] in E. rewrite E. reflexivity.
Qed.

(** C6 (as the code has it).  The constructor makes [dimension] and
    [group] mandatory.  [render()] forgets the size, fires [preRender]
    and then checks the mandatory attributes in order.  Let [a] be the
    first listed attribute that is not an accessor returning a truthy
    value.  If [a] is missing (absent or falsy, or an accessor
    returning a falsy value), [render()] throws an
    [InvalidStateException] with the message
    ["Mandatory attribute chart.<a> is missing on chart[#<name>]"],
    where [<name>] is the anchor selector without its first ['#'], the
    [id] of the anchor element, or ["dc-chart"] followed by the chart
    id when there is no anchor or it is empty.  If [a] is a truthy
    value that is not a function, [render()] throws a [TypeError]
    instead, and if the accessor throws, what it throws.  In each case
    the listeners have seen [preRender] and nothing else has been
    called: [_doRender] is not. *)
Theorem render_missing_attribute_throws (c : Chart V)
    (before after : list string) (a : string) :
  (forall id, _mandatoryAttributesList (new_chart (V := V) id)
              = Some ["dimension"; "group"]) /\
  (_mandatoryAttributesList c = Some (before ++ a :: after) ->
   (forall b, In b before -> attribute_present (reset_size c) b) ->
   let fallback := ("dc-chart" ++ __dcFlag__ c)%string in
   let name :=
     match _anchor c with
     | AnchorUndefined => fallback
     | AnchorSelector selector =>
         if is_empty selector then fallback else remove_first_hash selector
     | AnchorElement id => if is_empty id then fallback else id
     end in
   let missing :=
     InvalidStateException
       ("Mandatory attribute chart." ++ a ++ " is missing on chart[#"
          ++ name ++ "]")%string in
   let shown := [EvListener "preRender" None] in
   (attribute_missing (reset_size c) a ->
    render c = (Throw missing, reset_size c, shown)) /\
   (lookup_member (reset_size c) a = MemberNotCallable ->
    render c = (Throw TypeError, reset_size c, shown)) /\
   (forall e, lookup_member (reset_size c) a = MemberAccessor (Throw e) ->
    render c = (Throw e, reset_size c, shown)) /\
   (~ attribute_present (reset_size c) a ->
    lookup_member (reset_size c) a <> MemberOutside ->
    (exists e, outcome_of (render c) = Throw e) /\
    ~ In EvDoRender (trace_of (render c)))).
Proof.
  split; [reflexivity |].
  intros Hl Hbefore fallback name missing shown.
  assert (Hstop : forall e,
             checkForMandatoryAttributes a (reset_size c) = (Throw e, reset_size c, []) ->
             render c = (Throw e, reset_size c, shown)).
  { intros e E. apply (render_check_throws c _ e Hl).
    now apply forEach_check_first. }
  assert (Hmsg : InvalidStateException (mandatory_message a (reset_size c)) = missing).
  { unfold missing, mandatory_message, name, fallback, anchorName, chartID.
    cbn [_anchor __dcFlag__ reset_size]. reflexivity. }
  split; [| split; [| split]].
  - intros [Hm | Hm]; apply Hstop; rewrite check_run, Hm, Hmsg; reflexivity.
  - intros Hm. apply Hstop. rewrite check_run, Hm. reflexivity.
  - intros e Hm. apply Hstop. rewrite check_run, Hm. reflexivity.
  - intros Hnot Hin.
    assert (Hthrows : exists e,
               checkForMandatoryAttributes a (reset_size c)
               = (Throw e, reset_size c, [])).
    { rewrite check_run. unfold attribute_present in Hnot.
      destruct (lookup_member (reset_size c) a) as [| [[|] | e] | |];
        try (eexists; reflexivity).
      exfalso. apply Hnot. reflexivity. }
    destruct Hthrows as [e E]. rewrite (Hstop e E).
    split; [exists e; reflexivity |].
    unfold trace_of, shown. simpl. intros [Hx | []]. discriminate.
Qed.

End Render.

(* ================================================================== *)
(** ** Group redraw and render behind a commit handler *)
(* ================================================================== *)

Section Commit.
Context {V : Type} `{JsValue V}.

Lemma redrawGroup_run (c : Chart V) (handler : commit_handler V) :
  commitHandler (_conf c) = Some handler ->
  redrawGroup c = perform (handler false (redrawGroup_callback c)) c.
Proof.
  intros Hc. unfold redrawGroup, bind, get. rewrite Hc.
  destruct (perform _ c) as [[r c'] t]. reflexivity.
Qed.

Lemma renderGroup_run (c : Chart V) (handler : commit_handler V) :
  commitHandler (_conf c) = Some handler ->
  renderGroup c = perform (handler false (renderGroup_callback c)) c.
Proof.
  intros Hc. unfold renderGroup, bind, get. rewrite Hc.
  destruct (perform _ c) as [[r c'] t]. reflexivity.
Qed.

(** C7.  With a commit handler configured, the callback that
    [redrawGroup()] hands to it logs a (truthy) error and does nothing
    else; so when the handler reports an error to its callback,
    [redrawGroup()] returns normally, the error has been logged, and
    [redrawAll()] has not been called on the chart group. *)
Theorem redrawGroup_commit_error (c : Chart V) (handler : commit_handler V)
    (error result : V) :
  commitHandler (_conf c) = Some handler ->
  js_truthy error = true ->
  (forall flag callback, handler flag callback = callback error result) ->
  redrawGroup_callback c error result = ([EvConsoleLog error], None) /\
  redrawGroup c = (Return tt, c, [EvConsoleLog error]) /\
  ~ In EvRedrawAll (trace_of (redrawGroup c)).
Proof.
  intros Hc Herr Hreports.
  assert (Hcb : redrawGroup_callback c error result = ([EvConsoleLog error], None)).
  { unfold redrawGroup_callback. now rewrite Herr. }
  assert (Hrun : redrawGroup c = (Return tt, c, [EvConsoleLog error])).
  { rewrite (redrawGroup_run c handler Hc), Hreports, Hcb. reflexivity. }
  repeat split; trivial.
  rewrite Hrun. unfold trace_of. simpl. intros [Hx | []]. discriminate.
Qed.

(** When the callback is given no error, it fans out to the group. *)
Lemma commit_success_fans_out (c : Chart V) (error result : V) :
  js_truthy error = false ->
  redrawGroup_callback c error result = group_redrawAll c /\
  renderGroup_callback c error result = group_renderAll c.
Proof.
  intros Herr. unfold redrawGroup_callback, renderGroup_callback.
  now rewrite Herr.
Qed.

End Commit.

(** C8 (what the code does).  [renderGroup()] calls the commit handler
    with the flag [false], the very flag [redrawGroup()] passes: a
    handler that logs its flag logs the same value under both. *)
Theorem renderGroup_passes_redraw_flag :
  trace_of (renderGroup Examples.logging_chart)
    = [EvConsoleLog (NumDomain.Num 0)] /\
  trace_of (redrawGroup Examples.logging_chart)
    = [EvConsoleLog (NumDomain.Num 0)].
Proof. split; reflexivity. Qed.

(* ================================================================== *)
(** ** The properties on the example charts *)
(* ================================================================== *)

Section Concrete.
Import NumDomain.
Import Examples.

(** The four examples of the default filter handler. *)
Example apply_no_filter :
  _defaultFilterHandler ([] : list NumDomain.value)
  = Return ([DimFilterNull], Some []).
Proof. reflexivity. Qed.

Example apply_single_value :
  _defaultFilterHandler [Num 5] = Return ([DimFilterExact (Num 5)], Some [Num 5]).
Proof. reflexivity. Qed.

Example apply_single_range :
  _defaultFilterHandler [range_1_5]
  = Return ([DimFilterRange range_1_5], Some [range_1_5]).
Proof. reflexivity. Qed.

Example apply_two_values :
  map (filterFunction_body [Num 5; Num 9]) [Num 5; Num 9; Num 7; NaN; Null]
  = [Return true; Return true; Return false; Return false; Return false].
Proof. reflexivity. Qed.

Lemma default_filter_handler_policy_witness :
  exists call,
    _defaultFilterHandler [Num 5; Num 9] = Return ([call], Some [Num 5; Num 9]) /\
    any_filter_predicate [Num 5; Num 9] call.
Proof. exact (proj1 (default_filter_handler_policy [Num 5; Num 9]) eq_refl). Defined.

(** C1, counterexample.  Handed the single entry [undefined] (or
    [null]), the default filter handler reads [.isFiltered] of it and
    throws a [TypeError]: it makes no call on the dimension and does
    not return the list.  [filter(undefined)] on an empty chart with a
    dimension bound hands it exactly that list.  And of the list
    [1, null] the installed predicate neither accepts nor rejects the
    record [2]: it throws. *)
Lemma default_filter_handler_not_total :
  _defaultFilterHandler [Undefined] = Throw TypeError /\
  _defaultFilterHandler [Null] = Throw TypeError /\
  (~ exists calls, _defaultFilterHandler [Undefined]
                   = Return (calls, Some [Undefined])) /\
  filters bound_chart = [] /\
  handler_calls (trace_of (filter Undefined bound_chart)) = [[Undefined]] /\
  outcome_of (filter Undefined bound_chart) = Throw TypeError /\
  _defaultFilterHandler [Num 1; Null]
  = Return ([DimFilterFunction (filterFunction_body [Num 1; Null])],
            Some [Num 1; Null]) /\
  filterFunction_body [Num 1; Null] (Num 2) = Throw TypeError.
Proof.
  split; [reflexivity |]. split; [reflexivity |].
  split; [intros [calls E]; discriminate E |].
  repeat split.
Qed.

(** After that throw the chart's array holds the [undefined] that the
    add handler pushed before the list was applied. *)
Example filter_throw_keeps_push :
  filters (chart_of (filter Undefined bound_chart)) = [Undefined].
Proof. reflexivity. Qed.

(** [filter(18)] on an empty chart, and again. *)
Example toggle_18 :
  filter (Num 18) fresh_chart
  = (Return tt, set_filters [Num 18] fresh_chart,
     [EvListener "filtered" (Some (Num 18))]) /\
  hasFilter (set_filters [Num 18] fresh_chart) None = true /\
  filters (chart_of (filter (Num 18) (set_filters [Num 18] fresh_chart))) = [] /\
  hasFilter (chart_of (filter (Num 18) (set_filters [Num 18] fresh_chart))) None
  = false.
Proof. repeat split. Qed.

(** C4, counterexample.  The chart's only filter is the range object
    for [1 <= d < 5]; its [isFiltered] accepts [3], yet [hasFilter(3)]
    is false: the default has handler compares [3] with the object
    and never calls [isFiltered]. *)
Lemma hasFilter_ignores_isFiltered :
  accepts range_1_5 (Num 3) = true /\
  hasFilter ranged_chart (Some (Num 3)) = false /\
  ~ (hasFilter ranged_chart (Some (Num 3)) = true <->
     exists f, In f (filters ranged_chart) /\ accepts f (Num 3) = true).
Proof.
  split; [reflexivity |]. split; [reflexivity |].
  intros [_ Hback].
  assert (Hhas : hasFilter ranged_chart (Some (Num 3)) = true).
  { apply Hback. exists range_1_5. split; [now left | reflexivity]. }
  discriminate Hhas.
Qed.

Lemma default_hasFilter_closed_range_witness :
  hasFilter two_filters_chart (Some (Num 2)) = true <->
  exists f, In f (filters two_filters_chart) /\
            js_le (Num 2) f = true /\ js_ge (Num 2) f = true.
Proof.
  exact (default_hasFilter_closed_range two_filters_chart (Some (Num 2)) eq_refl).
Defined.

Lemma filter_get_first_witness :
  filter_get two_filters_chart = Some (Num 1) /\
  forall rest', filter_get (set_filters (Num 1 :: rest') two_filters_chart)
                = filter_get two_filters_chart.
Proof.
  exact (proj2 (filter_get_first two_filters_chart) (Num 1) [Num 2] eq_refl).
Defined.

Lemma filter_result_through_handler_witness :
  outcome_of (filter (Num 5) pinned_chart) = Return tt /\
  filters (chart_of (filter (Num 5) pinned_chart)) = [Num 0; Num 5].
Proof.
  exact (proj1 (proj2 (proj2 (filter_result_through_handler (Num 5) pinned_chart)))
           eq_refl [] (Some [Num 0; Num 5]) eq_refl).
Defined.

(** C2, counterexample.  On a chart as constructed (no dimension),
    [replaceFilter(undefined)] returns without entering the filter
    handler and without firing [filtered]; and on a chart whose filter
    handler pins a filter, [replaceFilter(5)] ends with the filters
    [0, 5] where [filter(null)] then [filter(5)] ends with [0, 0, 5]. *)
Lemma replaceFilter_not_once_everywhere :
  (outcome_of (replaceFilter Undefined fresh_chart) = Return tt /\
   handler_calls (trace_of (replaceFilter Undefined fresh_chart)) = [] /\
   filtered_payloads (trace_of (replaceFilter Undefined fresh_chart)) = []) /\
  (filters (chart_of (replaceFilter (Num 5) pinned_chart)) = [Num 0; Num 5] /\
   filters (chart_of ((filter Null ;; filter (Num 5)) pinned_chart))
   = [Num 0; Num 0; Num 5]).
Proof. repeat split. Qed.

Lemma replaceFilter_applies_once_witness :
  handler_calls (trace_of (replaceFilter (Num 5) two_filters_chart)) = [[Num 5]] /\
  filtered_payloads (trace_of (replaceFilter (Num 5) two_filters_chart))
  = [Some (Num 5)] /\
  handler_calls (trace_of ((filter Null ;; filter (Num 5)) two_filters_chart))
  = [[]; [Num 5]].
Proof.
  pose proof (replaceFilter_applies_once two_filters_chart Null (Num 5)) as Hw.
  destruct (Hw eq_refl eq_refl eq_refl)
    as [_ [_ [Htrace [Hfirst [Hcalls Hfired]]]]].
  split; [exact Hcalls |]. split; [exact (Hfired eq_refl) |].
  rewrite Htrace, handler_calls_app, Hfirst, Hcalls. reflexivity.
Defined.

(** C3, counterexample.  On a chart as constructed, [filter(NaN)]
    twice leaves [NaN, NaN] where the list was empty; on a chart holding
    the string ['a,b'], [filter(['a','b'])] twice leaves the array where
    the string was; on a chart holding [5, 5], [filter(5)] twice leaves
    []; on a chart holding [1, 2], [filter(1)] twice leaves [2, 1],
    the same entries in another order; and on a chart holding
    ['MA', 'TX'], [filter([chart.filters()])] leaves ['TX'] (the loop
    reads the array that the remove handler shortens) and then []. *)
Lemma toggle_twice_not_identity :
  (filters fresh_chart = [] /\
   filters (chart_of (filter NaN (chart_of (filter NaN fresh_chart))))
   = [NaN; NaN] /\
   ~ Permutation
       (filters (chart_of (filter NaN (chart_of (filter NaN fresh_chart)))))
       (filters fresh_chart)) /\
  (filters joined_chart = [StrDomain.Str "a,b"] /\
   filters (chart_of (filter pair_array (chart_of (filter pair_array joined_chart))))
   = [pair_array] /\
   ~ Permutation
       (filters (chart_of (filter pair_array
                             (chart_of (filter pair_array joined_chart)))))
       (filters joined_chart)) /\
  (filters repeated_chart = [Num 5; Num 5] /\
   filters (chart_of (filter (Num 5) (chart_of (filter (Num 5) repeated_chart))))
   = []) /\
  (filters two_filters_chart = [Num 1; Num 2] /\
   filters (chart_of (filter (Num 1) (chart_of (filter (Num 1) two_filters_chart))))
   = [Num 2; Num 1]) /\
  (filters states_chart = [StrDomain.Str "MA"; StrDomain.Str "TX"] /\
   batch_elements states = Some (filters states_chart) /\
   filters (chart_of (filter_call true states states_chart)) = [StrDomain.Str "TX"] /\
   filters (chart_of (filter_call true (StrDomain.Arr [StrDomain.Arr [StrDomain.Str "TX"]])
                        (chart_of (filter_call true states states_chart))))
   = []).
Proof.
  split; [| split; [| split; [| split]]].
  - split; [reflexivity |]. split; [reflexivity |].
    intros Hp. apply Permutation_sym, Permutation_nil in Hp. discriminate Hp.
  - split; [reflexivity |]. split; [reflexivity |].
    intros Hp. apply Permutation_length_1_inv in Hp. discriminate Hp.
  - split; reflexivity.
  - split; reflexivity.
  - repeat split.
Qed.

(** On [1, 2], [filter(1)] twice; and on ['MA', 'TX'], twice the batch
    [[['MA', 'TX']]] written out (an array of its own). *)
Lemma toggle_twice_restores_witness :
  Permutation
    (filters (chart_of (filter (Num 1) (chart_of (filter (Num 1) two_filters_chart)))))
    [Num 1; Num 2] /\
  Permutation
    (filters (chart_of (filter states (chart_of (filter states states_chart)))))
    [StrDomain.Str "MA"; StrDomain.Str "TX"].
Proof.
  split.
  - pose proof (toggle_twice_restores two_filters_chart (Num 1) false eq_refl) as Hw.
    refine (proj1 (proj2 (proj2 (Hw _ _ _ _)))).
    + repeat split.
    + repeat constructor; simpl; intuition discriminate.
    + reflexivity.
    + intros x y Hx Hy. simpl in Hx, Hy.
      destruct Hx as [<- | [<- | [<- | []]]];
        destruct Hy as [<- | [<- | [<- | []]]];
        vm_compute; split; congruence.
  - pose proof (toggle_twice_restores states_chart states false eq_refl) as Hw.
    refine (proj1 (proj2 (proj2 (Hw _ _ _ _)))).
    + repeat split.
    + repeat constructor; simpl; intuition discriminate.
    + reflexivity.
    + intros x y Hx Hy. simpl in Hx, Hy.
      destruct Hx as [<- | [<- | [<- | [<- | []]]]];
        destruct Hy as [<- | [<- | [<- | [<- | []]]]];
        vm_compute; split; congruence.
Defined.

(** C5, counterexample.  On a chart holding [1, 2], [null] is not a
    batch, the has handler accepts it (the list is not empty) and the
    remove handler would leave [1, 2]; [filter(null)] leaves [].  And
    on a chart holding ['MA', 'TX'], the batch [[chart.filters()]] has
    the inner values 'MA' and 'TX', and toggling each of them would
    leave []; [filter] leaves ['TX']: its loop runs over the chart's own
    array, which the remove handler shortens under it, and never comes
    to 'TX'. *)
Lemma filter_not_always_toggle :
  (batch_elements Null = None /\
   hasFilterHandler (_conf two_filters_chart) (filters two_filters_chart) (Some Null)
   = true /\
   removeFilterHandler (_conf two_filters_chart) (filters two_filters_chart) Null
   = [Num 1; Num 2] /\
   filters (chart_of (filter Null two_filters_chart)) = []) /\
  (batch_elements states = Some (filters states_chart) /\
   fold_left (toggle (_conf states_chart)) (filters states_chart)
     (filters states_chart) = [] /\
   filters (chart_of (filter_call true states states_chart))
   = [StrDomain.Str "TX"]).
Proof. repeat split. Qed.

Lemma filter_toggles_value_or_batch_witness :
  handler_calls (trace_of (filter (Num 2) two_filters_chart)) = [[Num 1]] /\
  filters (chart_of (filter (Num 2) two_filters_chart)) = [Num 1] /\
  filters (chart_of (filter states fresh_str_chart))
  = [StrDomain.Str "MA"; StrDomain.Str "TX"] /\
  filters (chart_of (filter states (chart_of (filter states fresh_str_chart)))) = [].
Proof.
  pose proof filter_toggles_value_or_batch as [Hgeneral Hscenario].
  pose proof (Hgeneral _ _ two_filters_chart (Num 2) false eq_refl)
    as [_ [Hcalls [Hstored _]]].
  split; [exact Hcalls |].
  split; [exact (proj2 (Hstored [Num 1] eq_refl)) |].
  apply (Hscenario fresh_str_chart); [repeat split | reflexivity].
Defined.

(** [render()] on a chart as constructed, and on a chart with a
    dimension and no group. *)
Example render_as_constructed :
  render fresh_chart
  = (Throw (InvalidStateException
              "Mandatory attribute chart.dimension is missing on chart[#dc-chart1]"),
     fresh_chart, [EvListener "preRender" None]).
Proof. reflexivity. Qed.

Example render_without_group :
  render no_group_chart
  = (Throw (InvalidStateException
              "Mandatory attribute chart.group is missing on chart[#chart]"),
     reset_size no_group_chart, [EvListener "preRender" None]).
Proof. reflexivity. Qed.

(** C6, counterexample.  The chart lists [dimension], [palette] and
    [group]; its [group] accessor returns a falsy value (no group is
    bound), but its [palette] is an array: [render()] throws a
    [TypeError] at [palette], and no [InvalidStateException] names the
    missing [group]. *)
Lemma render_type_error_before_missing :
  _mandatoryAttributesList palette_chart = Some ["dimension"; "palette"; "group"] /\
  attribute_missing (reset_size palette_chart) "group" /\
  render palette_chart
  = (Throw TypeError, reset_size palette_chart, [EvListener "preRender" None]) /\
  ~ exists msg, outcome_of (render palette_chart) = Throw (InvalidStateException msg).
Proof.
  split; [reflexivity |]. split; [right; reflexivity |]. split; [reflexivity |].
  intros [msg E]. discriminate E.
Qed.

(** On the chart without a group; on the same chart listing [filters],
    [chartID] and [hasFilter] (members of the mixin: the first two
    return truthy values, and nothing is filtered); and on it listing
    [anchorName], [root] and [_filters] (the last is the array itself,
    not a function). *)
Lemma render_missing_attribute_throws_witness :
  render no_group_chart =
  (Throw (InvalidStateException
            "Mandatory attribute chart.group is missing on chart[#chart]"),
   reset_size no_group_chart, [EvListener "preRender" None]) /\
  outcome_of (render (_mandatoryAttributes ["filters"; "chartID"; "hasFilter"]
                        no_group_chart)) =
  Throw (InvalidStateException
           "Mandatory attribute chart.hasFilter is missing on chart[#chart]") /\
  outcome_of (render (_mandatoryAttributes ["anchorName"; "root"; "_filters"]
                        no_group_chart)) =
  Throw TypeError.
Proof.
  split; [| split].
  - pose proof (render_missing_attribute_throws no_group_chart ["dimension"] [] "group")
      as [_ Hw].
    refine (proj1 (Hw eq_refl _) _).
    + intros b [<- | []]. reflexivity.
    + right. reflexivity.
  - pose proof (render_missing_attribute_throws
                  (_mandatoryAttributes ["filters"; "chartID"; "hasFilter"] no_group_chart)
                  ["filters"; "chartID"] [] "hasFilter") as [_ Hw].
    refine (f_equal (fun r => outcome_of r) (proj1 (Hw eq_refl _) _)).
    + intros b [<- | [<- | []]]; reflexivity.
    + right. reflexivity.
  - pose proof (render_missing_attribute_throws
                  (_mandatoryAttributes ["anchorName"; "root"; "_filters"] no_group_chart)
                  ["anchorName"; "root"] [] "_filters") as [_ Hw].
    refine (f_equal (fun r => outcome_of r) (proj1 (proj2 (Hw eq_refl _)) _)).
    + intros b [<- | [<- | []]]; reflexivity.
    + reflexivity.
Defined.

Lemma redrawGroup_commit_error_witness :
  redrawGroup failing_chart = (Return tt, failing_chart, [EvConsoleLog (Num 7)]) /\
  ~ In EvRedrawAll (trace_of (redrawGroup failing_chart)).
Proof.
  pose proof (redrawGroup_commit_error failing_chart (failing_commit (Num 7))
                (Num 7) Undefined) as Hw.
  exact (proj2 (Hw eq_refl eq_refl (fun _ _ => eq_refl))).
Defined.

(** Without an error the same handler shape lets the group redraw. *)
Example redrawGroup_commit_success :
  redrawGroup (configure_commitHandler (Some (failing_commit Undefined))
                 (anchored fresh_chart))
  = (Return tt,
     configure_commitHandler (Some (failing_commit Undefined)) (anchored fresh_chart),
     [EvRedrawAll]).
Proof. reflexivity. Qed.

End Concrete.


(* ================================================================== *)
(** ** Beyond the claims: anchor name and render *)
(* ================================================================== *)

Section AnchorAndRender.
Context {V : Type} `{JsValue V}.

Lemma remove_first_hash_none (a : string) :
  has_hash a = false -> remove_first_hash a = a.
Proof.
  induction a as [| ch a IH]; simpl; intros Hno; [reflexivity |].
  apply orb_false_iff in Hno. destruct Hno as [Hch Ha].
  rewrite Hch. f_equal. now apply IH.
Qed.

Lemma remove_first_hash_app (a b : string) :
  has_hash a = false ->
  remove_first_hash (a ++ String "#"%char b) = (a ++ b)%string.
Proof.
  induction a as [| ch a IH]; simpl; intros Hno; [reflexivity |].
  apply orb_false_iff in Hno. destruct Hno as [Hch Ha].
  rewrite Hch. f_equal. now apply IH.
Qed.

(** X1.  [anchorName()] of a selector anchor drops the first ['#'] and
    nothing else: a non-empty selector without ['#'] is returned as it
    is, and [a#b] with no ['#'] in [a] gives [ab], with every ['#'] of
    [b] kept. *)
Theorem anchorName_drops_first_hash (c : Chart V) (a b : string) :
  has_hash a = false ->
  (_anchor c = AnchorSelector (a ++ String "#"%char b) ->
   anchorName c = (a ++ b)%string) /\
  (is_empty a = false -> _anchor c = AnchorSelector a -> anchorName c = a).
Proof.
  intros Hno. unfold anchorName. split.
  - intros Ha. rewrite Ha.
    assert (Hne : is_empty (a ++ String "#"%char b) = false) by (destruct a; reflexivity).
    rewrite Hne. now apply remove_first_hash_app.
  - intros Hne Ha. rewrite Ha, Hne. now apply remove_first_hash_none.
Qed.

(** The check loop never changes the chart and shows nothing. *)
Lemma forEach_check_state (l : list string) (c : Chart V) :
  exists r, forEach checkForMandatoryAttributes l c = (r, c, []).
Proof.
  induction l as [| a rest IH]; simpl.
  - eexists; reflexivity.
  - unfold bind at 1. rewrite check_run.
    destruct (lookup_member c a) as [| [[|] | e] | |];
      try (eexists; reflexivity).
    destruct IH as [r E]. rewrite E. eexists; reflexivity.
Qed.

Lemma forEach_check_ok (l : list string) (c : Chart V) :
  (forall a, In a l -> attribute_present c a) ->
  forEach checkForMandatoryAttributes l c = (Return tt, c, []).
Proof.
  induction l as [| a rest IH]; intros Hall; simpl; [reflexivity |].
  unfold bind at 1. rewrite check_run.
  rewrite (Hall a) by now left.
  rewrite IH; [reflexivity |]. intros b Hb. apply Hall. now right.
Qed.

Lemma activateRenderlets_run (channel : option string) (c : Chart V) :
  _activateRenderlets channel c =
  (Return tt, c,
   EvListener "pretransition" None ::
   if (0 <? transitionDuration (_conf c))%Z && _svg c
   then [EvTransition (transitionDuration (_conf c)) (transitionDelay (_conf c))
           (renderlet_calls channel)]
   else renderlet_calls channel).
Proof.
  unfold _activateRenderlets, bind, get, emit, perform.
  destruct ((0 <? transitionDuration (_conf c))%Z && _svg c); reflexivity.
Qed.

(** What [render()] does after the mandatory check, by its outcome. *)
Lemma render_run (c : Chart V) :
  render c =
  match match _mandatoryAttributesList c with
        | Some l => forEach checkForMandatoryAttributes l (reset_size c)
        | None => (Return tt, reset_size c, [])
        end with
  | (Return _, _, _) =>
      (Return tt, reset_size c,
       [EvListener "preRender" None; EvDoRender]
         ++ (if _legend c then [EvLegendRender] else [])
         ++ [EvListener "pretransition" None]
         ++ (if (0 <? transitionDuration (_conf c))%Z && _svg c
             then [EvTransition (transitionDuration (_conf c))
                     (transitionDelay (_conf c))
                     [EvListener "renderlet" None; EvListener "postRender" None]]
             else [EvListener "renderlet" None; EvListener "postRender" None]))
  | (Throw e, _, _) => (Throw e, reset_size c, [EvListener "preRender" None])
  end.
Proof.
  unfold render, bind, modify, emit, get, ret.
  cbn [_mandatoryAttributesList reset_size].
  destruct (_mandatoryAttributesList c) as [l |].
  - destruct (forEach_check_state l (reset_size c)) as [r E].
    cbn [reset_size] in E. rewrite E.
    destruct r as [[] | e]; [| reflexivity].
    cbn [_legend reset_size]. destruct (_legend c);
      rewrite activateRenderlets_run; cbn;
      destruct ((0 <? _)%Z && _svg c); reflexivity.
  - cbn [_legend reset_size]. destruct (_legend c);
      rewrite activateRenderlets_run; cbn;
      destruct ((0 <? _)%Z && _svg c); reflexivity.
Qed.

(** X2.  When every mandatory attribute is present, [render()] returns
    having called, in this order: [preRender], the draw step, the
    legend (if one is attached) and [pretransition].  Without a
    transition (the duration is not positive, or there is no svg
    element) it then calls [renderlet] and [postRender] itself; with
    one it calls neither: it hands the two calls to the transition,
    which makes them, in that order, if and when it ends. *)
Theorem render_draws_in_order (c : Chart V) :
  (forall l a, _mandatoryAttributesList c = Some l -> In a l ->
               attribute_present (reset_size c) a) ->
  let closing := [EvListener "renderlet" None; EvListener "postRender" None] in
  let drawn :=
    [EvListener "preRender" None; EvDoRender]
      ++ (if _legend c then [EvLegendRender] else [])
      ++ [EvListener "pretransition" None] in
  render c =
  (Return tt, reset_size c,
   if (0 <? transitionDuration (_conf c))%Z && _svg c
   then drawn ++ [EvTransition (transitionDuration (_conf c))
                    (transitionDelay (_conf c)) closing]
   else drawn ++ closing).
Proof.
  intros Hall closing drawn. rewrite render_run.
  assert (Hok : match _mandatoryAttributesList c with
                | Some l => forEach checkForMandatoryAttributes l (reset_size c)
                | None => (Return tt, reset_size c, [])
                end = (Return tt, reset_size c, [])).
  { destruct (_mandatoryAttributesList c) as [l |] eqn:Hl; [| reflexivity].
    apply forEach_check_ok. intros a Ha. now apply (Hall l a). }
  rewrite Hok. unfold drawn, closing.
  destruct ((0 <? transitionDuration (_conf c))%Z && _svg c);
    rewrite <- !app_assoc; reflexivity.
Qed.


End AnchorAndRender.

(* ================================================================== *)
(** ** Beyond the claims: the default handlers at their edges *)
(* ================================================================== *)

Section HandlerEdges.
Context {V : Type} `{JsValue V}.

(** X4.  The default filter handler throws only a [TypeError], and
    exactly when the list is a single [null] or [undefined] entry: on
    an empty list and on two or more entries it always returns, making
    one call on the dimension (with two or more entries a null entry
    can only make the installed predicate throw, later). *)
Theorem default_filter_handler_throws (fs : list V) :
  (_defaultFilterHandler fs = Throw TypeError <->
   exists f, fs = [f] /\ is_nullish f = true) /\
  (forall e, _defaultFilterHandler fs = Throw e -> e = TypeError) /\
  ((forall f, fs <> [f]) ->
   exists call, _defaultFilterHandler fs = Return ([call], Some fs)).
Proof.
  destruct fs as [| f [| g rest]].
  - split; [| split].
    + split; [discriminate | intros [f [E _]]; discriminate].
    + discriminate.
    + intros _. eexists; reflexivity.
  - assert (Hcases : (is_nullish f = true /\ _defaultFilterHandler [f] = Throw TypeError) \/
                     (is_nullish f = false /\
                      exists call, _defaultFilterHandler [f] = Return ([call], Some [f]))).
    { simpl. destruct (is_nullish f); [left; split; reflexivity | right].
      split; [reflexivity |].
      destruct (isFiltered f); [destruct (filterType f) as [t |];
        [destruct (t =? "RangedFilter")%string |] |]; eexists; reflexivity. }
    split; [| split].
    + split.
      * intros Ht. exists f. split; [reflexivity |].
        destruct Hcases as [[Hn _] | [_ [call E]]]; [exact Hn |].
        rewrite E in Ht. discriminate.
      * intros [f' [E Hn]]. inversion E; subst f'.
        destruct Hcases as [[_ Ht] | [Hn' _]]; [exact Ht | congruence].
    + intros e He. destruct Hcases as [[_ Ht] | [_ [call E]]]; congruence.
    + intros Hnot. exfalso. now apply (Hnot f).
  - split; [| split].
    + split; [discriminate | intros [f' [E _]]; discriminate].
    + discriminate.
    + intros _. eexists; reflexivity.
Qed.

(** X5.  The predicate installed by the default filter handler returns
    at the first filter that accepts the record: a [null] or
    [undefined] entry further down the list makes it throw only for
    the records that no earlier filter accepts. *)
Theorem predicate_stops_at_first_accept (l1 l2 : list V) (n d : V) :
  filter_values l1 = true ->
  is_nullish n = true ->
  filterFunction_body (l1 ++ n :: l2) d =
  if existsb (fun f => accepts f d) l1 then Return true else Throw TypeError.
Proof.
  intros Hwf Hn. induction l1 as [| f rest IH]; simpl.
  - now rewrite Hn.
  - apply filter_values_cons in Hwf. destruct Hwf as [Hf Hrest].
    rewrite Hf. unfold accepts at 1.
    destruct (isFiltered f) as [test |].
    + destruct (test d); [reflexivity | now apply IH].
    + destruct (closed_range f d); [reflexivity | now apply IH].
Qed.

Lemma default_has_memb (fs : list V) (x : V) :
  is_nullish x = false -> _defaultHasFilterHandler fs (Some x) = memb x fs.
Proof.
  intros Hn. unfold _defaultHasFilterHandler. fold (is_nullish x).
  rewrite Hn. reflexivity.
Qed.

(** X6.  The default has and remove handlers agree, although one tests
    [x <= f && x >= f] and the other [f <= x && f >= x]: for a probe
    that is not null or undefined, the remove handler returns the list
    unchanged iff the has handler does not find the probe, and
    otherwise takes out exactly one entry, the first that passes the
    test, keeping the others in order. *)
Theorem remove_takes_first_match (fs : list V) (x : V) :
  is_nullish x = false ->
  (_defaultHasFilterHandler fs (Some x) = false ->
   _defaultRemoveFilterHandler fs x = fs) /\
  (_defaultHasFilterHandler fs (Some x) = true ->
   exists l1 f l2,
     fs = l1 ++ f :: l2 /\
     closed_range x f = true /\
     (forall g, In g l1 -> closed_range x g = false) /\
     _defaultRemoveFilterHandler fs x = l1 ++ l2).
Proof.
  intros Hn. rewrite (default_has_memb fs x Hn). unfold memb.
  induction fs as [| f rest [IHno IHyes]]; simpl.
  - split; [reflexivity | discriminate].
  - rewrite has_test_closed, (closed_range_sym f x).
    destruct (closed_range x f) eqn:Hxf; simpl.
    + split; [discriminate |]. intros _.
      exists [], f, rest. repeat split; trivial. intros g [].
    + split.
      * intros Hno. f_equal. now apply IHno.
      * intros Hyes. destruct (IHyes Hyes) as [l1 [f' [l2 [E [Hf' [Hl1 Hrem]]]]]].
        exists (f :: l1), f', l2. repeat split; trivial.
        -- simpl. now rewrite E.
        -- intros g [<- | Hg]; [exact Hxf | now apply Hl1].
        -- simpl. now rewrite Hrem.
Qed.

End HandlerEdges.

(* ================================================================== *)
(** ** Beyond the claims: what [filter] and [replaceFilter] leave *)
(* ================================================================== *)

Section FilterEffects.
Context {V : Type} `{JsValue V}.

Lemma control_writes_app (t1 t2 : list (event V)) :
  control_writes (t1 ++ t2) = control_writes t1 ++ control_writes t2.
Proof. unfold control_writes. apply flat_map_app. Qed.

Lemma control_writes_dimension (calls : list (dim_call V)) :
  control_writes (map (@EvDimension V) calls) = [].
Proof. induction calls; simpl; auto. Qed.

Lemma control_writes_filtered (v : V) : control_writes (filtered_events v) = [].
Proof. unfold filtered_events. destruct (is_undefined v); reflexivity. Qed.

Lemma default_hasFilter_none (c : Chart V) :
  hasFilterHandler (_conf c) = _defaultHasFilterHandler ->
  hasFilter c None = negb (is_nil (_filters c)).
Proof.
  intros Hdef. unfold hasFilter. rewrite Hdef. simpl.
  destruct (_filters c); reflexivity.
Qed.

(** X7.  With the default has handler, a [filter(v)] that returns
    writes to the controls once if the chart has a root selection,
    turning them on iff the resulting filter list is non-empty, and
    does not touch them if the root is undefined or null. *)
Theorem filter_switches_controls (c : Chart V) (v : V) :
  hasFilterHandler (_conf c) = _defaultHasFilterHandler ->
  outcome_of (filter v c) = Return tt ->
  control_writes (trace_of (filter v c)) =
  match _root c with
  | RootSelection => [negb (is_nil (filters (chart_of (filter v c))))]
  | _ => []
  end.
Proof.
  intros Hdef. rewrite filter_run, applyFilters_run.
  assert (Hctl : forall fs,
             control_writes (controls_events (set_filters fs c)) =
             match _root c with
             | RootSelection => [negb (is_nil fs)]
             | _ => []
             end).
  { intros fs. unfold controls_events.
    rewrite (default_hasFilter_none (set_filters fs c) Hdef). simpl.
    destruct (_root c); simpl; trivial. destruct fs; reflexivity. }
  destruct (dimension_bound c).
  - destruct (filterHandler (_conf c) _) as [[calls returned] | e];
      unfold outcome_of, trace_of, chart_of, filters; simpl; [| discriminate].
    intros _.
    rewrite !control_writes_app, control_writes_dimension,
      control_writes_filtered, Hctl. reflexivity.
  - unfold outcome_of, trace_of, chart_of, filters. simpl. intros _.
    rewrite !control_writes_app, control_writes_filtered, Hctl. reflexivity.
Qed.

(** X8.  When the filter handler throws, [filter(v)] throws the same
    exception after entering the handler once: no [filtered] event is
    fired and the controls are not touched. *)
Theorem filter_handler_throw_propagates (c : Chart V) (v : V) (e : exn) :
  dimension_bound c = true ->
  filterHandler (_conf c) (mutate (_conf c) (_filters c) v) = Throw e ->
  outcome_of (filter v c) = Throw e /\
  trace_of (filter v c) = [EvFilterHandler (mutate (_conf c) (_filters c) v)] /\
  filtered_payloads (trace_of (filter v c)) = [] /\
  control_writes (trace_of (filter v c)) = [].
Proof.
  intros Hb Hthrow. rewrite filter_run, applyFilters_run, Hb, Hthrow.
  repeat split.
Qed.

(** X9.  With the default reset and filter handlers, [filter(null)]
    always returns and empties the filter list; the dimension receives
    [filter(null)] iff one is bound, and the [filtered] event fires
    with the payload [null]. *)
Theorem filter_null_clears (c : Chart V) (n : V) :
  resetFilterHandler (_conf c) = _defaultResetFilterHandler ->
  filterHandler (_conf c) = _defaultFilterHandler ->
  is_null n = true -> is_undefined n = false -> batch_elements n = None ->
  filter n c =
  (Return tt, set_filters [] c,
   (if dimension_bound c
    then [EvFilterHandler []; EvDimension DimFilterNull] else [])
     ++ [EvListener "filtered" (Some n)]
     ++ controls_events (set_filters [] c)).
Proof.
  intros Hreset Happly Hn Hu Hb.
  rewrite filter_run, applyFilters_run, mutate_null by assumption.
  rewrite Hreset, Happly. unfold filtered_events. rewrite Hu.
  destruct (dimension_bound c); reflexivity.
Qed.

(** X10.  With the default handlers, [replaceFilter(v)] for a single
    value [v] (not null, not undefined, not a batch) leaves exactly
    [[v]], whatever the filters were before, also when [v] was among
    them, and also for a value the closed-range test never finds, such
    as NaN. *)
Theorem replaceFilter_leaves_single (c : Chart V) (v : V) :
  default_handlers c ->
  is_nullish v = false -> batch_elements v = None ->
  outcome_of (replaceFilter v c) = Return tt /\
  filters (chart_of (replaceFilter v c)) = [v].
Proof.
  intros [Hhas [Hrem [Hadd [Hreset Happly]]]] Hn Hb.
  assert (Hnull : is_null v = false).
  { unfold is_nullish in Hn. now apply orb_false_iff in Hn. }
  rewrite replaceFilter_run, Hreset.
  assert (Hm : mutate (_conf c) [] v = [v]).
  { rewrite mutate_cases. unfold toggle. rewrite Hb, Hnull, Hhas, Hadd.
    unfold _defaultHasFilterHandler. simpl.
    fold (is_nullish v). rewrite Hn. reflexivity. }
  destruct (filter_default_run (set_filters (_defaultResetFilterHandler (_filters c)) c) v)
    as [Ho Hc].
  - exact Happly.
  - change (filter_values (mutate (_conf c) [] v) = true).
    rewrite Hm. unfold filter_values. simpl. now rewrite Hn.
  - split; [exact Ho |]. rewrite Hc. exact Hm.
Qed.

(** X11.  With the default handlers, on a duplicate-free list of
    filter values on which the closed-range test is identity,
    [filter(v)] for a single value [v] flips [hasFilter(v)], keeps
    every other entry findable, and leaves the list duplicate-free. *)
Theorem filter_flips_hasFilter (c : Chart V) (v : V) :
  default_handlers c ->
  NoDup (filters c) ->
  batch_elements v = None ->
  filter_values (filters c ++ [v]) = true ->
  exact_on (filters c ++ [v]) ->
  outcome_of (filter v c) = Return tt /\
  hasFilter (chart_of (filter v c)) (Some v) = negb (hasFilter c (Some v)) /\
  (forall x, In x (filters c) -> x <> v ->
             hasFilter (chart_of (filter v c)) (Some x) = true) /\
  NoDup (filters (chart_of (filter v c))).
Proof.
  intros [Hhas [Hrem [Hadd [Hreset Happly]]]] Hnd Hb Hwf Hexact.
  unfold filters in *.
  set (R := _filters c ++ [v]) in *.
  assert (HF : incl (_filters c) R) by (intros z Hz; apply in_or_app; now left).
  assert (Hv : In v R) by (apply in_or_app; right; now left).
  assert (Hvn : is_nullish v = false) by now apply (R_not_nullish R Hwf).
  assert (Hnull : is_null v = false).
  { unfold is_nullish in Hvn. now apply orb_false_iff in Hvn. }
  assert (Hm : mutate (_conf c) (_filters c) v = toggle (_conf c) (_filters c) v).
  { rewrite mutate_cases. now rewrite Hb, Hnull. }
  destruct (toggle_flips R Hexact Hwf (_conf c) Hhas Hrem Hadd (_filters c) v Hv HF Hnd)
    as [Hnd1 [Hincl1 Hmem1]].
  destruct (filter_default_run c v Happly) as [Ho Hc].
  { rewrite Hm. unfold filter_values. apply forallb_forall. intros x Hx.
    apply negb_true_iff. apply (R_not_nullish R Hwf). now apply Hincl1. }
  rewrite Hc, Hm. unfold hasFilter. simpl. rewrite Hhas.
  split; [exact Ho |]. split; [| split].
  - rewrite !default_has_memb by assumption.
    rewrite (Hmem1 v Hv), (R_refl R Hexact v Hv). now destruct (memb v (_filters c)).
  - intros x Hx Hneq.
    assert (HxR : In x R) by now apply HF.
    rewrite default_has_memb by now apply (R_not_nullish R Hwf).
    rewrite (Hmem1 x HxR).
    assert (Hxm : memb x (_filters c) = true) by now apply (memb_In R Hexact).
    rewrite Hxm.
    destruct (closed_range x v) eqn:Hxv; [| reflexivity].
    apply Hexact in Hxv; [contradiction | exact HxR | exact Hv].
  - exact Hnd1.
Qed.

End FilterEffects.

(* ================================================================== *)
(** ** Beyond the claims: a batch against one call per value *)
(* ================================================================== *)

Section BatchAsSequence.
Context {V : Type} `{JsValue V}.

Lemma passes_through_apply (c : Chart V) (fs : list V) :
  passes_through c ->
  exists t, applyFilters fs c = (Return fs, c, t) /\
            handler_calls t = if dimension_bound c then [fs] else [].
Proof.
  intros Hpass. rewrite applyFilters_run.
  destruct (dimension_bound c); [| eexists; split; reflexivity].
  destruct (Hpass fs) as [calls [returned [E Hret]]]. rewrite E.
  eexists. split.
  - destruct Hret as [-> | ->]; reflexivity.
  - simpl. now rewrite handler_calls_dimension.
Qed.

Lemma passes_through_filter (c : Chart V) (v : V) :
  passes_through c ->
  exists t, filter v c
            = (Return tt, set_filters (mutate (_conf c) (_filters c) v) c, t) /\
            handler_calls t
            = if dimension_bound c then [mutate (_conf c) (_filters c) v] else [].
Proof.
  intros Hpass. rewrite filter_run.
  destruct (passes_through_apply c (mutate (_conf c) (_filters c) v) Hpass)
    as [t [E Ht]].
  rewrite E. eexists. split; [reflexivity |].
  rewrite !handler_calls_app, Ht, handler_calls_filtered, handler_calls_controls.
  now rewrite !app_nil_r.
Qed.

(** One [filter(a)] per value, in order. *)
Lemma filter_each (inner : list V) (c : Chart V) :
  passes_through c ->
  (forall a, In a inner -> is_null a = false /\ batch_elements a = None) ->
  exists c' t,
    forEach filter inner c = (Return tt, c', t) /\
    _conf c' = _conf c /\
    _filters c' = fold_left (toggle (_conf c)) inner (_filters c) /\
    List.length (handler_calls t)
    = if dimension_bound c then List.length inner else 0%nat.
Proof.
  revert c. induction inner as [| a rest IH]; intros c Hpass Hsingle.
  - exists c, []. repeat split. now destruct (dimension_bound c).
  - destruct (Hsingle a) as [Hnull Hb]; [now left |].
    destruct (passes_through_filter c a Hpass) as [t1 [E1 Ht1]].
    assert (Hm : mutate (_conf c) (_filters c) a = toggle (_conf c) (_filters c) a).
    { rewrite mutate_cases. now rewrite Hb, Hnull. }
    rewrite Hm in E1, Ht1.
    set (c1 := set_filters (toggle (_conf c) (_filters c) a) c) in *.
    destruct (IH c1) as [c' [t2 [E2 [Hconf [Hfs Hlen]]]]].
    + exact Hpass.
    + intros b Hb'. apply Hsingle. now right.
    + exists c', (t1 ++ t2). simpl. unfold bind. rewrite E1, E2.
      repeat split; trivial.
      rewrite handler_calls_app, length_app, Hlen, Ht1.
      change (dimension_bound c1) with (dimension_bound c).
      now destruct (dimension_bound c).
Qed.

(** X12.  Let the filter handler pass lists through unchanged, and let
    [v] be a batch that shares no array with the chart and whose inner
    values are single values (not null, not themselves batches).  Then
    [filter(v)] leaves the same filter list as one [filter(a)] per
    inner value [a] in order; but the batch enters the filter handler
    once and fires [filtered] once, with the batch as payload, where
    the separate calls enter the handler once per value.  (A batch
    around the chart's own array is another call, [filter_call true].) *)
Theorem batch_is_one_application (c : Chart V) (v : V) (inner : list V) :
  passes_through c ->
  batch_elements v = Some inner ->
  (forall a, In a inner -> is_null a = false /\ batch_elements a = None) ->
  let batch := filter_call false v c in
  let one_by_one := forEach (filter_call false) inner c in
  outcome_of batch = Return tt /\
  outcome_of one_by_one = Return tt /\
  filters (chart_of batch) = filters (chart_of one_by_one) /\
  List.length (handler_calls (trace_of batch))
  = (if dimension_bound c then 1%nat else 0%nat) /\
  List.length (handler_calls (trace_of one_by_one))
  = (if dimension_bound c then List.length inner else 0%nat) /\
  filtered_payloads (trace_of batch)
  = if is_undefined v then [] else [Some v].
Proof.
  intros Hpass Hb Hsingle batch one_by_one.
  change batch with (filter v c).
  change one_by_one with (forEach filter inner c).
  destruct (passes_through_filter c v Hpass) as [t [E Ht]].
  destruct (filter_each inner c Hpass Hsingle) as [c' [t' [E' [_ [Hfs Hlen]]]]].
  assert (Hm : mutate (_conf c) (_filters c) v
               = fold_left (toggle (_conf c)) inner (_filters c)).
  { rewrite mutate_cases. now rewrite Hb. }
  assert (Ho : outcome_of (filter v c) = Return tt) by now rewrite E.
  split; [exact Ho |]. split; [now rewrite E' |].
  split; [rewrite E, E'; unfold filters, chart_of; simpl; now rewrite Hm, Hfs |].
  split; [rewrite E; unfold trace_of; simpl; rewrite Ht;
          now destruct (dimension_bound c) |].
  split; [rewrite E'; exact Hlen |].
  now apply filter_filtered_payloads.
Qed.

End BatchAsSequence.

(* ================================================================== *)
(** ** Size of the chart ([width], [height], [sizeSvg]) *)
(* ================================================================== *)

Section Sizing.
Context {V : Type} `{JsValue V}.
Local Open Scope Z_scope.

Lemma with_chart_same (s : Drawn V) : with_chart (chart_part s) s = s.
Proof. destruct s; reflexivity. Qed.

Lemma defaultWidthCalc_bounds (u : Surface) (element : node_t) :
  minWidth u <= _defaultWidthCalc u element /\
  match element with
  | NodeRect w _ => 0 <= minWidth u -> _defaultWidthCalc u element = Z.max (minWidth u) w
  | _ => _defaultWidthCalc u element = minWidth u
  end.
Proof.
  destruct element as [| | w h]; cbn; try (split; [lia | reflexivity]).
  destruct (w =? 0) eqn:E0; destruct (minWidth u <? w) eqn:E1; cbn;
    apply Z.eqb_eq in E0 || apply Z.eqb_neq in E0;
    apply Z.ltb_lt in E1 || apply Z.ltb_ge in E1; split; lia.
Qed.

Lemma defaultHeightCalc_bounds (u : Surface) (element : node_t) :
  minHeight u <= _defaultHeightCalc u element /\
  match element with
  | NodeRect _ h => 0 <= minHeight u -> _defaultHeightCalc u element = Z.max (minHeight u) h
  | _ => _defaultHeightCalc u element = minHeight u
  end.
Proof.
  destruct element as [| | w h]; cbn; try (split; [lia | reflexivity]).
  destruct (h =? 0) eqn:E0; destruct (minHeight u <? h) eqn:E1; cbn;
    apply Z.eqb_eq in E0 || apply Z.eqb_neq in E0;
    apply Z.ltb_lt in E1 || apply Z.ltb_ge in E1; split; lia.
Qed.

Lemma width_get_run (element : node_t) (s : Drawn V) :
  width_get element s =
  match _width (chart_part s) with
  | Some w => (Return w, s, [])
  | None =>
      match _root (chart_part s) with
      | RootSelection =>
          (Return (run_widthCalc (surface s) element),
           with_chart (set_width (Some (run_widthCalc (surface s) element)) (chart_part s)) s,
           [])
      | _ => (Throw TypeError, s, [])
      end
  end.
Proof.
  unfold width_get, bindS, getS.
  destruct (_width (chart_part s)); [reflexivity |].
  destruct (_root (chart_part s)); reflexivity.
Qed.

Lemma height_get_run (element : node_t) (s : Drawn V) :
  height_get element s =
  match _height (chart_part s) with
  | Some h => (Return h, s, [])
  | None =>
      match _root (chart_part s) with
      | RootSelection =>
          (Return (run_heightCalc (surface s) element),
           with_chart (set_height (Some (run_heightCalc (surface s) element)) (chart_part s)) s,
           [])
      | _ => (Throw TypeError, s, [])
      end
  end.
Proof.
  unfold height_get, bindS, getS.
  destruct (_height (chart_part s)); [reflexivity |].
  destruct (_root (chart_part s)); reflexivity.
Qed.

(** X14.  On an anchored chart whose size has not been set, the first
    [width()] / [height()] gives the default calculation and caches it:
    never less than [minWidth] / [minHeight], and, for a non-negative
    minimum, the larger of the minimum and the root node's box; the
    minimum itself when the root has no node or no box. *)
Theorem default_size_is_clamped (s : Drawn V) (element : node_t) :
  _root (chart_part s) = RootSelection ->
  _widthCalc (surface s) = DefaultCalc ->
  _heightCalc (surface s) = DefaultCalc ->
  (_width (chart_part s) = None ->
   exists w,
     width_get element s =
       (Return w, with_chart (set_width (Some w) (chart_part s)) s, []) /\
     minWidth (surface s) <= w /\
     match element with
     | NodeRect bw _ => 0 <= minWidth (surface s) -> w = Z.max (minWidth (surface s)) bw
     | _ => w = minWidth (surface s)
     end) /\
  (_height (chart_part s) = None ->
   exists h,
     height_get element s =
       (Return h, with_chart (set_height (Some h) (chart_part s)) s, []) /\
     minHeight (surface s) <= h /\
     match element with
     | NodeRect _ bh => 0 <= minHeight (surface s) -> h = Z.max (minHeight (surface s)) bh
     | _ => h = minHeight (surface s)
     end).
Proof.
  intros Hroot Hw Hh. split; intros Hnone.
  - exists (_defaultWidthCalc (surface s) element).
    rewrite width_get_run, Hnone, Hroot. unfold run_widthCalc. rewrite Hw.
    split; [reflexivity |]. apply defaultWidthCalc_bounds.
  - exists (_defaultHeightCalc (surface s) element).
    rewrite height_get_run, Hnone, Hroot. unfold run_heightCalc. rewrite Hh.
    split; [reflexivity |]. apply defaultHeightCalc_bounds.
Qed.

(** X15.  The size is computed once: after a [width()] (or [height()])
    that returned, every later call returns the same number without
    touching the chart, whatever the root node has become. *)
Theorem size_computed_once (s s1 : Drawn V) (element : node_t) (n : Z)
    (t : list (draw_event V)) :
  (width_get element s = (Return n, s1, t) ->
   forall element', width_get element' s1 = (Return n, s1, [])) /\
  (height_get element s = (Return n, s1, t) ->
   forall element', height_get element' s1 = (Return n, s1, [])).
Proof.
  split; intros Hrun element'.
  - rewrite width_get_run in Hrun. rewrite width_get_run.
    destruct (_width (chart_part s)) as [w |] eqn:Ew.
    + injection Hrun as <- <- _. rewrite Ew. reflexivity.
    + destruct (_root (chart_part s)); try discriminate.
      injection Hrun as <- <- _. reflexivity.
  - rewrite height_get_run in Hrun. rewrite height_get_run.
    destruct (_height (chart_part s)) as [w |] eqn:Ew.
    + injection Hrun as <- <- _. rewrite Ew. reflexivity.
    + destruct (_root (chart_part s)); try discriminate.
      injection Hrun as <- <- _. reflexivity.
Qed.

(** X16.  Setting a size drops the cached one: on an anchored chart
    [width(n)] followed by [width()] gives [n] for a number other than
    zero, the function's value on the root node for a function, and the
    default calculation for a falsy argument, zero included. *)
Theorem width_set_then_get (s : Drawn V) (a : size_arg) (element : node_t) :
  _root (chart_part s) = RootSelection ->
  (let (r, _) := bindS (width a) (fun _ => width_get element) s in fst r) =
  Return match a with
         | SizeFalsy => _defaultWidthCalc (surface s) element
         | SizeNumber n => if n =? 0 then _defaultWidthCalc (surface s) element else n
         | SizeFunction f => f element
         end.
Proof.
  intros Hroot. unfold bindS, width, modifyS.
  rewrite width_get_run. cbn. rewrite Hroot. cbn.
  destruct a as [| n | f]; cbn; try reflexivity.
  destruct (n =? 0); reflexivity.
Qed.

Lemma sizeSvg_run (element : node_t) (s : Drawn V) :
  sizeSvg element s =
  if _svg (chart_part s) then
    if negb (useViewBoxResizing (surface s)) then
      match width_get element s with
      | (Return w, s1, _) =>
          match height_get element s1 with
          | (Return h, s2, _) => (Return tt, s2, [SvgAttr "width" w; SvgAttr "height" h])
          | (Throw e, s2, _) => (Throw e, s2, [SvgAttr "width" w])
          end
      | (Throw e, s1, _) => (Throw e, s1, [])
      end
    else if negb (svg_viewBox (surface s)) then
      match width_get element s with
      | (Return w, s1, _) =>
          match height_get element s1 with
          | (Return h, s2, _) =>
              (Return tt, with_surface (set_viewBox true (surface s2)) s2, [SvgViewBox w h])
          | (Throw e, s2, _) => (Throw e, s2, [])
          end
      | (Throw e, s1, _) => (Throw e, s1, [])
      end
    else (Return tt, s, [])
  else (Return tt, s, []).
Proof.
  unfold sizeSvg at 1. unfold bindS at 1. unfold getS at 1.
  destruct (_svg (chart_part s)); [| reflexivity].
  destruct (useViewBoxResizing (surface s)); cbn [negb];
    [destruct (svg_viewBox (surface s)); cbn [negb]; [reflexivity |] |];
    unfold bindS; rewrite width_get_run;
    destruct (_width (chart_part s)) as [w |] eqn:Ew;
    destruct (_root (chart_part s)) eqn:Er;
    try reflexivity;
    cbn; rewrite ?height_get_run; cbn; rewrite ?Er;
    destruct (_height (chart_part s)) as [h |] eqn:Eh; reflexivity.
Qed.

End Sizing.

(* ================================================================== *)
(** ** Sizing the svg element and redrawing *)
(* ================================================================== *)

Section Redrawing.
Context {V : Type} `{JsValue V}.

(** X17.  [sizeSvg()] throws exactly when it has to compute a size on a
    chart that is not anchored: there is an svg element to size (and,
    with [useViewBoxResizing], it has no [viewBox] yet), [_root] is not
    a selection, and the width or the height is not cached.  The error
    is the engine's [TypeError]. *)
Theorem sizeSvg_throws_unanchored (s : Drawn V) (element : node_t) (e : exn) :
  (exists s1 t, sizeSvg element s = (Throw e, s1, t)) <->
  e = TypeError /\
  _svg (chart_part s) = true /\
  (useViewBoxResizing (surface s) = true -> svg_viewBox (surface s) = false) /\
  _root (chart_part s) <> RootSelection /\
  (_width (chart_part s) = None \/ _height (chart_part s) = None).
Proof.
  rewrite sizeSvg_run.
  destruct (_svg (chart_part s)) eqn:Es;
    destruct (useViewBoxResizing (surface s)) eqn:Eu;
    destruct (svg_viewBox (surface s)) eqn:Eb; cbn [negb];
    rewrite ?width_get_run;
    destruct (_width (chart_part s)) as [w |] eqn:Ew;
    destruct (_root (chart_part s)) eqn:Er;
    rewrite ?height_get_run; cbn; rewrite ?Er;
    destruct (_height (chart_part s)) as [h |] eqn:Eh;
    (split;
     [ intros (s1 & t & E); try discriminate; injection E as <- _ _;
       repeat split; auto; try discriminate
     | intros (-> & Hs & Hb & Hr & Hc); try discriminate;
       try (specialize (Hb eq_refl); discriminate);
       try (exfalso; apply Hr; reflexivity);
       try (destruct Hc; discriminate);
       eexists; eexists; reflexivity ]).
Qed.

(** X18.  Sizing twice: after a [sizeSvg()] that returned, a second
    call leaves the chart as it is; with [useViewBoxResizing] it writes
    nothing (the [viewBox] is set once), otherwise it writes the same
    width and height again, whatever the root node has become. *)
Theorem sizeSvg_repeated (s s1 : Drawn V) (element element' : node_t)
    (t : list (draw_event V)) :
  sizeSvg element s = (Return tt, s1, t) ->
  sizeSvg element' s1 =
  (Return tt, s1, if useViewBoxResizing (surface s) then [] else t).
Proof.
  rewrite !sizeSvg_run.
  destruct (_svg (chart_part s)) eqn:Es;
    destruct (useViewBoxResizing (surface s)) eqn:Eu;
    destruct (svg_viewBox (surface s)) eqn:Eb; cbn [negb];
    rewrite ?width_get_run;
    destruct (_width (chart_part s)) as [w |] eqn:Ew;
    destruct (_root (chart_part s)) eqn:Er;
    rewrite ?height_get_run; cbn; rewrite ?Er;
    destruct (_height (chart_part s)) as [h |] eqn:Eh;
    intros E; try discriminate; injection E as <- <-;
    cbn; rewrite ?Es, ?Eu, ?Eb; cbn;
    rewrite ?width_get_run; cbn; rewrite ?Ew;
    rewrite ?height_get_run; cbn; rewrite ?Eh; reflexivity.
Qed.

Lemma lift_emit (e : event V) (s : Drawn V) :
  lift (emit e) s = (Return tt, s, [Base e]).
Proof. destruct s; reflexivity. Qed.

Lemma lift_activateRenderlets (ev : option string) (s : Drawn V) :
  lift (_activateRenderlets ev) s =
  (Return tt, s,
   map (@Base V)
     (EvListener "pretransition" None ::
      if (0 <? transitionDuration (_conf (chart_part s)))%Z && _svg (chart_part s)
      then [EvTransition (transitionDuration (_conf (chart_part s)))
              (transitionDelay (_conf (chart_part s))) (renderlet_calls ev)]
      else renderlet_calls ev)).
Proof.
  unfold lift. rewrite activateRenderlets_run. destruct s; reflexivity.
Qed.

Lemma sizeSvg_only_TypeError (s s1 : Drawn V) (element : node_t) (e : exn)
    (t : list (draw_event V)) :
  sizeSvg element s = (Throw e, s1, t) -> e = TypeError.
Proof.
  rewrite sizeSvg_run.
  destruct (_svg (chart_part s)); [| discriminate].
  destruct (negb (useViewBoxResizing (surface s)));
    [| destruct (negb (svg_viewBox (surface s))); [| discriminate]];
    rewrite width_get_run;
    destruct (_width (chart_part s)) as [w |] eqn:Ew;
    destruct (_root (chart_part s)) eqn:Er;
    rewrite ?height_get_run; cbn; rewrite ?Er;
    destruct (_height (chart_part s)) as [h |] eqn:Eh;
    intros E; try discriminate; injection E as <- _ _; reflexivity.
Qed.

Lemma redraw_run (element : node_t) (s : Drawn V) :
  redraw element s =
  match sizeSvg element s with
  | (Return _, s1, t1) => (Return tt, s1, t1 ++ redraw_calls s1)
  | (Throw e, s1, t1) => (Throw e, s1, t1)
  end.
Proof.
  unfold redraw. unfold bindS at 1.
  destruct (sizeSvg element s) as [[[[] | e] s1] t1]; [| reflexivity].
  unfold bindS. rewrite lift_emit. unfold emitS, getS, redraw_calls.
  destruct (_legend (chart_part s1)) eqn:El.
  - rewrite lift_emit, lift_activateRenderlets. cbn.
    destruct ((0 <? _)%Z && _svg (chart_part s1)); reflexivity.
  - unfold retS. rewrite lift_activateRenderlets. cbn.
    destruct ((0 <? _)%Z && _svg (chart_part s1)); reflexivity.
Qed.

(** X19.  [redraw()] sizes the svg element and then calls, in this
    order, the [preRedraw] listeners, the chart type's redraw step, the
    legend if there is one, and [pretransition].  Without a transition
    (the duration is not positive, or there is no svg element) it then
    calls [renderlet] and [postRedraw] itself; with one it calls
    neither: it hands the two calls to the transition, which makes
    them, in that order, if and when it ends.  It makes no check of the
    mandatory attributes: it never throws an [InvalidStateException],
    and when the sizing throws nothing else is called. *)
Theorem redraw_sizes_then_draws (element : node_t) (s : Drawn V) :
  (forall s1 t1,
     sizeSvg element s = (Return tt, s1, t1) ->
     let closing := [EvListener "renderlet" None; EvListener "postRedraw" None] in
     let drawn :=
       [Base (EvListener "preRedraw" None); DoRedraw]
         ++ (if _legend (chart_part s1) then [Base EvLegendRender] else [])
         ++ [Base (EvListener "pretransition" None)] in
     redraw element s =
     (Return tt, s1,
      t1 ++ if (0 <? transitionDuration (_conf (chart_part s1)))%Z
               && _svg (chart_part s1)
            then drawn ++ [Base (EvTransition
                                   (transitionDuration (_conf (chart_part s1)))
                                   (transitionDelay (_conf (chart_part s1)))
                                   closing)]
            else drawn ++ map (@Base V) closing)) /\
  (forall e s1 t1,
     sizeSvg element s = (Throw e, s1, t1) ->
     redraw element s = (Throw e, s1, t1) /\ base_events t1 = []) /\
  (forall msg, fst (fst (redraw element s)) <> Throw (InvalidStateException msg)).
Proof.
  split; [| split].
  - intros s1 t1 E closing drawn. rewrite redraw_run, E.
    unfold redraw_calls, drawn, closing.
    destruct (_legend (chart_part s1));
      destruct ((0 <? transitionDuration (_conf (chart_part s1)))%Z
                && _svg (chart_part s1)); reflexivity.
  - intros e s1 t1 E. rewrite redraw_run, E. split; [reflexivity |].
    rewrite sizeSvg_run in E.
    destruct (_svg (chart_part s)); [| discriminate].
    destruct (negb (useViewBoxResizing (surface s)));
      [| destruct (negb (svg_viewBox (surface s))); [| discriminate]];
      destruct (width_get element s) as [[[w | e1] s2] t2];
      try destruct (height_get element s2) as [[[h | e2] s3] t3];
      try discriminate; injection E as _ _ <-; reflexivity.
  - intros msg E. rewrite redraw_run in E.
    destruct (sizeSvg element s) as [[[[] | e] s1] t1] eqn:Es; [discriminate |].
    cbn in E. injection E as ->.
    apply sizeSvg_only_TypeError in Es. discriminate.
Qed.

End Redrawing.

(* ================================================================== *)
(** ** What [render] and [redraw] do to the size *)
(* ================================================================== *)

Section Resizing.
Context {V : Type} `{JsValue V}.






End Resizing.

(* ================================================================== *)
(** ** [options(opts)] *)
(* ================================================================== *)

Section Options.
Context {V : Type} `{JsValue V}.

Lemma options_app (methods : method_table) (a b : list (string * V)) (s : Drawn V) :
  options methods (a ++ b) s = bindS (options methods a) (fun _ => options methods b) s.
Proof.
  revert s. induction a as [| [o v] a IH]; intros s.
  - cbn. unfold bindS, retS.
    destruct (options methods b s) as [[r s1] t1]. reflexivity.
  - cbn [app options]. unfold bindS.
    destruct (apply_option methods o v s) as [[[[] | e] s1] t1]; [| reflexivity].
    rewrite IH. unfold bindS.
    destruct (options methods a s1) as [[[[] | e] s2] t2]; [| reflexivity].
    destruct (options methods b s2) as [[r s3] t3].
    rewrite app_assoc. reflexivity.
Qed.

(** X21.  Keys that do not name a method of the chart are skipped:
    [options(opts)] with only such keys returns, leaves the chart as it
    was, and calls [logger.debug] once per key, in order, with the
    key's name in the message. *)
Theorem options_unknown_names_logged (methods : method_table)
    (opts : list (string * V)) (s : Drawn V) :
  (forall o v, In (o, v) opts -> methods o = None) ->
  options methods opts s =
  (Return tt, s, map (fun p => LoggerDebug (debug_message (fst p))) opts).
Proof.
  induction opts as [| [o v] opts IH]; intros Hnone; [reflexivity |].
  cbn [options map fst]. unfold bindS, apply_option.
  rewrite (Hnone o v (or_introl eq_refl)). unfold emitS.
  rewrite IH; [reflexivity |].
  intros o' v' Hin. apply (Hnone o' v'). right. exact Hin.
Qed.

(** X22.  [options(opts)] applies the keys in order and stops at the
    first setter that throws: the error is the setter's, the keys
    before it have taken effect, and the keys after it are not
    applied. *)
Theorem options_stops_at_throw (methods : method_table)
    (before after : list (string * V)) (o : string) (v : V)
    (s s1 s2 : Drawn V) (t1 t2 : list (draw_event V)) (e : exn) :
  options methods before s = (Return tt, s1, t1) ->
  apply_option methods o v s1 = (Throw e, s2, t2) ->
  options methods (before ++ (o, v) :: after) s = (Throw e, s2, t1 ++ t2).
Proof.
  intros Hb Ho. rewrite options_app. unfold bindS at 1. rewrite Hb.
  cbn [options]. unfold bindS. rewrite Ho. reflexivity.
Qed.

End Options.

(* ================================================================== *)
(** ** [generateSvg] and [resetSvg] *)
(* ================================================================== *)

Section SvgElement.
Context {V : Type} `{JsValue V}.

(** X23.  [resetSvg()] on an anchored chart removes the svg element,
    appends a new one and sizes it: with [useViewBoxResizing] the new
    element gets its [viewBox] even if the old one had one, otherwise
    its width and height; afterwards the chart has an svg element and
    both sizes are cached.  On a chart that is not anchored it throws a
    [TypeError] before anything is written. *)
Theorem resetSvg_sizes_new_element (s : Drawn V) (element : node_t) :
  (_root (chart_part s) <> RootSelection ->
   resetSvg element s = (Throw TypeError, s, [])) /\
  (_root (chart_part s) = RootSelection ->
   exists s1,
     resetSvg element s =
       (Return tt, s1,
        [SvgRemove; SvgAppend]
          ++ (if useViewBoxResizing (surface s)
              then [SvgViewBox (width_of s element) (height_of s element)]
              else [SvgAttr "width" (width_of s element);
                    SvgAttr "height" (height_of s element)])) /\
     _svg (chart_part s1) = true /\
     _width (chart_part s1) = Some (width_of s element) /\
     _height (chart_part s1) = Some (height_of s element) /\
     (useViewBoxResizing (surface s) = true -> svg_viewBox (surface s1) = true)).
Proof.
  split.
  - intros Hr. unfold resetSvg, bindS, getS.
    destruct (_root (chart_part s)); [reflexivity | reflexivity |].
    exfalso. apply Hr. reflexivity.
  - intros Hr. unfold resetSvg, generateSvg, bindS, getS, emitS, modifyS.
    rewrite Hr. cbn [chart_part with_chart with_surface set_svg _root].
    rewrite Hr. rewrite sizeSvg_run.
    cbn [chart_part surface with_chart with_surface set_svg set_viewBox _svg
         useViewBoxResizing svg_viewBox].
    unfold width_of, height_of.
    destruct (useViewBoxResizing (surface s)) eqn:Eu; cbn [negb];
      rewrite width_get_run;
      cbn [chart_part surface with_chart with_surface set_svg set_viewBox
           _width _root]; rewrite Hr;
      destruct (_width (chart_part s)) as [w |] eqn:Ew;
      rewrite height_get_run;
      cbn [chart_part surface with_chart with_surface set_svg set_width
           set_viewBox _height _root]; rewrite ?Hr;
      destruct (_height (chart_part s)) as [h |] eqn:Eh;
      eexists; (split; [reflexivity |]); cbn; rewrite ?Ew, ?Eh;
      repeat split; congruence.
Qed.

End SvgElement.

(* ================================================================== *)
(** ** The further properties on the example charts *)
(* ================================================================== *)

Section MoreConcrete.
Import NumDomain.
Import Examples.
Import MoreExamples.

Lemma anchorName_drops_first_hash_witness :
  anchorName complete_chart = "chart"%string.
Proof.
  pose proof (anchorName_drops_first_hash complete_chart EmptyString "chart") as Hw.
  exact (proj1 (Hw eq_refl) eq_refl).
Defined.

(** With its svg element the complete chart hands [renderlet] and
    [postRender] to the transition; without one it calls them. *)
Lemma render_draws_in_order_witness :
  render complete_chart =
  (Return tt, complete_chart,
   [EvListener "preRender" None; EvDoRender; EvListener "pretransition" None;
    EvTransition 750 0 [EvListener "renderlet" None; EvListener "postRender" None]]) /\
  render (set_svg false complete_chart) =
  (Return tt, set_svg false complete_chart,
   [EvListener "preRender" None; EvDoRender; EvListener "pretransition" None;
    EvListener "renderlet" None; EvListener "postRender" None]).
Proof.
  split.
  - pose proof (render_draws_in_order complete_chart) as Hw.
    refine (Hw _).
    intros l a Hl Hin. injection Hl as <-.
    destruct Hin as [<- | [<- | []]]; reflexivity.
  - pose proof (render_draws_in_order (set_svg false complete_chart)) as Hw.
    refine (Hw _).
    intros l a Hl Hin. injection Hl as <-.
    destruct Hin as [<- | [<- | []]]; reflexivity.
Defined.

Lemma default_filter_handler_throws_witness :
  exists call,
    _defaultFilterHandler [Null; Num 1] = Return ([call], Some [Null; Num 1]).
Proof.
  pose proof (default_filter_handler_throws [Null; Num 1]) as Hw.
  refine (proj2 (proj2 Hw) _).
  intros f Hf. discriminate Hf.
Defined.

Lemma predicate_stops_at_first_accept_witness :
  filterFunction_body [Num 1; Null] (Num 1) = Return true /\
  filterFunction_body [Num 1; Null] (Num 2) = Throw TypeError.
Proof.
  pose proof (predicate_stops_at_first_accept [Num 1] [] Null) as Hw.
  split.
  - exact (Hw (Num 1) eq_refl eq_refl).
  - exact (Hw (Num 2) eq_refl eq_refl).
Defined.

Lemma remove_takes_first_match_witness :
  exists l1 f l2,
    [Num 2; Num 1; Num 3; Num 1] = l1 ++ f :: l2 /\
    closed_range (Num 1) f = true /\
    (forall g, In g l1 -> closed_range (Num 1) g = false) /\
    _defaultRemoveFilterHandler [Num 2; Num 1; Num 3; Num 1] (Num 1) = l1 ++ l2.
Proof.
  pose proof (remove_takes_first_match [Num 2; Num 1; Num 3; Num 1] (Num 1)) as Hw.
  exact (proj2 (Hw eq_refl) eq_refl).
Defined.

Lemma filter_switches_controls_witness :
  control_writes (trace_of (filter (Num 3) (anchored bound_chart))) = [true] /\
  control_writes (trace_of (filter (Num 1) (anchored (set_filters [Num 1] bound_chart))))
  = [false].
Proof.
  split.
  - pose proof (filter_switches_controls (anchored bound_chart) (Num 3)) as Hw.
    exact (Hw eq_refl eq_refl).
  - pose proof (filter_switches_controls
                  (anchored (set_filters [Num 1] bound_chart)) (Num 1)) as Hw.
    exact (Hw eq_refl eq_refl).
Defined.

(** With the default handlers and a dimension bound,
    [filter(undefined)] on an empty chart is a [TypeError]: the list
    handed to the filter handler is [[undefined]]. *)
Lemma filter_handler_throw_propagates_witness :
  outcome_of (filter Undefined bound_chart) = Throw TypeError /\
  trace_of (filter Undefined bound_chart) = [EvFilterHandler [Undefined]] /\
  filtered_payloads (trace_of (filter Undefined bound_chart)) = [] /\
  control_writes (trace_of (filter Undefined bound_chart)) = [].
Proof.
  pose proof (filter_handler_throw_propagates bound_chart Undefined TypeError) as Hw.
  exact (Hw eq_refl eq_refl).
Defined.

Lemma filter_null_clears_witness :
  filter Null two_filters_chart =
  (Return tt, set_filters [] two_filters_chart,
   [EvFilterHandler []; EvDimension DimFilterNull; EvListener "filtered" (Some Null)]).
Proof.
  pose proof (filter_null_clears two_filters_chart Null) as Hw.
  exact (Hw eq_refl eq_refl eq_refl eq_refl eq_refl).
Defined.

Lemma replaceFilter_leaves_single_witness :
  outcome_of (replaceFilter (Num 1) two_filters_chart) = Return tt /\
  filters (chart_of (replaceFilter (Num 1) two_filters_chart)) = [Num 1].
Proof.
  pose proof (replaceFilter_leaves_single two_filters_chart (Num 1)) as Hw.
  refine (Hw _ eq_refl eq_refl).
  repeat split.
Defined.

Lemma filter_flips_hasFilter_witness :
  hasFilter two_filters_chart (Some (Num 3)) = false /\
  hasFilter (chart_of (filter (Num 3) two_filters_chart)) (Some (Num 3)) = true.
Proof.
  pose proof (filter_flips_hasFilter two_filters_chart (Num 3)) as Hw.
  split; [reflexivity |].
  refine (proj1 (proj2 (Hw _ _ eq_refl eq_refl _))).
  - repeat split.
  - repeat constructor; simpl; intuition discriminate.
  - intros x y Hx Hy. simpl in Hx, Hy.
    destruct Hx as [<- | [<- | [<- | []]]];
      destruct Hy as [<- | [<- | [<- | []]]];
      vm_compute; split; congruence.
Defined.

Lemma batch_is_one_application_witness :
  filters (chart_of (filter states quiet_chart))
  = filters (chart_of (forEach filter [StrDomain.Str "MA"; StrDomain.Str "TX"] quiet_chart)) /\
  List.length (handler_calls (trace_of (filter states quiet_chart))) = 1%nat /\
  List.length (handler_calls
                 (trace_of (forEach filter [StrDomain.Str "MA"; StrDomain.Str "TX"]
                              quiet_chart))) = 2%nat.
Proof.
  pose proof (batch_is_one_application quiet_chart states
                [StrDomain.Str "MA"; StrDomain.Str "TX"]) as Hw.
  assert (Hp : passes_through quiet_chart).
  { intros fs. exists [], None. split; [reflexivity | left; reflexivity]. }
  assert (Hin : forall a, In a [StrDomain.Str "MA"; StrDomain.Str "TX"] ->
                          is_null a = false /\ batch_elements a = None).
  { intros a [<- | [<- | []]]; split; reflexivity. }
  destruct (Hw Hp eq_refl Hin) as (_ & _ & Hf & H1 & H2 & _).
  exact (conj Hf (conj H1 H2)).
Defined.

Lemma default_size_is_clamped_witness :
  (exists w,
     width_get wide_node drawn_chart =
       (Return w, with_chart (set_width (Some w) complete_chart) drawn_chart, []) /\
     (200 <= w)%Z /\ w = Z.max 200 640) /\
  (exists h,
     height_get wide_node drawn_chart =
       (Return h, with_chart (set_height (Some h) complete_chart) drawn_chart, []) /\
     (200 <= h)%Z /\ h = Z.max 200 100).
Proof.
  pose proof (default_size_is_clamped drawn_chart wide_node eq_refl eq_refl eq_refl)
    as [Hw Hh].
  split.
  - destruct (Hw eq_refl) as (w & E & Hle & Hmax).
    exists w. split; [exact E |]. split; [exact Hle |]. apply Hmax. discriminate.
  - destruct (Hh eq_refl) as (h & E & Hle & Hmax).
    exists h. split; [exact E |]. split; [exact Hle |]. apply Hmax. discriminate.
Defined.

Lemma size_computed_once_witness :
  width_get tall_node (snd (fst (width_get wide_node drawn_chart)))
  = (Return 640%Z, snd (fst (width_get wide_node drawn_chart)), []).
Proof.
  pose proof (size_computed_once drawn_chart
                (snd (fst (width_get wide_node drawn_chart))) wide_node 640 []) as Hw.
  exact (proj1 Hw eq_refl tall_node).
Defined.

Lemma width_set_then_get_witness :
  (let (r, _) := bindS (width (SizeNumber 500)) (fun _ => width_get wide_node) drawn_chart
   in fst r) = Return 500%Z /\
  (let (r, _) := bindS (width (SizeNumber 0)) (fun _ => width_get wide_node) drawn_chart
   in fst r) = Return 640%Z.
Proof.
  split.
  - pose proof (width_set_then_get drawn_chart (SizeNumber 500) wide_node) as Hw.
    exact (Hw eq_refl).
  - pose proof (width_set_then_get drawn_chart (SizeNumber 0) wide_node) as Hw.
    exact (Hw eq_refl).
Defined.

Lemma sizeSvg_throws_unanchored_witness :
  exists s1 t, sizeSvg wide_node detached_chart = (Throw TypeError, s1, t).
Proof.
  pose proof (sizeSvg_throws_unanchored detached_chart wide_node TypeError) as Hw.
  apply (proj2 Hw).
  split; [reflexivity |]. split; [reflexivity |].
  split; [intros E; discriminate E |].
  split; [intros E; discriminate E | left; reflexivity].
Defined.

Lemma sizeSvg_repeated_witness :
  sizeSvg wide_node viewBox_chart
  = (Return tt, snd (fst (sizeSvg wide_node viewBox_chart)), [SvgViewBox 640 200]) /\
  sizeSvg tall_node (snd (fst (sizeSvg wide_node viewBox_chart)))
  = (Return tt, snd (fst (sizeSvg wide_node viewBox_chart)), []).
Proof.
  split; [reflexivity |].
  pose proof (sizeSvg_repeated viewBox_chart
                (snd (fst (sizeSvg wide_node viewBox_chart)))
                wide_node tall_node [SvgViewBox 640 200]) as Hw.
  exact (Hw eq_refl).
Defined.

(** With its svg element the chart hands [renderlet] and [postRedraw]
    to the transition; without one it calls them. *)
Lemma redraw_sizes_then_draws_witness :
  redraw wide_node drawn_chart =
  (Return tt, snd (fst (sizeSvg wide_node drawn_chart)),
   [SvgAttr "width" 640; SvgAttr "height" 200;
    Base (EvListener "preRedraw" None); DoRedraw;
    Base (EvListener "pretransition" None);
    Base (EvTransition 750 0
            [EvListener "renderlet" None; EvListener "postRedraw" None])]) /\
  redraw wide_node (with_chart (set_svg false complete_chart) drawn_chart) =
  (Return tt, with_chart (set_svg false complete_chart) drawn_chart,
   [Base (EvListener "preRedraw" None); DoRedraw;
    Base (EvListener "pretransition" None);
    Base (EvListener "renderlet" None); Base (EvListener "postRedraw" None)]).
Proof.
  split.
  - pose proof (redraw_sizes_then_draws wide_node drawn_chart) as Hw.
    exact (proj1 Hw (snd (fst (sizeSvg wide_node drawn_chart)))
             [SvgAttr "width" 640; SvgAttr "height" 200] eq_refl).
  - pose proof (redraw_sizes_then_draws wide_node
                  (with_chart (set_svg false complete_chart) drawn_chart)) as Hw.
    exact (proj1 Hw (with_chart (set_svg false complete_chart) drawn_chart)
             [] eq_refl).
Defined.


Lemma options_unknown_names_logged_witness :
  options no_method [("colour"%string, Num 1); ("size"%string, Num 2)] drawn_chart
  = (Return tt, drawn_chart,
     [LoggerDebug "Not a valid option setter name: colour";
      LoggerDebug "Not a valid option setter name: size"]).
Proof.
  pose proof (options_unknown_names_logged no_method
                [("colour"%string, Num 1); ("size"%string, Num 2)] drawn_chart) as Hw.
  refine (Hw _). intros o v Hin. reflexivity.
Defined.

Lemma options_stops_at_throw_witness :
  fst (fst (options filter_method
              [("colour"%string, Num 1); ("filter"%string, Undefined);
               ("filter"%string, Num 2)] drawn_chart))
  = Throw TypeError.
Proof.
  pose proof (options_stops_at_throw filter_method
                [("colour"%string, Num 1)] [("filter"%string, Num 2)]
                "filter" Undefined drawn_chart drawn_chart
                (snd (fst (apply_option filter_method "filter" Undefined drawn_chart)))
                [LoggerDebug "Not a valid option setter name: colour"]
                (snd (apply_option filter_method "filter" Undefined drawn_chart))
                TypeError eq_refl eq_refl) as Hw.
  cbn [app] in Hw. rewrite Hw. reflexivity.
Defined.

Lemma resetSvg_sizes_new_element_witness :
  exists s1,
    resetSvg wide_node viewBox_chart =
      (Return tt, s1, [SvgRemove; SvgAppend; SvgViewBox 640 200]) /\
    _svg (chart_part s1) = true /\
    _width (chart_part s1) = Some 640%Z /\
    _height (chart_part s1) = Some 200%Z /\
    svg_viewBox (surface s1) = true.
Proof.
  pose proof (resetSvg_sizes_new_element viewBox_chart wide_node) as Hw.
  destruct (proj2 Hw eq_refl) as (s1 & E & Hs & Hwd & Hh & Hv).
  exists s1. split; [exact E |]. split; [exact Hs |].
  split; [exact Hwd |]. split; [exact Hh |]. exact (Hv eq_refl).
Defined.

End MoreConcrete.

(* ================================================================== *)
(** ** The chart's own array under the handlers *)
(* ================================================================== *)

Section OwnArray.
Context {V : Type} `{JsValue V}.

(** While the handlers work in place, [filters] stays the chart's own
    array. *)
Lemma toggle_array_in_place (conf : Conf V) (w : working) (f : V) :
  removeInPlace conf = true -> addInPlace conf = true ->
  other_array w = None ->
  other_array (toggle_array conf w f) = None.
Proof.
  intros Hr Ha Hw. unfold toggle_array, handle. rewrite Hw, Hr, Ha.
  destruct (hasFilterHandler conf (current w) (Some f)); reflexivity.
Qed.

Lemma toggles_in_place (conf : Conf V) (inner : list V) (w : working) :
  removeInPlace conf = true -> addInPlace conf = true ->
  other_array w = None ->
  other_array (fold_left (toggle_array conf) inner w) = None.
Proof.
  intros Hr Ha. revert w. induction inner as [| f inner IH]; intros w Hw.
  - exact Hw.
  - simpl. apply IH. now apply toggle_array_in_place.
Qed.

Lemma own_is_current (w : @working V) :
  other_array w = None -> own_array w = current w.
Proof. intros Hw. unfold current. now rewrite Hw. Qed.

(** X24.  When the remove and add handlers work in place (as the
    default ones do) and the filter handler throws, [filter(v)] has
    already changed the chart's own array: after the throw the chart
    holds the toggled list, although it was never applied.  Only
    [filter(null)] leaves the list as it was, since the reset handler
    returns another array. *)
Theorem filter_throw_keeps_in_place_changes (c : Chart V) (v : V) (e : exn) :
  in_place_as_default c ->
  dimension_bound c = true ->
  filterHandler (_conf c) (mutate (_conf c) (_filters c) v) = Throw e ->
  outcome_of (filter v c) = Throw e /\
  filters (chart_of (filter v c)) =
  match batch_elements v with
  | Some _ => mutate (_conf c) (_filters c) v
  | None => if is_null v then filters c else mutate (_conf c) (_filters c) v
  end.
Proof.
  intros [Hr [Ha Hreset]] Hb Hthrow.
  rewrite filter_run, applyFilters_run, Hb, Hthrow.
  split; [reflexivity |].
  unfold filters, chart_of, mutate, mutation. cbn [fst snd _filters set_filters].
  destruct (batch_elements v) as [inner |].
  - apply own_is_current. now apply toggles_in_place.
  - destruct (is_null v).
    + unfold handle. cbn [other_array own_array]. rewrite Hreset. reflexivity.
    + apply own_is_current. now apply toggle_array_in_place.
Qed.

Lemma forEach_own_idle (conf : Conf V) (n k : nat) (w : working) :
  (List.length (own_array w) <= k)%nat -> forEach_own conf n k w = w.
Proof.
  revert k. induction n as [| n IH]; intros k Hk; simpl; [reflexivity |].
  assert (Hnone : nth_error (own_array w) k = None) by now apply nth_error_None.
  rewrite Hnone. apply IH. lia.
Qed.

Lemma remove_middle (P Q : list V) (q : V) :
  (forall p, In p P -> closed_range p q = false) ->
  closed_range q q = true ->
  _defaultRemoveFilterHandler (P ++ q :: Q) q = P ++ Q.
Proof.
  intros HP Hq. induction P as [| p P IH]; simpl.
  - rewrite has_test_closed, Hq. reflexivity.
  - rewrite has_test_closed, (HP p) by now left.
    f_equal. apply IH. intros p' Hp'. apply HP. now right.
Qed.

Lemma every_other_incl (l : list V) : incl (every_other l) l.
Proof.
  assert (Hboth : incl (every_other l) l /\
                  forall a, incl (every_other (a :: l)) (a :: l)).
  { induction l as [| b l [IH1 IH2]].
    - split; [intros x [] | intros a x []].
    - split; [apply IH2 |].
      intros a x [<- | Hx]; [right; now left |].
      right. right. now apply IH1. }
  apply Hboth.
Qed.

(** The loop of a batch around the chart's own array, with the default
    has and remove handlers: at index [length P] it finds the first
    entry of [Q], removes it, and so steps over the entry after it. *)
Lemma shared_loop (conf : Conf V) :
  hasFilterHandler conf = _defaultHasFilterHandler ->
  removeFilterHandler conf = _defaultRemoveFilterHandler ->
  removeInPlace conf = true ->
  forall (n : nat) (P Q : list V),
    (List.length Q <= n)%nat ->
    NoDup (P ++ Q) ->
    exact_on (P ++ Q) ->
    filter_values (P ++ Q) = true ->
    forEach_own conf n (List.length P) {| own_array := P ++ Q; other_array := None |}
    = {| own_array := P ++ every_other Q; other_array := None |}.
Proof.
  intros Hhas Hrem Hplace.
  induction n as [| n IH]; intros P Q Hlen Hnd Hexact Hwf.
  - destruct Q; [reflexivity | simpl in Hlen; lia].
  - destruct Q as [| q Q1].
    + apply forEach_own_idle. cbn [own_array]. rewrite app_nil_r. lia.
    + assert (Hin : In q (P ++ q :: Q1)) by (apply in_or_app; right; now left).
      assert (Hqq : closed_range q q = true) by now apply Hexact.
      assert (HqP : forall p, In p P -> closed_range p q = false).
      { intros p Hp. destruct (closed_range p q) eqn:E; [| reflexivity].
        apply Hexact in E; [| apply in_or_app; now left | exact Hin].
        subst p. apply NoDup_remove_2 in Hnd.
        exfalso. apply Hnd. apply in_or_app. now left. }
      assert (Hvalue : is_nullish q = false).
      { unfold filter_values in Hwf. rewrite forallb_forall in Hwf.
        apply negb_true_iff. now apply Hwf. }
      assert (Hstep : toggle_array conf {| own_array := P ++ q :: Q1; other_array := None |} q
                      = {| own_array := P ++ Q1; other_array := None |}).
      { unfold toggle_array, handle, current. cbn [own_array other_array].
        rewrite Hhas, Hrem, Hplace.
        unfold _defaultHasFilterHandler. fold (is_nullish q). rewrite Hvalue.
        assert (Hfound : existsb (fun f => js_le q f && js_ge q f) (P ++ q :: Q1) = true).
        { apply existsb_exists. exists q. split; [exact Hin | exact Hqq]. }
        rewrite Hfound. now rewrite remove_middle. }
      cbn [forEach_own own_array].
      assert (Hnth : nth_error (P ++ q :: Q1) (List.length P) = Some q).
      { rewrite nth_error_app2 by lia. now rewrite Nat.sub_diag. }
      rewrite Hnth, Hstep.
      assert (Hnd1 : NoDup (P ++ Q1)) by now apply NoDup_remove_1 in Hnd.
      destruct Q1 as [| q1 Q2].
      * rewrite forEach_own_idle; [reflexivity |].
        cbn [own_array]. rewrite app_nil_r. lia.
      * assert (Hsplit : P ++ q1 :: Q2 = (P ++ [q1]) ++ Q2)
          by now rewrite <- app_assoc.
        assert (Hincl : incl ((P ++ [q1]) ++ Q2) (P ++ q :: q1 :: Q2)).
        { rewrite <- Hsplit. intros x Hx. apply in_app_or in Hx.
          apply in_or_app. destruct Hx as [Hx | Hx]; [now left | right; now right]. }
        replace (S (List.length P)) with (List.length (P ++ [q1]))
          by (rewrite length_app; simpl; lia).
        rewrite Hsplit, IH.
        -- cbn [every_other]. now rewrite <- app_assoc.
        -- simpl in Hlen. lia.
        -- now rewrite <- Hsplit.
        -- intros x y Hx Hy. apply Hexact; now apply Hincl.
        -- unfold filter_values in *. rewrite forallb_forall in *.
           intros x Hx. apply Hwf. now apply Hincl.
Qed.

(** X25.  A batch around the chart's own array:
    [chart.filter([chart.filters()])].  With the default handlers, on a
    duplicate-free list of filter values on which the closed-range test
    is identity, the call does not empty the list: the loop runs over
    the array that the remove handler shortens under it, so it removes
    the first, third, fifth, ... entry and leaves the second, fourth,
    ... in place. *)
Theorem shared_batch_removes_every_other (c : Chart V) (v : V) :
  default_handlers c ->
  in_place_as_default c ->
  batch_elements v = Some (filters c) ->
  NoDup (filters c) ->
  filter_values (filters c) = true ->
  exact_on (filters c) ->
  outcome_of (filter_call true v c) = Return tt /\
  filters (chart_of (filter_call true v c)) = every_other (filters c).
Proof.
  intros [Hhas [Hrem [Hadd [Hreset Happly]]]] [Hplace _] Hb Hnd Hwf Hexact.
  unfold filters in *.
  assert (Hm : mutation (_conf c) true (_filters c) v
               = {| own_array := every_other (_filters c); other_array := None |}).
  { unfold mutation. rewrite Hb.
    apply (shared_loop (_conf c) Hhas Hrem Hplace
             (List.length (_filters c)) [] (_filters c)); auto. }
  assert (Hvalues : filter_values (every_other (_filters c)) = true).
  { unfold filter_values in *. rewrite forallb_forall in *.
    intros x Hx. apply Hwf. now apply every_other_incl. }
  rewrite filter_call_run, Hm, applyFilters_run. cbn [current other_array own_array].
  destruct (dimension_bound c); [| split; reflexivity].
  rewrite Happly.
  destruct (default_filter_handler_total _ Hvalues) as [calls E].
  rewrite E. split; reflexivity.
Qed.

End OwnArray.

Section OwnArrayConcrete.
Import NumDomain.
Import Examples.
Import MoreExamples.

(** [filter(undefined)] on an empty chart with a dimension bound throws
    and leaves [[undefined]] in the chart. *)
Lemma filter_throw_keeps_in_place_changes_witness :
  outcome_of (filter Undefined bound_chart) = Throw TypeError /\
  filters (chart_of (filter Undefined bound_chart)) = [Undefined].
Proof.
  pose proof (filter_throw_keeps_in_place_changes bound_chart Undefined TypeError) as Hw.
  refine (Hw _ eq_refl eq_refl). repeat split.
Defined.

(** On ['MA', 'TX', 'CA'] the batch around the chart's own array leaves
    ['TX']. *)
Lemma shared_batch_removes_every_other_witness :
  filters (chart_of (filter_call true (own_batch three_states_chart) three_states_chart))
  = [StrDomain.Str "TX"].
Proof.
  pose proof (shared_batch_removes_every_other three_states_chart
                (own_batch three_states_chart)) as Hw.
  refine (proj2 (Hw _ _ eq_refl _ eq_refl _)).
  - repeat split.
  - repeat split.
  - repeat constructor; simpl; intuition discriminate.
  - intros x y Hx Hy. simpl in Hx, Hy.
    destruct Hx as [<- | [<- | [<- | []]]];
      destruct Hy as [<- | [<- | [<- | []]]];
      vm_compute; split; congruence.
Defined.

End OwnArrayConcrete.
